(** * DmpBbo: the black-box optimisation loop and its checkpoint writer

    A shallow embedding of [src/bbo/runOptimization.cpp]
    ([saveToDirectory], [runOptimization]) and of
    [TaskSolverDmp::performRollouts] from [src/dmp_bbo/TaskSolverDmp.cpp],
    with the properties of the design document proved about them.

    Conventions.
    - A C++ [int] is a [Z]; arithmetic on it wraps around at 32 bits
      ([Int.add], [Int.mul]).
    - A [double] is an abstract type: no property below depends on
      floating-point arithmetic, only on which value is stored where.
    - Effects (file system, console, random generator, calls to the
      pluggable strategies) are threaded through a state-and-failure monad
      over a [World]; a failed [assert] or an Eigen size/index assertion is
      [Aborted]. *)

From Stdlib Require Import Ascii.
From stdpp Require Import base strings list gmap.

Local Open Scope Z_scope.

(** ** 32-bit integers *)

Module Int.

Definition min_int : Z := -2147483648.
Definition max_int : Z := 2147483647.

(** Two's complement reduction to 32 bits. *)
Definition wrap (z : Z) : Z := (z + 2147483648) mod 4294967296 - 2147483648.

Definition add (a b : Z) : Z := wrap (a + b).
Definition mul (a b : Z) : Z := wrap (a * b).

Definition in_range (z : Z) : Prop := min_int <= z <= max_int.

End Int.

(** ** Stream formatting: [operator<<] on an [int] under [setw] and [setfill] *)

Definition digit_char (d : Z) : Ascii.ascii := Ascii.ascii_of_nat (48 + Z.to_nat d).

(** The decimal digits of a non-negative number, most significant first. *)
Fixpoint decimal_digits (fuel : nat) (n : Z) (acc : string) : string :=
  match fuel with
  | O => acc
  | S fuel' =>
      let acc' := String (digit_char (n mod 10)) acc in
      if n / 10 =? 0 then acc' else decimal_digits fuel' (n / 10) acc'
  end.

(** [stream << n] for a 32-bit [n]: at most ten digits and a sign. *)
Definition show_int (n : Z) : string :=
  if n <? 0 then String "-"%char (decimal_digits 10 (- n) EmptyString)
  else decimal_digits 10 n EmptyString.

Fixpoint fill (n : nat) (c : Ascii.ascii) : string :=
  match n with
  | O => EmptyString
  | S n' => String c (fill n' c)
  end.

(** [stream << setw(w) << setfill(c) << s]: pad on the left up to width [w];
    a longer [s] is printed whole. *)
Definition setw_fill (w : nat) (c : Ascii.ascii) (s : string) : string :=
  (fill (w - String.length s)%nat c +:+ s)%string.

(** The [width] decimal digits of [n], most significant first: a
    zero-padded [width]-digit index, as the design document words it. *)
Fixpoint zero_padded (width : nat) (n : Z) : string :=
  match width with
  | O => EmptyString
  | S width' =>
      (zero_padded width' (n / 10)
       +:+ String (digit_char (n mod 10)) EmptyString)%string
  end.

(** The number of decimal digits of a non-negative number. *)
Fixpoint num_digits (fuel : nat) (n : Z) : nat :=
  match fuel with
  | O => O
  | S fuel' => if n / 10 =? 0 then 1%nat else S (num_digits fuel' (n / 10))
  end.

(** An index zero-padded to [width] digits: its decimal digits, with zeros
    on the left when they are fewer than [width]. *)
Definition zero_padded_index (width : nat) (n : Z) : string :=
  zero_padded (Nat.max width (num_digits 10 n)) n.

(** The number that a string of decimal digits stands for, read from the
    left; [acc] is the value of the digits read so far. *)
Fixpoint decimal_value (s : string) (acc : Z) : Z :=
  match s with
  | EmptyString => acc
  | String c s' =>
      decimal_value s' (10 * acc + (Z.of_nat (Ascii.nat_of_ascii c) - 48))
  end.

(** ** Outcomes and the state-and-failure monad *)

Inductive outcome (A : Type) : Type :=
| Done (a : A)
| Aborted (why : string).
Arguments Done {A} a.
Arguments Aborted {A} why.

Definition M (S A : Type) : Type := S -> outcome (A * S).

Definition ret {S A} (a : A) : M S A := fun s => Done (a, s).

Definition bind {S A B} (c : M S A) (k : A -> M S B) : M S B :=
  fun s => match c s with
           | Done (a, s') => k a s'
           | Aborted why => Aborted why
           end.

Definition abort {S A} (why : string) : M S A := fun _ => Aborted why.

Notation "'let*' x ':=' c 'in' k" := (bind c (fun x => k))
  (at level 10, x pattern, c at level 100, k at level 200).

(** [if (!c) return false; k] *)
Definition unless_false {S} (c : M S bool) (k : M S bool) : M S bool :=
  let* b := c in if b then k else ret false.

Notation "'must' c 'in' k" := (unless_false c k)
  (at level 10, c at level 100, k at level 200).

(** [assert(b)] *)
Definition assert {S} (b : bool) : M S unit :=
  if b then ret tt else abort "assertion failed".

Definition get {S} : M S S := fun s => Done (s, s).
Definition put {S} (s : S) : M S unit := fun _ => Done (tt, s).

(** [v[i]] on a [std::vector], at an index that an [assert] or the bound
    of a loop keeps within the vector, as it is in [saveToDirectory] and in
    [performRollouts].  The operator itself checks nothing; the call that
    can leave the vector is modelled by [unchecked_index] below. *)
Definition at_index {S A} (v : list A) (i : nat) : M S A :=
  match v !! i with
  | Some a => ret a
  | None => abort "vector index out of range"
  end.

(** ** The data model, the world and the file system *)

(** [Eigen::VectorXd] over a type of coefficients *)
Abbreviation VectorXd := list (only parsing).

Section Bbo.

(** [double] is abstract, and so is the state of the random number
    generator. *)
Context {double Rng : Type}.

(** [Eigen::MatrixXd] as its rows; the column count is kept apart, since a
    matrix may have columns and no rows. *)
Record MatrixXd : Type := mkMatrix { cols : Z; coeffs : list (list double) }.

Definition rows (m : MatrixXd) : Z := Z.of_nat (length (coeffs m)).

(** [m.size()] *)
Definition mat_size (m : MatrixXd) : Z := rows m * cols m.

(** [v.size()] *)
Definition vec_size (v : VectorXd double) : Z := Z.of_nat (length v).

Record DistributionGaussian : Type :=
  mkDistribution { mean : VectorXd double; covar : MatrixXd }.

(** What [saveMatrix] is given to write. *)
Inductive Contents : Type :=
| RealMatrix (m : MatrixXd)
| RealVector (v : VectorXd double)
| IntVector (v : list Z).

(** What [runOptimization] prints on [cout]. *)
Inductive Printed : Type :=
| PrintInit (d : DistributionGaussian)
| PrintUpdate (cost_eval : double) (number : Z) (d : DistributionGaussian).

(** The calls that leave the program, in the order they are made. *)
Inductive Event : Type :=
| CreateDirectories (path : string) (ok : bool)
| SaveMatrix (dir file : string) (c : Contents) (overwrite ok : bool)
| Cerr (msg : string)
| Cout (p : Printed)
| Evaluate (x : VectorXd double)
| GenerateSamples (d : DistributionGaussian) (n : Z)
| UpdateDistribution (d : DistributionGaussian) (samples : MatrixXd)
    (costs : VectorXd double).

Record World : Type := mkWorld {
  rng : Rng;
  dirs : gset string;               (* the directories that exist *)
  files : gmap string Contents;     (* the files that exist *)
  denied : gset string;             (* paths that cannot be created *)
  trace : list Event
}.

Definition emit (e : Event) : M World unit :=
  fun w => Done (tt, mkWorld (rng w) (dirs w) (files w) (denied w)
                       (trace w ++ [e])).

(** [boost::filesystem::exists] *)
Definition fs_exists (path : string) : M World bool :=
  fun w => Done (bool_decide (path ∈ dirs w)
                 || bool_decide (is_Some (files w !! path)), w).

(** The directories above [path]: its prefixes that end before a
    separator; [pre] is the part of the path already read. *)
Fixpoint parent_paths_from (pre s : string) : list string :=
  match s with
  | EmptyString => []
  | String c s' =>
      (if Ascii.eqb c "/"
       then match pre with EmptyString => [] | _ => [pre] end
       else [])
      ++ parent_paths_from (pre +:+ String c EmptyString) s'
  end.

Definition parent_paths (path : string) : list string :=
  parent_paths_from EmptyString path.

(** [boost::filesystem::create_directories(const path&)], the overload
    without an [error_code]: it returns false when the directory is there
    and nothing had to be made; it makes the directory and those above it
    that are missing, and returns true; and when that fails it throws
    [filesystem_error], which nothing in [runOptimization.cpp] catches, so
    that the program ends.  [denied] holds the paths whose creation fails,
    for whatever reason. *)
Definition create_directories (path : string) : M World bool :=
  fun w =>
    if bool_decide (path ∈ dirs w)
    then Done (false, mkWorld (rng w) (dirs w) (files w) (denied w)
                        (trace w ++ [CreateDirectories path false]))
    else if bool_decide (path ∈ denied w)
    then Aborted "filesystem_error"
    else Done (true, mkWorld (rng w)
                       ({[path]} ∪ list_to_set (parent_paths path) ∪ dirs w)
                       (files w) (denied w)
                       (trace w ++ [CreateDirectories path true])).

Definition file_path (dir file : string) : string :=
  (dir +:+ "/" +:+ file)%string.

(** Modelled from the spec: [saveMatrix] of [dmpbbo_io/EigenFileIO.hpp],
    which is not part of the sources at hand.  "If file exists and
    overwrite == false, must fail (not silently skip)"; a file system
    failure fails as well; a failure is reported with the file that
    failed; otherwise the matrix becomes the contents of the file. *)
Definition saveMatrix (dir file : string) (c : Contents) (overwrite : bool)
  : M World bool :=
  fun w =>
    let path := file_path dir file in
    if (bool_decide (is_Some (files w !! path)) && negb overwrite)
       || bool_decide (path ∈ denied w)
    then Done (false, mkWorld (rng w) (dirs w) (files w) (denied w)
                        (trace w ++ [SaveMatrix dir file c overwrite false;
                                     Cerr path]))
    else Done (true, mkWorld (rng w) (dirs w) (<[path := c]> (files w))
                       (denied w)
                       (trace w ++ [SaveMatrix dir file c overwrite true])).

(** ** [saveToDirectory] *)

(** [if (!exists(p)) if (!create_directories(p)) { cerr << ...; return false; }],
    as it stands twice at the head of [saveToDirectory]; the result tells
    whether the function goes on.  The report is kept without the
    [__FILE__] and [__LINE__] that the code puts before it. *)
Definition make_directory_if_missing (path : string) : M World bool :=
  let* e := fs_exists path in
  if e then ret true
  else
    let* made := create_directories path in
    if made then ret true
    else
      let* _ := emit (Cerr ("Couldn't make directory file '" +:+ path +:+ "'.")) in
      ret false.

(** [stream << directory << "/update" << setw(5) << setfill('0') << i_update] *)
Definition update_directory (directory : string) (i_update : Z) : string :=
  (directory +:+ "/update" +:+ setw_fill 5 "0" (show_int i_update))%string.

(** [stream << prefix << setw(3) << setfill('0') << dd] *)
Definition indexed_name (prefix : string) (dd : nat) : string :=
  (prefix +:+ setw_fill 3 "0" (show_int (Z.of_nat dd)))%string.

(** [for (unsigned int dd=...; dd<distributions.size(); dd++)] with the two
    guarded writes of its body; [n] counts the iterations that remain and
    [ds] is the vector that the body indexes. *)
Fixpoint save_indexed (dir prefix : string) (ds : list DistributionGaussian)
    (ow : bool) (n : nat) (dd : nat) : M World bool :=
  match n with
  | O => ret true
  | S n' =>
      let stream := indexed_name prefix dd in
      let* d := at_index ds dd in
      must saveMatrix dir (stream +:+ "_mean.txt") (RealVector (mean d)) ow in
      must saveMatrix dir (stream +:+ "_covar.txt") (RealMatrix (covar d)) ow in
      save_indexed dir prefix ds ow n' (S dd)
  end.

Definition saveToDirectory (directory : string) (i_update : Z)
    (distributions : list DistributionGaussian) (cost_eval : option double)
    (samples : MatrixXd) (costs weights : VectorXd double)
    (distributions_new : list DistributionGaussian) (overwrite : bool)
  : M World bool :=
  must make_directory_if_missing directory in
  let dir_update := update_directory directory i_update in
  must make_directory_if_missing dir_update in
  let ow := overwrite in
  let dir := dir_update in
  let* _ := assert (length distributions =? length distributions_new)%nat in
  must (if (length distributions =? 1)%nat then
          let* d := at_index distributions 0 in
          must saveMatrix dir "distribution_mean.txt" (RealVector (mean d)) ow in
          must saveMatrix dir "distribution_covar.txt" (RealMatrix (covar d)) ow in
          ret true
        else
          let n_parallel :=
            IntVector [Int.wrap (Z.of_nat (length distributions))] in
          must saveMatrix dir "n_parallel.txt" n_parallel ow in
          save_indexed dir "/distribution_" distributions ow
            (length distributions) 0) in
  must (match cost_eval with
        | Some c => saveMatrix dir "cost_eval.txt" (RealVector [c]) ow
        | None => ret true
        end) in
  must (if 0 <? mat_size samples
        then saveMatrix dir "samples.txt" (RealMatrix samples) ow
        else ret true) in
  must (if 0 <? vec_size costs
        then saveMatrix dir "costs.txt" (RealVector costs) ow
        else ret true) in
  must (if 0 <? vec_size weights
        then saveMatrix dir "weights.txt" (RealVector weights) ow
        else ret true) in
  if (length distributions =? 1)%nat then
    let* d := at_index distributions_new 0 in
    must saveMatrix dir "distribution_new_mean.txt" (RealVector (mean d)) ow in
    must saveMatrix dir "distribution_new_covar.txt" (RealMatrix (covar d)) ow in
    ret true
  else
    must save_indexed dir "/distribution_new_" distributions_new ow
           (length distributions) 0 in
    ret true.

(** The overload for one distribution. *)
Definition saveToDirectory1 (directory : string) (i_update : Z)
    (distribution : DistributionGaussian) (cost_eval : option double)
    (samples : MatrixXd) (costs weights : VectorXd double)
    (distribution_new : DistributionGaussian) (overwrite : bool)
  : M World bool :=
  let distribution_vec := [] ++ [distribution] in
  let distribution_new_vec := [] ++ [distribution_new] in
  saveToDirectory directory i_update distribution_vec cost_eval samples costs
    weights distribution_new_vec overwrite.

(** *** The checkpoint layout of the design document

    The files of one update directory, in the order in which they are
    written, as section 6 of the design document lists them.  This is the
    specification side; [checkpoint_body_layout] below relates the code to
    it. *)

Definition Entry : Type := (string * Contents)%type.

Fixpoint indexed_layout (prefix : string) (dd : nat)
    (ds : list DistributionGaussian) : list Entry :=
  match ds with
  | [] => []
  | d :: rest =>
      ((indexed_name prefix dd +:+ "_mean.txt")%string, RealVector (mean d))
      :: ((indexed_name prefix dd +:+ "_covar.txt")%string, RealMatrix (covar d))
      :: indexed_layout prefix (S dd) rest
  end.

Definition current_layout (ds : list DistributionGaussian) : list Entry :=
  match ds with
  | [d] => [("distribution_mean.txt", RealVector (mean d));
            ("distribution_covar.txt", RealMatrix (covar d))]
  | _ => ("n_parallel.txt", IntVector [Int.wrap (Z.of_nat (length ds))])
         :: indexed_layout "/distribution_" 0 ds
  end.

Definition new_layout (ds : list DistributionGaussian) : list Entry :=
  match ds with
  | [d] => [("distribution_new_mean.txt", RealVector (mean d));
            ("distribution_new_covar.txt", RealMatrix (covar d))]
  | _ => indexed_layout "/distribution_new_" 0 ds
  end.

Definition optional_layout (cost_eval : option double) (samples : MatrixXd)
    (costs weights : VectorXd double) : list Entry :=
  match cost_eval with
  | Some c => [("cost_eval.txt", RealVector [c])]
  | None => []
  end
  ++ (if 0 <? mat_size samples then [("samples.txt", RealMatrix samples)] else [])
  ++ (if 0 <? vec_size costs then [("costs.txt", RealVector costs)] else [])
  ++ (if 0 <? vec_size weights then [("weights.txt", RealVector weights)] else []).

Definition checkpoint_layout (ds : list DistributionGaussian)
    (cost_eval : option double) (samples : MatrixXd)
    (costs weights : VectorXd double)
    (ds_new : list DistributionGaussian) : list Entry :=
  current_layout ds ++ optional_layout cost_eval samples costs weights
  ++ new_layout ds_new.

(** Write the entries in order, stopping at the first that fails. *)
Fixpoint write_all (dir : string) (ow : bool) (plan : list Entry)
  : M World bool :=
  match plan with
  | [] => ret true
  | (f, c) :: rest => must saveMatrix dir f c ow in write_all dir ow rest
  end.

(** *** Reading a trace *)

Definition saved_event (dir : string) (ow : bool) (e : Entry) : Event :=
  SaveMatrix dir e.1 e.2 ow true.

(** A step of the writer that succeeded. *)
Definition succeeded (e : Event) : Prop :=
  match e with
  | CreateDirectories _ ok | SaveMatrix _ _ _ _ ok => ok = true
  | _ => False
  end.

(** A step of the writer that failed. *)
Definition failed (e : Event) : Prop :=
  match e with
  | CreateDirectories _ ok | SaveMatrix _ _ _ _ ok => ok = false
  | _ => False
  end.

(** The files that a trace tried to write, and those that it wrote. *)
Definition attempted (evs : list Event) : list (string * Entry) :=
  omap (fun e => match e with
                 | SaveMatrix dir f c _ _ => Some (dir, (f, c))
                 | _ => None
                 end) evs.

Definition written (evs : list Event) : list (string * Entry) :=
  omap (fun e => match e with
                 | SaveMatrix dir f c _ true => Some (dir, (f, c))
                 | _ => None
                 end) evs.

(** What a run of [write_all] on [plan] leaves: the entries [done] were
    written; the run either wrote the whole plan, or stopped at the entry
    after [done], which failed and was reported. *)
Definition write_result (dir : string) (ow : bool) (plan : list Entry)
    (w : World) (r : bool) (w' : World) : Prop :=
  rng w' = rng w /\ dirs w' = dirs w /\ denied w' = denied w /\
  exists done : list Entry,
    (ow = false -> forall e, e ∈ done -> files w !! file_path dir e.1 = None) /\
    (ow = false -> forall p c, files w !! p = Some c -> files w' !! p = Some c) /\
    ((r = true /\ done = plan /\
      trace w' = trace w ++ map (saved_event dir ow) plan)
     \/ (r = false /\ exists f c rest,
           plan = done ++ (f, c) :: rest /\
           trace w' = trace w ++ map (saved_event dir ow) done
                      ++ [SaveMatrix dir f c ow false; Cerr (file_path dir f)])).

(** What a call of [saveToDirectory] that returns leaves, [evs] being the
    events that it added: directories made, then files written, then, when
    and only when the call returns false, the file that failed and its
    report. *)
Definition checkpoint_result (dir : string) (ow : bool) (plan : list Entry)
    (w : World) (r : bool) (w' : World) (evs : list Event) : Prop :=
  rng w' = rng w /\ denied w' = denied w /\
  trace w' = trace w ++ evs /\
  (ow = false -> forall p c, files w !! p = Some c -> files w' !! p = Some c) /\
  exists (made : list string) (done : list Entry) (tail : list Event),
    evs = map (fun p => CreateDirectories p true) made
          ++ map (saved_event dir ow) done ++ tail /\
    (ow = false -> forall e, e ∈ done -> files w !! file_path dir e.1 = None) /\
    ((r = true /\ done = plan /\ tail = [])
     \/ (r = false /\ exists f c rest,
           plan = done ++ (f, c) :: rest /\
           tail = [SaveMatrix dir f c ow false; Cerr (file_path dir f)])).

(** ** Eigen operations

    Eigen checks sizes and indices with assertions; a failed one ends the
    program. *)

(** [VectorXd v(n)]: storage that is not initialised. *)
Definition vector_alloc {S} (u : double) (n : Z) : M S (VectorXd double) :=
  if n <? 0 then abort "Eigen: invalid size"
  else ret (replicate (Z.to_nat n) u).

(** [MatrixXd m(r,c)] and [m.resize(r,c)]: storage that is not initialised. *)
Definition matrix_alloc {S} (u : double) (r c : Z) : M S MatrixXd :=
  if (r <? 0) || (c <? 0) then abort "Eigen: invalid size"
  else ret (mkMatrix c (replicate (Z.to_nat r) (replicate (Z.to_nat c) u))).

(** [m.row(i)] *)
Definition row {S} (m : MatrixXd) (i : Z) : M S (VectorXd double) :=
  match (if 0 <=? i then coeffs m !! Z.to_nat i else None) with
  | Some r => ret r
  | None => abort "Eigen: index out of range"
  end.

(** [v[i] = x] *)
Definition vec_set {S} (v : VectorXd double) (i : Z) (x : double)
  : M S (VectorXd double) :=
  if (0 <=? i) && (i <? vec_size v) then ret (<[Z.to_nat i := x]> v)
  else abort "Eigen: index out of range".

(** [m(i,j) = x] *)
Definition mat_set {S} (m : MatrixXd) (i j : Z) (x : double) : M S MatrixXd :=
  if (0 <=? i) && (i <? rows m) && (0 <=? j) && (j <? cols m) then
    match coeffs m !! Z.to_nat i with
    | Some r => ret (mkMatrix (cols m)
                       (<[Z.to_nat i := <[Z.to_nat j := x]> r]> (coeffs m)))
    | None => abort "Eigen: index out of range"
    end
  else abort "Eigen: index out of range".

(** [m.block(i,j,1,w) = r], for a row [r]: the block lies within [m] and
    has the shape of [r]. *)
Definition block_assign {S} (m : MatrixXd) (i j w : Z) (r : VectorXd double)
  : M S MatrixXd :=
  if (0 <=? i) && (i <? rows m) && (0 <=? j) && (0 <=? w) && (j + w <=? cols m)
     && (vec_size r =? w) then
    match coeffs m !! Z.to_nat i with
    | Some old =>
        ret (mkMatrix (cols m)
               (<[Z.to_nat i := take (Z.to_nat j) old ++ r
                                ++ drop (Z.to_nat (j + w)) old]> (coeffs m)))
    | None => abort "Eigen: index out of range"
    end
  else abort "Eigen: block out of range".

(** ** The collaborators of the optimisation loop

    [DistributionGaussian], [CostFunction] and [Updater] are declared in
    headers that are not part of the sources at hand; what the loop uses of
    them is taken as a parameter. *)

Class Externals : Type := {
  (** the value of storage that was never written *)
  uninitialized : double;
  (** the conversion of an [int] to a [double] *)
  double_of_int : Z -> double;
  sqrt : double -> double;
  (** [DistributionGaussian::maxEigenValue] *)
  maxEigenValue : DistributionGaussian -> double;
  (** [DistributionGaussian::generateSamples], which draws from the random
      number generator *)
  generateSamples : DistributionGaussian -> Z -> Rng -> MatrixXd * Rng;
  (** the default of the argument [overwrite] of [saveToDirectory], declared
      in [bbo/runOptimization.hpp] *)
  default_overwrite : bool
}.

Context {ext : Externals}.

(** [CostFunction::evaluate] *)
Record CostFunction : Type := { evaluate : VectorXd double -> double }.

(** [Updater::updateDistribution]: the weights and the new distribution. *)
Record Updater : Type := {
  updateDistribution :
    DistributionGaussian -> MatrixXd -> VectorXd double ->
    VectorXd double * DistributionGaussian
}.

Definition evaluate_cost (cost_function : CostFunction) (x : VectorXd double)
  : M World double :=
  let* _ := emit (Evaluate x) in
  ret (evaluate cost_function x).

Definition generate_samples (d : DistributionGaussian) (n : Z)
  : M World MatrixXd :=
  fun w =>
    let r := generateSamples d n (rng w) in
    Done (r.1, mkWorld r.2 (dirs w) (files w) (denied w)
                 (trace w ++ [GenerateSamples d n])).

Definition update_distribution (updater : Updater) (d : DistributionGaussian)
    (samples : MatrixXd) (costs : VectorXd double)
  : M World (VectorXd double * DistributionGaussian) :=
  let* _ := emit (UpdateDistribution d samples costs) in
  ret (updateDistribution updater d samples costs).

(** ** [runOptimization] *)

(** The local variables of [runOptimization]. *)
Record LoopState : Type := mkLoopState {
  cost_eval : double;
  samples : MatrixXd;
  weights : VectorXd double;
  costs : VectorXd double;
  learning_curve : MatrixXd;
  distribution : DistributionGaussian;
  distribution_new : DistributionGaussian
}.

Definition is_empty (s : string) : bool :=
  match s with EmptyString => true | _ => false end.

(** [for (i_sample...) costs[i_sample] = cost_function->evaluate(samples.row(i_sample))];
    [n] counts the iterations that remain.  The counter stays below the
    [int] it is compared with, so its increment never wraps. *)
Fixpoint evaluate_samples (cost_function : CostFunction) (samples : MatrixXd)
    (n : nat) (i_sample : Z) (costs : VectorXd double)
  : M World (VectorXd double) :=
  match n with
  | O => ret costs
  | S n' =>
      let* r := row samples i_sample in
      let* c := evaluate_cost cost_function r in
      let* costs' := vec_set costs i_sample c in
      evaluate_samples cost_function samples n' (i_sample + 1) costs'
  end.

(** The body of the optimisation loop. *)
Definition update_step (cost_function : CostFunction) (updater : Updater)
    (n_samples_per_update : Z) (save_directory : string)
    (only_learning_curve : bool) (i_update : Z) (st : LoopState)
  : M World LoopState :=
  (* 0. Get cost of current distribution mean *)
  let* cost_eval := evaluate_cost cost_function (mean (distribution st)) in
  (* 1. Sample from distribution *)
  let* samples := generate_samples (distribution st) n_samples_per_update in
  (* 2. Evaluate the samples *)
  let* costs := evaluate_samples cost_function samples
                  (Z.to_nat n_samples_per_update) 0 (costs st) in
  (* 3. Update parameters *)
  let* wd := update_distribution updater (distribution st) samples costs in
  let weights := wd.1 in
  let distribution_new := wd.2 in
  (* Bookkeeping *)
  let* learning_curve :=
    if is_empty save_directory then
      let* _ := emit (Cout (PrintUpdate cost_eval (Int.add i_update 1)
                              (distribution st))) in
      ret (learning_curve st)
    else
      let* lc := mat_set (learning_curve st) i_update 0
                   (double_of_int (Int.mul i_update n_samples_per_update)) in
      let* lc := mat_set lc i_update 1 cost_eval in
      let* lc := mat_set lc i_update 2 (sqrt (maxEigenValue (distribution st))) in
      let* _ :=
        if negb only_learning_curve then
          let* _ := saveToDirectory1 save_directory i_update (distribution st)
                      (Some cost_eval) samples costs weights distribution_new
                      default_overwrite in
          ret tt
        else ret tt in
      ret lc in
  (* Distribution is new distribution *)
  ret (mkLoopState cost_eval samples weights costs learning_curve
         distribution_new distribution_new).

(** [for (int i_update=...; i_update<n_updates; i_update++)]; [n] counts the
    iterations that remain. *)
Fixpoint optimization_loop (cost_function : CostFunction) (updater : Updater)
    (n_samples_per_update : Z) (save_directory : string)
    (only_learning_curve : bool) (n : nat) (i_update : Z) (st : LoopState)
  : M World LoopState :=
  match n with
  | O => ret st
  | S n' =>
      let* st' := update_step cost_function updater n_samples_per_update
                    save_directory only_learning_curve i_update st in
      optimization_loop cost_function updater n_samples_per_update
        save_directory only_learning_curve n' (i_update + 1) st'
  end.

(** The declarations at the head of [runOptimization], up to the loop. *)
Definition initialise (initial_distribution : DistributionGaussian)
    (n_updates n_samples_per_update : Z) (save_directory : string)
  : M World LoopState :=
  let* costs := vector_alloc uninitialized n_samples_per_update in
  let* learning_curve := matrix_alloc uninitialized n_updates 3 in
  let* _ := if is_empty save_directory
            then emit (Cout (PrintInit initial_distribution))
            else ret tt in
  ret (mkLoopState uninitialized (mkMatrix 0 []) [] costs learning_curve
         initial_distribution initial_distribution).

(** [runOptimization] after its first [k] updates. *)
Definition after_updates (cost_function : CostFunction)
    (initial_distribution : DistributionGaussian) (updater : Updater)
    (n_updates n_samples_per_update : Z) (save_directory : string)
    (only_learning_curve : bool) (k : nat) : M World LoopState :=
  let* st := initialise initial_distribution n_updates n_samples_per_update
               save_directory in
  optimization_loop cost_function updater n_samples_per_update save_directory
    only_learning_curve k 0 st.

(** The function returns [void]: its locals, the final distribution among
    them, end with it. *)
Definition runOptimization (cost_function : CostFunction)
    (initial_distribution : DistributionGaussian) (updater : Updater)
    (n_updates n_samples_per_update : Z) (save_directory : string)
    (overwrite only_learning_curve : bool) : M World unit :=
  let* st := after_updates cost_function initial_distribution updater n_updates
               n_samples_per_update save_directory only_learning_curve
               (Z.to_nat n_updates) in
  (* Save learning curve to file, if necessary *)
  if negb (is_empty save_directory) then
    let* _ := saveMatrix save_directory "learning_curve.txt"
                (RealMatrix (learning_curve st)) overwrite in
    ret tt
  else ret tt.

(** *** Reading a run of the loop *)

Definition add_trace (w : World) (evs : list Event) : World :=
  mkWorld (rng w) (dirs w) (files w) (denied w) (trace w ++ evs).

(** The events of the bookkeeping at the end of an update: console output
    and the steps and reports of the checkpoint writer. *)
Definition is_bookkeeping (e : Event) : Prop :=
  match e with
  | Cout _ | CreateDirectories _ _ | SaveMatrix _ _ _ _ _ | Cerr _ => True
  | _ => False
  end.

(** The calls of the updater in a trace. *)
Definition updates_in (evs : list Event)
  : list (DistributionGaussian * MatrixXd * VectorXd double) :=
  omap (fun e => match e with
                 | UpdateDistribution d samples costs => Some (d, samples, costs)
                 | _ => None
                 end) evs.

(** Every step that failed is followed at once by a report on [cerr]. *)
Fixpoint failures_reported (evs : list Event) : Prop :=
  match evs with
  | [] => True
  | e :: rest =>
      match e with
      | CreateDirectories _ false | SaveMatrix _ _ _ _ false =>
          match rest with
          | Cerr _ :: _ => True
          | _ => False
          end
      | _ => True
      end /\ failures_reported rest
  end.

(** The samples of an update and their costs, from the state and the world
    at the start of the update. *)
Definition drawn_samples (n_samples_per_update : Z) (st : LoopState)
    (w : World) : MatrixXd :=
  (generateSamples (distribution st) n_samples_per_update (rng w)).1.

Definition sample_costs (cost_function : CostFunction) (samples : MatrixXd)
  : VectorXd double :=
  map (evaluate cost_function) (coeffs samples).

(** Row [i] of the learning curve replaced by [[a; b; c]]. *)
Definition set_curve_row (lc : MatrixXd) (i : Z) (a b c : double) : MatrixXd :=
  mkMatrix (cols lc) (<[Z.to_nat i := [a; b; c]]> (coeffs lc)).

(** The locals at the end of update [i_update], from the state and the
    world at its start. *)
Definition next_state (cost_function : CostFunction) (updater : Updater)
    (n_samples_per_update : Z) (save_directory : string) (i_update : Z)
    (st : LoopState) (w : World) : LoopState :=
  let samples := drawn_samples n_samples_per_update st w in
  let costs := sample_costs cost_function samples in
  let wd := updateDistribution updater (distribution st) samples costs in
  let cost_eval := evaluate cost_function (mean (distribution st)) in
  mkLoopState cost_eval samples wd.1 costs
    (if is_empty save_directory then learning_curve st
     else set_curve_row (learning_curve st) i_update
            (double_of_int (Int.mul i_update n_samples_per_update))
            cost_eval
            (sqrt (maxEigenValue (distribution st))))
    wd.2 wd.2.

(** The storage of the loop has the sizes it was allocated with. *)
Definition well_sized (n_updates n_samples_per_update : Z) (st : LoopState)
  : Prop :=
  vec_size (costs st) = n_samples_per_update /\
  rows (learning_curve st) = n_updates /\
  cols (learning_curve st) = 3 /\
  Forall (fun r => length r = 3%nat) (coeffs (learning_curve st)).

(** The directories of the checkpoints of a run can be made: when the run
    writes checkpoints, neither the save directory nor the update directory
    of an update below [n_updates] is one whose creation fails.  No
    [create_directories] of the run throws then. *)
Definition directories_can_be_made (w : World) (save_directory : string)
    (only_learning_curve : bool) (n_updates : Z) : Prop :=
  is_empty save_directory || only_learning_curve = false ->
  (save_directory ∉ denied w) /\
  forall i_update, 0 <= i_update < n_updates ->
    update_directory save_directory i_update ∉ denied w.

(** The world after update [i_update] of a run that writes no checkpoint,
    from the state and the world at its start: the events of the update
    hold what the updater was given, and nothing of what it returned. *)
Definition quiet_update_world (cost_function : CostFunction)
    (n_samples_per_update : Z) (save_directory : string) (i_update : Z)
    (st : LoopState) (w : World) : World :=
  let samples := drawn_samples n_samples_per_update st w in
  mkWorld (generateSamples (distribution st) n_samples_per_update (rng w)).2
    (dirs w) (files w) (denied w)
    (trace w
     ++ Evaluate (mean (distribution st))
        :: GenerateSamples (distribution st) n_samples_per_update
        :: map Evaluate (coeffs samples)
     ++ UpdateDistribution (distribution st) samples
          (sample_costs cost_function samples)
        :: (if is_empty save_directory
            then [Cout (PrintUpdate (evaluate cost_function
                                       (mean (distribution st)))
                          (Int.add i_update 1) (distribution st))]
            else [])).

(** *** Reading the events of an update and of a run *)

(** The points at which the cost function is evaluated in a trace. *)
Definition evaluations_in (evs : list Event) : list (VectorXd double) :=
  omap (fun e => match e with Evaluate x => Some x | _ => None end) evs.

(** The events of a trace that reach the file system. *)
Definition file_system_events (evs : list Event) : list Event :=
  omap (fun e => match e with
                 | CreateDirectories _ _ | SaveMatrix _ _ _ _ _ => Some e
                 | _ => None
                 end) evs.

(** What is printed on [cout] in a trace. *)
Definition printed_in (evs : list Event) : list Printed :=
  omap (fun e => match e with Cout p => Some p | _ => None end) evs.

(** The bookkeeping that ends update [i_update], run on the distribution [d]
    and the samples [S]: a line on the console without a save directory,
    nothing when only the learning curve is kept, and a call of
    [saveToDirectory] otherwise. *)
Definition update_book (cost_function : CostFunction) (updater : Updater)
    (save_directory : string) (only_learning_curve : bool) (i_update : Z)
    (d : DistributionGaussian) (S : MatrixXd) (book : list Event) : Prop :=
  let cost_eval := evaluate cost_function (mean d) in
  let costs := sample_costs cost_function S in
  let wd := updateDistribution updater d S costs in
  if is_empty save_directory then
    book = [Cout (PrintUpdate cost_eval (Int.add i_update 1) d)]
  else if only_learning_curve then book = []
  else
    exists r w0 w1,
      checkpoint_result (update_directory save_directory i_update)
        default_overwrite
        (checkpoint_layout [d] (Some cost_eval) S costs wd.1 [wd.2])
        w0 r w1 book.

(** The events of update [i_update], run on the distribution [d], from
    which it draws the samples [S]. *)
Definition update_events (cost_function : CostFunction) (updater : Updater)
    (n_samples_per_update : Z) (save_directory : string)
    (only_learning_curve : bool) (i_update : Z) (d : DistributionGaussian)
    (S : MatrixXd) (evs : list Event) : Prop :=
  exists book,
    rows S = n_samples_per_update /\
    evs = Evaluate (mean d)
          :: GenerateSamples d n_samples_per_update
          :: map Evaluate (coeffs S)
          ++ UpdateDistribution d S (sample_costs cost_function S) :: book /\
    update_book cost_function updater save_directory only_learning_curve
      i_update d S book.

(** An event of the checkpoint writer at work in [dir] with the flag
    [ow]: a directory made, a file of [dir] written with [ow], a report. *)
Definition writer_event (dir : string) (ow : bool) (e : Event) : Prop :=
  match e with
  | CreateDirectories _ _ | Cerr _ => True
  | SaveMatrix d _ _ o _ => d = dir /\ o = ow
  | _ => False
  end.

(** The events of a whole run: the line that announces a console run, the
    updates in turn, and the writing of the learning curve when there is a
    save directory. *)
Definition run_events (cost_function : CostFunction)
    (initial_distribution : DistributionGaussian) (updater : Updater)
    (n_updates n_samples_per_update : Z) (save_directory : string)
    (overwrite only_learning_curve : bool) (evs : list Event) : Prop :=
  exists (steps : list (list Event)) (closing : list Event),
    evs = (if is_empty save_directory
           then [Cout (PrintInit initial_distribution)] else [])
          ++ concat steps ++ closing /\
    length steps = Z.to_nat n_updates /\
    (forall (j : nat) step, steps !! j = Some step ->
       exists d S,
         update_events cost_function updater n_samples_per_update
           save_directory only_learning_curve (Z.of_nat j) d S step) /\
    if is_empty save_directory then closing = []
    else
      exists lc ok,
        rows lc = n_updates /\ cols lc = 3 /\
        closing = SaveMatrix save_directory "learning_curve.txt"
                    (RealMatrix lc) overwrite ok
                  :: (if ok then []
                      else [Cerr (file_path save_directory
                                    "learning_curve.txt")]).

End Bbo.

Arguments MatrixXd : clear implicits.
Arguments DistributionGaussian : clear implicits.
Arguments Contents : clear implicits.
Arguments Printed : clear implicits.
Arguments Event : clear implicits.
Arguments World : clear implicits.
Arguments Entry : clear implicits.
Arguments Externals : clear implicits.
Arguments CostFunction : clear implicits.
Arguments Updater : clear implicits.
Arguments LoopState : clear implicits.

(** ** [TaskSolverDmp::performRollouts] *)

Section TaskSolver.

Context {double : Type}.

(** The [Dmp] class is declared in [dmp/Dmp.hpp], which is not part of the
    sources at hand; what [performRollouts] uses of it, and of Eigen's
    [LinSpaced], is taken as a parameter.  [Dmp] is the state of the object
    that [dmp_] points to. *)
Class DmpExternals : Type := {
  Dmp : Type;
  dim_orig : Dmp -> Z;
  setModelParametersVectors : list (VectorXd double) -> bool -> Dmp -> Dmp;
  (** [xs_ana], [xds_ana] and [forcing_terms] *)
  analyticalSolution :
    Dmp -> VectorXd double ->
    MatrixXd double * MatrixXd double * MatrixXd double;
  (** [ys_ana], [yds_ana] and [ydds_ana] *)
  statesAsTrajectory :
    Dmp -> MatrixXd double -> MatrixXd double ->
    MatrixXd double * MatrixXd double * MatrixXd double;
  (** [VectorXd::LinSpaced(size,low,high)] for a size that is not negative *)
  LinSpaced : Z -> double -> double -> VectorXd double;
  zero : double;
  (** the value of storage that was never written *)
  unwritten : double
}.

Context {dmp_ext : DmpExternals}.

(** The members of [TaskSolverDmp]; the [Dmp] that [dmp_] points to is the
    state of the monad. *)
Record TaskSolverDmp : Type := mkTaskSolverDmp {
  integrate_time_ : double;
  n_time_steps_ : Z;
  use_normalized_parameter_ : bool
}.

(** [for (int dd=1; dd<n_dofs; dd++) assert(samples[dd].rows()==n_samples)];
    [n] counts the iterations that remain. *)
Fixpoint assert_rows (samples : list (MatrixXd double)) (n_samples : Z)
    (n : nat) (dd : nat) : M Dmp unit :=
  match n with
  | O => ret tt
  | S n' =>
      let* s := at_index samples dd in
      let* _ := assert (rows s =? n_samples) in
      assert_rows samples n_samples n' (S dd)
  end.

(** [for (int dd=0; dd<n_dofs; dd++) model_parameters_vec[dd] = samples[dd].row(k)];
    [n] counts the iterations that remain. *)
Fixpoint model_parameters (samples : list (MatrixXd double)) (k : Z)
    (n : nat) (dd : nat) (model_parameters_vec : list (VectorXd double))
  : M Dmp (list (VectorXd double)) :=
  match n with
  | O => ret model_parameters_vec
  | S n' =>
      let* s := at_index samples dd in
      let* r := row s k in
      if bool_decide (dd < length model_parameters_vec)%nat then
        model_parameters samples k n' (S dd) (<[dd := r]> model_parameters_vec)
      else abort "vector index out of range"
  end.

(** [ts.row(tt)] on a vector: one coefficient. *)
Definition vec_row {S} (v : VectorXd double) (i : Z) : M S (VectorXd double) :=
  match (if 0 <=? i then v !! Z.to_nat i else None) with
  | Some x => ret [x]
  | None => abort "Eigen: index out of range"
  end.

(** The body of the loop over the time steps: five blocks of row [k], each
    followed by the advance of [offset]. *)
Definition write_time_step (n_dofs k tt : Z)
    (ys_ana yds_ana ydds_ana : MatrixXd double) (ts : VectorXd double)
    (forcing_terms : MatrixXd double) (offset : Z) (cost_vars : MatrixXd double)
  : M Dmp (Z * MatrixXd double) :=
  let* r := row ys_ana tt in
  let* cost_vars := block_assign cost_vars k offset n_dofs r in
  let offset := Int.add offset n_dofs in
  let* r := row yds_ana tt in
  let* cost_vars := block_assign cost_vars k offset n_dofs r in
  let offset := Int.add offset n_dofs in
  let* r := row ydds_ana tt in
  let* cost_vars := block_assign cost_vars k offset n_dofs r in
  let offset := Int.add offset n_dofs in
  let* r := vec_row ts tt in
  let* cost_vars := block_assign cost_vars k offset 1 r in
  let offset := Int.add offset 1 in
  let* r := row forcing_terms tt in
  let* cost_vars := block_assign cost_vars k offset n_dofs r in
  let offset := Int.add offset n_dofs in
  ret (offset, cost_vars).

(** [for (int tt=...; tt<n_time_steps_; tt++)]; [n] counts the iterations
    that remain. *)
Fixpoint time_steps_loop (n_dofs k : Z)
    (ys_ana yds_ana ydds_ana : MatrixXd double) (ts : VectorXd double)
    (forcing_terms : MatrixXd double) (n : nat) (tt : Z) (offset : Z)
    (cost_vars : MatrixXd double) : M Dmp (Z * MatrixXd double) :=
  match n with
  | O => ret (offset, cost_vars)
  | S n' =>
      let* oc := write_time_step n_dofs k tt ys_ana yds_ana ydds_ana ts
                   forcing_terms offset cost_vars in
      time_steps_loop n_dofs k ys_ana yds_ana ydds_ana ts forcing_terms n'
        (tt + 1) oc.1 oc.2
  end.

(** The body of the loop over the samples. *)
Definition rollout (solver : TaskSolverDmp) (samples : list (MatrixXd double))
    (n_dofs : Z) (ts : VectorXd double) (k : Z)
    (model_parameters_vec : list (VectorXd double)) (cost_vars : MatrixXd double)
  : M Dmp (list (VectorXd double) * MatrixXd double) :=
  let* model_parameters_vec :=
    model_parameters samples k (Z.to_nat n_dofs) 0 model_parameters_vec in
  let* dmp := get in
  let* _ := put (setModelParametersVectors model_parameters_vec
                   (use_normalized_parameter_ solver) dmp) in
  let* dmp := get in
  let '(xs_ana, xds_ana, forcing_terms) := analyticalSolution dmp ts in
  let '(ys_ana, yds_ana, ydds_ana) := statesAsTrajectory dmp xs_ana xds_ana in
  let* oc := time_steps_loop n_dofs k ys_ana yds_ana ydds_ana ts forcing_terms
               (Z.to_nat (n_time_steps_ solver)) 0 0 cost_vars in
  ret (model_parameters_vec, oc.2).

(** [for (int k=...; k<n_samples; k++)]; [n] counts the iterations that
    remain. *)
Fixpoint rollouts_loop (solver : TaskSolverDmp)
    (samples : list (MatrixXd double)) (n_dofs : Z) (ts : VectorXd double)
    (n : nat) (k : Z) (model_parameters_vec : list (VectorXd double))
    (cost_vars : MatrixXd double) : M Dmp (MatrixXd double) :=
  match n with
  | O => ret cost_vars
  | S n' =>
      let* pc := rollout solver samples n_dofs ts k model_parameters_vec
                   cost_vars in
      rollouts_loop solver samples n_dofs ts n' (k + 1) pc.1 pc.2
  end.

(** [cost_vars] is an output: the function resizes it and never reads it,
    and the storage that the [resize] leaves is taken as not yet written. *)
Definition performRollouts (solver : TaskSolverDmp)
    (samples : list (MatrixXd double)) (task_parameters : MatrixXd double)
  : M Dmp (MatrixXd double) :=
  let n_dofs := Int.wrap (Z.of_nat (length samples)) in
  let* _ := assert (0 <? n_dofs) in
  let* dmp := get in
  let* _ := assert (n_dofs =? dim_orig dmp) in
  let* s0 := at_index samples 0 in
  let n_samples := Int.wrap (rows s0) in
  let* _ := assert_rows samples n_samples (Z.to_nat (n_dofs - 1)) 1 in
  let* ts :=
    if n_time_steps_ solver <? 0 then abort "Eigen: invalid size"
    else ret (LinSpaced (n_time_steps_ solver) zero (integrate_time_ solver)) in
  let n_cost_vars := Int.add (Int.mul 4 n_dofs) 1 in
  let* cost_vars :=
    matrix_alloc unwritten n_samples (Int.mul (n_time_steps_ solver) n_cost_vars) in
  (* vector<VectorXd> model_parameters_vec(n_dofs) *)
  let model_parameters_vec := replicate (Z.to_nat n_dofs) [] in
  rollouts_loop solver samples n_dofs ts (Z.to_nat n_samples) 0
    model_parameters_vec cost_vars.

(** [m] has [r] rows of [c] coefficients each. *)
Definition shaped (r c : Z) (m : MatrixXd double) : Prop :=
  rows m = r /\ Forall (fun x => vec_size x = c) (coeffs m).

(** The trajectories that [rollout] takes from the [Dmp] for the times [ts]
    have a row for each time and a column for each degree of freedom. *)
Definition trajectories_shaped (dmp : Dmp) (ts : VectorXd double) : Prop :=
  let '(xs_ana, xds_ana, forcing_terms) := analyticalSolution dmp ts in
  let '(ys_ana, yds_ana, ydds_ana) := statesAsTrajectory dmp xs_ana xds_ana in
  shaped (vec_size ts) (dim_orig dmp) ys_ana /\
  shaped (vec_size ts) (dim_orig dmp) yds_ana /\
  shaped (vec_size ts) (dim_orig dmp) ydds_ana /\
  shaped (vec_size ts) (dim_orig dmp) forcing_terms.

(** *** Reading the result of [performRollouts] *)

(** What the loop over the time steps puts in a row for the time step
    [tt]: the positions, the velocities and the accelerations, the time,
    and the forcing terms. *)
Definition time_step_record (ys_ana yds_ana ydds_ana : MatrixXd double)
    (ts : VectorXd double) (forcing_terms : MatrixXd double) (tt : nat)
  : VectorXd double :=
  default [] (coeffs ys_ana !! tt)
  ++ default [] (coeffs yds_ana !! tt)
  ++ default [] (coeffs ydds_ana !! tt)
  ++ option_list (ts !! tt)
  ++ default [] (coeffs forcing_terms !! tt).

(** The row of one rollout: the records of the time steps in turn, taken
    from the trajectories of [dmp]. *)
Definition rollout_record (dmp : Dmp) (ts : VectorXd double) : VectorXd double :=
  let '(xs_ana, xds_ana, forcing_terms) := analyticalSolution dmp ts in
  let '(ys_ana, yds_ana, ydds_ana) := statesAsTrajectory dmp xs_ana xds_ana in
  concat (map (time_step_record ys_ana yds_ana ydds_ana ts forcing_terms)
            (seq 0 (length ts))).

(** The parameters of sample [k]: row [k] of each matrix of samples. *)
Definition sample_parameters (samples : list (MatrixXd double)) (k : nat)
  : list (VectorXd double) :=
  map (fun s => default [] (coeffs s !! k)) samples.

(** The [Dmp] when the first [k] samples have been rolled out. *)
Fixpoint dmp_after (solver : TaskSolverDmp) (samples : list (MatrixXd double))
    (k : nat) (dmp : Dmp) : Dmp :=
  match k with
  | O => dmp
  | S k' =>
      setModelParametersVectors (sample_parameters samples k')
        (use_normalized_parameter_ solver) (dmp_after solver samples k' dmp)
  end.

End TaskSolver.

Arguments DmpExternals : clear implicits.
Arguments TaskSolverDmp : clear implicits.

(** ** [DmpExtendedDimensions]: the member functions that the header defines *)

Section ExtendedDimensions.

(** [FunctionApproximator*] *)
Context {FunctionApproximator : Type}.

(** What the memory around the buffer of the vector holds, read as a
    pointer: [beyond i] is what is found [i] elements from the start of the
    buffer, for an [i] that is not an index of the vector. *)
Variable beyond : Z -> FunctionApproximator.

(** The member that the two functions read. *)
Record DmpExtendedDimensions : Type := mkDmpExtendedDimensions {
  function_approximators_ext_dims_ : list FunctionApproximator
}.

(** The conversion of an [int] to the [size_t] that [operator[]] takes, of
    64 bits: a negative index becomes a large one. *)
Definition size_t_of_int (i : Z) : Z := i mod 2 ^ 64.

(** [v[i]] on a [std::vector], for a [size_t] [i]: the operator checks
    nothing.  Within the vector it gives the element; outside it, it gives
    what the memory holds there, and the program goes on. *)
Definition unchecked_index (v : list FunctionApproximator) (i : Z)
  : FunctionApproximator :=
  match v !! Z.to_nat i with
  | Some a => a
  | None => beyond i
  end.

(** [return function_approximators_ext_dims_.size();], as an [int] *)
Definition dim_extended (d : DmpExtendedDimensions) : Z :=
  Int.wrap (Z.of_nat (length (function_approximators_ext_dims_ d))).

(** The function is [const]: the state is left as it is. *)
Definition function_approximator_extended_dimensions {S}
    (d : DmpExtendedDimensions) (i_dim : Z) : M S FunctionApproximator :=
  let* _ :=
    assert (i_dim <? Int.wrap (Z.of_nat
                                 (length (function_approximators_ext_dims_ d)))) in
  ret (unchecked_index (function_approximators_ext_dims_ d)
         (size_t_of_int i_dim)).

End ExtendedDimensions.

Arguments DmpExtendedDimensions : clear implicits.

(** ** A concrete instance, on which the definitions run

    [double] is read as [Z] and the random number generator is a counter. *)

Module Example.

Definition sum_of_squares (x : list Z) : Z := foldr (fun a s => a * a + s) 0 x.

Definition cost_function : CostFunction Z := {| evaluate := sum_of_squares |}.

(** Sample [i] is the mean moved by the state of the generator plus [i]. *)
Definition shifted_samples (d : DistributionGaussian Z) (n : Z) (g : Z)
  : MatrixXd Z * Z :=
  (mkMatrix (vec_size (mean d))
     (map (fun i => map (fun m => m + g + Z.of_nat i) (mean d))
        (seq 0 (Z.to_nat n))),
   g + n).

#[export] Instance externals : Externals Z Z := {|
  uninitialized := -1;
  double_of_int := fun z => z;
  sqrt := Z.sqrt;
  maxEigenValue := fun d => foldr Z.max 0 (concat (coeffs (covar d)));
  generateSamples := shifted_samples;
  default_overwrite := false
|}.

(** Move the mean by [step] and keep the covariance. *)
Definition shift_updater (step : Z) : Updater Z := {|
  updateDistribution := fun d samples costs =>
    (costs, mkDistribution (map (fun m => m + step) (mean d)) (covar d))
|}.

Definition initial_distribution : DistributionGaussian Z :=
  mkDistribution [3; 4] (mkMatrix 2 [[4; 0]; [0; 9]]).

Definition other_distribution : DistributionGaussian Z :=
  mkDistribution [1; 2] (mkMatrix 2 [[1; 0]; [0; 1]]).

(** An empty file system on which nothing fails. *)
Definition empty_world : World Z Z := mkWorld 1 ∅ ∅ ∅ [].

(** A file system on which nothing can be created under [out]. *)
Definition read_only_world : World Z Z :=
  mkWorld 1 ∅ ∅ {["out"; "out/learning_curve.txt"]} [].

(** A [Dmp] with two degrees of freedom whose trajectories are constant. *)
Definition constant_matrix (r c : Z) (x : Z) : MatrixXd Z :=
  mkMatrix c (replicate (Z.to_nat r) (replicate (Z.to_nat c) x)).

#[export] Instance dmp_externals : DmpExternals Z := {|
  Dmp := list (list Z);
  dim_orig := fun _ => 2;
  setModelParametersVectors := fun v _ _ => v;
  analyticalSolution := fun _ ts =>
    (constant_matrix (vec_size ts) 2 1, constant_matrix (vec_size ts) 2 2,
     constant_matrix (vec_size ts) 2 3);
  statesAsTrajectory := fun _ xs xds =>
    (constant_matrix (rows xs) 2 4, constant_matrix (rows xs) 2 5,
     constant_matrix (rows xs) 2 6);
  LinSpaced := fun n lo hi => map Z.of_nat (seq 0 (Z.to_nat n));
  zero := 0;
  unwritten := -1
|}.

Definition solver : TaskSolverDmp Z := mkTaskSolverDmp 10 3 false.

(** A matrix of samples without rows, and no weights. *)
Definition no_samples : MatrixXd Z := mkMatrix 2 [].
Definition no_weights : VectorXd Z := [].

(** The value and the events of a run that ended. *)
Definition events {A} (r : outcome (A * World Z Z))
  : option (A * list (Event Z)) :=
  match r with
  | Done (a, w) => Some (a, trace w)
  | Aborted _ => None
  end.

(** The current distribution when the loop has ended. *)
Definition final_distribution (r : outcome (LoopState Z * World Z Z))
  : option (DistributionGaussian Z) :=
  match r with
  | Done (st, _) => Some (distribution st)
  | Aborted _ => None
  end.

(** A file system on which the save directory and the directory of update
    3 are there. *)
Definition prepared_world : World Z Z :=
  mkWorld 1 {[ "out"%string; update_directory "out" 3 ]} ∅ ∅ [].

(** A file system that an earlier run left behind: the save directory and
    the directory of update 1 are there, and so is the probe cost that was
    written into it. *)
Definition stale_world : World Z Z :=
  mkWorld 1 {[ "out"%string; update_directory "out" 1 ]}
    {[ file_path (update_directory "out" 1) "cost_eval.txt" := RealVector [0] ]}
    ∅ [].

(** A file system on which the save directory is there and the directory
    of update 3 cannot be made in it. *)
Definition closed_directory_world : World Z Z :=
  mkWorld 1 {[ "out"%string ]} ∅ {[ update_directory "out" 3 ]} [].

(** Two matrices of samples, of two rows each. *)
Definition two_samples : list (MatrixXd Z) :=
  [mkMatrix 1 [[7]; [8]]; mkMatrix 2 [[1; 2]; [3; 4]]].

(** Two matrices of samples with different numbers of rows. *)
Definition uneven_samples : list (MatrixXd Z) :=
  [mkMatrix 1 [[7]; [8]]; mkMatrix 2 [[1; 2]]].

(** Three function approximators, read as numbers. *)
Definition three_dimensions : DmpExtendedDimensions Z :=
  mkDmpExtendedDimensions [10; 20; 30].

(** The memory around them: the word before the buffer holds 99, the rest
    is zero. *)
Definition around_three (i : Z) : Z :=
  if i =? 2 ^ 64 - 1 then 99 else 0.

End Example.

(** * Properties *)

(** ** 32-bit integers *)

Lemma Int_wrap_in_range z : Int.in_range z -> Int.wrap z = z.
Proof.
  unfold Int.in_range, Int.min_int, Int.max_int, Int.wrap. intros H.
  rewrite Z.mod_small by lia. lia.
Qed.

Lemma Int_mul_exact a b : Int.in_range (a * b) -> Int.mul a b = a * b.
Proof. apply Int_wrap_in_range. Qed.

(** ** Stream formatting *)

Ltac split_digits :=
  repeat match goal with
  | |- context [?q / 10 =? 0] =>
      let E := fresh "E" in
      destruct (q / 10 =? 0) eqn:E;
      [apply Z.eqb_eq in E; cbn [Nat.max zero_padded]; rewrite ?E; reflexivity
      |apply Z.eqb_neq in E; try congruence]
  end.

Lemma setw_fill_5 n :
  0 <= n < 100000 -> setw_fill 5 "0" (show_int n) = zero_padded 5 n.
Proof.
  intros Hn. unfold show_int.
  destruct (n <? 0) eqn:E0; [lia|clear E0].
  assert (n / 10 / 10 / 10 / 10 / 10 = 0) as H5.
  { rewrite !Z.div_div by lia. apply Z.div_small. lia. }
  cbn [decimal_digits zero_padded]. split_digits.
Qed.

Lemma setw_fill_3 n :
  0 <= n < 1000 -> setw_fill 3 "0" (show_int n) = zero_padded 3 n.
Proof.
  intros Hn. unfold show_int.
  destruct (n <? 0) eqn:E0; [lia|clear E0].
  assert (n / 10 / 10 / 10 = 0) as H3.
  { rewrite !Z.div_div by lia. apply Z.div_small. lia. }
  cbn [decimal_digits zero_padded]. split_digits.
Qed.

Lemma ten_digits n : 0 <= n <= Int.max_int ->
  n / 10 / 10 / 10 / 10 / 10 / 10 / 10 / 10 / 10 / 10 = 0.
Proof.
  unfold Int.max_int. intros Hn. rewrite !Z.div_div by lia.
  apply Z.div_small. lia.
Qed.

Lemma setw_fill_index_5 n :
  0 <= n <= Int.max_int ->
  setw_fill 5 "0" (show_int n) = zero_padded_index 5 n.
Proof.
  intros Hn. pose proof (ten_digits n Hn) as H10.
  unfold show_int, zero_padded_index.
  destruct (n <? 0) eqn:E0; [lia|clear E0].
  cbn [decimal_digits num_digits]. split_digits.
Qed.

Lemma setw_fill_index_3 n :
  0 <= n <= Int.max_int ->
  setw_fill 3 "0" (show_int n) = zero_padded_index 3 n.
Proof.
  intros Hn. pose proof (ten_digits n Hn) as H10.
  unfold show_int, zero_padded_index.
  destruct (n <? 0) eqn:E0; [lia|clear E0].
  cbn [decimal_digits num_digits]. split_digits.
Qed.

Lemma zero_padded_length (width : nat) :
  forall n, String.length (zero_padded width n) = width.
Proof.
  induction width as [|width IH]; intros n; [reflexivity|].
  cbn [zero_padded].
  assert (forall a b, String.length (a +:+ b)
                      = (String.length a + String.length b)%nat) as Happ.
  { induction a as [|c a IHa]; intros b; [reflexivity|].
    change (String c a +:+ b) with (String c (a +:+ b)).
    cbn [String.length]. rewrite IHa. reflexivity. }
  rewrite Happ, IH. cbn. lia.
Qed.

(** The digits that the stream prints are those of [zero_padded], as many
    as the number has. *)
Lemma decimal_digits_zero_padded n :
  0 <= n <= - Int.min_int ->
  decimal_digits 10 n EmptyString = zero_padded (num_digits 10 n) n.
Proof.
  unfold Int.min_int. intros Hn.
  assert (n / 10 / 10 / 10 / 10 / 10 / 10 / 10 / 10 / 10 / 10 = 0) as H10.
  { rewrite !Z.div_div by lia. apply Z.div_small. lia. }
  cbn [decimal_digits num_digits]. split_digits.
Qed.

(** A negative number under [setw(5)] and [setfill('0')]: the padding
    comes before the sign. *)
Lemma setw_fill_negative n :
  Int.min_int <= n < 0 ->
  setw_fill 5 "0" (show_int n)
  = (fill (5 - S (num_digits 10 (- n))) "0"
     +:+ "-" +:+ zero_padded (num_digits 10 (- n)) (- n))%string.
Proof.
  intros Hn. unfold show_int. destruct (n <? 0) eqn:E0; [clear E0|lia].
  rewrite decimal_digits_zero_padded by (unfold Int.min_int in *; lia).
  unfold setw_fill. cbn [String.length]. rewrite zero_padded_length.
  reflexivity.
Qed.

(** ** The monad *)

(** Bring nested appends to the right. *)
Ltac right_assoc :=
  repeat first [rewrite <- app_assoc | progress (cbn [app])].

Lemma bind_aborted {S A B} (c : M S A) (k : A -> M S B) s why :
  c s = Aborted why -> bind c k s = Aborted why.
Proof. unfold bind. intros ->. reflexivity. Qed.

Lemma bind_done {S A B} (c : M S A) (k : A -> M S B) s a s' :
  c s = Done (a, s') -> bind c k s = k a s'.
Proof. unfold bind. intros ->. reflexivity. Qed.

Lemma unless_false_true {S} (c k : M S bool) s s' :
  c s = Done (true, s') -> unless_false c k s = k s'.
Proof. unfold unless_false. intros H. rewrite (bind_done _ _ _ _ _ H). reflexivity. Qed.

Lemma unless_false_false {S} (c k : M S bool) s s' :
  c s = Done (false, s') -> unless_false c k s = Done (false, s').
Proof. unfold unless_false. intros H. rewrite (bind_done _ _ _ _ _ H). reflexivity. Qed.

Lemma unless_false_ext {S} (c c' k k' : M S bool) :
  (forall s, c s = c' s) -> (forall s, k s = k' s) ->
  forall s, unless_false c k s = unless_false c' k' s.
Proof.
  intros Hc Hk s. unfold unless_false, bind. rewrite Hc.
  destruct (c' s) as [[[] s']|]; auto.
Qed.

Lemma unless_false_ret_true {S} (c : M S bool) s :
  unless_false c (ret true) s = c s.
Proof.
  unfold unless_false, bind, ret. destruct (c s) as [[[] s']|]; reflexivity.
Qed.

Lemma unless_false_assoc {S} (a b c : M S bool) s :
  unless_false (unless_false a b) c s = unless_false a (unless_false b c) s.
Proof.
  unfold unless_false, bind, ret. destruct (a s) as [[[] s']|]; reflexivity.
Qed.

(** ** The checkpoint writer *)

Section WriterFacts.

Context {double Rng : Type}.
Implicit Types (w : World double Rng) (plan : list (Entry double)).
Implicit Types (ds : list (DistributionGaussian double)).

Lemma saveMatrix_run dir f c ow w :
  exists r w', saveMatrix dir f c ow w = Done (r, w') /\
    write_result dir ow [(f, c)] w r w'.
Proof.
  unfold saveMatrix, write_result.
  destruct (bool_decide (is_Some (files w !! file_path dir f)) && negb ow
            || bool_decide (file_path dir f ∈ denied w)) eqn:E.
  - eexists _, _. split; [reflexivity|]. cbn. repeat split.
    exists []. split; [|split].
    + intros _ e He. inversion He.
    + auto.
    + right. split; [reflexivity|]. exists f, c, []. auto.
  - apply orb_false_iff in E as [E1 _].
    eexists _, _. split; [reflexivity|]. cbn. repeat split.
    exists [(f, c)]. split; [|split].
    + intros -> e He. apply list_elem_of_singleton in He as ->. cbn.
      rewrite andb_true_r in E1. apply bool_decide_eq_false in E1.
      destruct (files w !! file_path dir f) eqn:F; [|reflexivity].
      exfalso. apply E1. eauto.
    + intros -> p c' Hp. rewrite andb_true_r in E1.
      apply bool_decide_eq_false in E1.
      rewrite lookup_insert_ne; [assumption|].
      intros <-. apply E1. eauto.
    + left. auto.
Qed.

Lemma write_all_run dir ow plan w :
  exists r w', write_all dir ow plan w = Done (r, w') /\
    write_result dir ow plan w r w'.
Proof.
  revert w. induction plan as [|[f c] plan IH]; intros w.
  - exists true, w. split; [reflexivity|]. unfold write_result.
    repeat split. exists []. repeat split; auto.
    + intros _ e He. inversion He.
    + left. cbn. rewrite app_nil_r. auto.
  - destruct (saveMatrix_run dir f c ow w) as (r1 & w1 & E1 & R1).
    destruct R1 as (Hg & Hd & Hn & done1 & Hnew1 & Hold1
                    & [(-> & -> & Ht)|(-> & f' & c' & rest & Hp & Ht)]).
    + destruct (IH w1) as (r & w' & E & (Hg' & Hd' & Hn' & done & Hnew & Hold & Hcase)).
      exists r, w'. split.
      { cbn [write_all]. rewrite (unless_false_true _ _ _ _ E1). exact E. }
      unfold write_result. repeat split; try congruence.
      exists ((f, c) :: done). split; [|split].
      * intros How e He. apply elem_of_cons in He as [->|He].
        -- apply Hnew1; [assumption|]. apply list_elem_of_singleton. reflexivity.
        -- specialize (Hnew How e He).
           destruct (files w !! file_path dir e.1) as [c0|] eqn:F; [|reflexivity].
           rewrite (Hold1 How _ _ F) in Hnew. discriminate.
      * intros How p c0 Hp. eauto.
      * destruct Hcase as [(-> & -> & Ht')|(-> & f' & c' & rest & -> & Ht')].
        -- left. repeat split. rewrite Ht', Ht. cbn. rewrite <- app_assoc. reflexivity.
        -- right. split; [reflexivity|]. exists f', c', rest. split; [reflexivity|].
           rewrite Ht', Ht. cbn. rewrite <- app_assoc. reflexivity.
    + exists false, w1. split.
      { cbn [write_all]. exact (unless_false_false _ _ _ _ E1). }
      destruct done1 as [|e1 [|e2 done1]]; cbn in Hp; inversion Hp; subst.
      unfold write_result. repeat split; try congruence.
      exists []. split; [|split].
      * intros _ e He. inversion He.
      * assumption.
      * right. split; [reflexivity|]. exists f', c', plan. auto.
Qed.

Lemma write_all_app dir ow plan1 plan2 w :
  write_all dir ow (plan1 ++ plan2) w
  = unless_false (write_all dir ow plan1) (write_all dir ow plan2) w.
Proof.
  revert w. induction plan1 as [|[f c] plan1 IH]; intros w.
  - reflexivity.
  - cbn [write_all app]. rewrite unless_false_assoc.
    apply unless_false_ext; auto.
Qed.

Lemma save_indexed_write_all dir prefix ds0 ow rest :
  forall pre w, ds0 = pre ++ rest ->
    save_indexed dir prefix ds0 ow (length rest) (length pre) w
    = write_all dir ow (indexed_layout prefix (length pre) rest) w.
Proof.
  induction rest as [|d rest IH]; intros pre w E.
  - reflexivity.
  - cbn [length save_indexed indexed_layout write_all].
    assert (ds0 !! length pre = Some d) as Hd.
    { rewrite E. apply list_lookup_middle. reflexivity. }
    unfold at_index. rewrite Hd. cbn [bind ret].
    apply unless_false_ext; [reflexivity|]. intros w1.
    apply unless_false_ext; [reflexivity|]. intros w2.
    specialize (IH (pre ++ [d]) w2). rewrite length_app in IH. cbn in IH.
    replace (length pre + 1)%nat with (S (length pre)) in IH by lia.
    apply IH. rewrite <- app_assoc. exact E.
Qed.

(** The guard at the head of [saveToDirectory], on a path that can be
    made: the call goes on, having made the directory when it was missing.
    What is there stays there. *)
Lemma make_directory_if_missing_run path w :
  path ∉ denied w ->
  exists w', make_directory_if_missing path w = Done (true, w') /\
    rng w' = rng w /\ denied w' = denied w /\ files w' = files w /\
    dirs w ⊆ dirs w' /\
    exists made,
      trace w' = trace w ++ map (fun p => CreateDirectories p true) made.
Proof.
  intros Hd.
  unfold make_directory_if_missing, fs_exists, create_directories, emit, bind, ret.
  destruct (bool_decide (path ∈ dirs w) || bool_decide (is_Some (files w !! path)))
    eqn:E.
  - exists w. repeat split; [set_solver|]. exists [].
    cbn. rewrite app_nil_r. reflexivity.
  - apply orb_false_iff in E as [E _]. rewrite E.
    rewrite bool_decide_eq_false_2 by exact Hd.
    eexists. split; [reflexivity|]. cbn. repeat split; [set_solver|].
    exists [path]. reflexivity.
Qed.

(** From the [assert] on, [saveToDirectory] writes the layout of the design
    document in its order. *)
Lemma checkpoint_body_layout dir ow ds cost_eval samples costs weights ds_new w :
  length ds = length ds_new ->
  (must (if (length ds =? 1)%nat then
           let* d := at_index ds 0 in
           must saveMatrix dir "distribution_mean.txt" (RealVector (mean d)) ow in
           must saveMatrix dir "distribution_covar.txt" (RealMatrix (covar d)) ow in
           ret true
         else
           must saveMatrix dir "n_parallel.txt"
                  (IntVector [Int.wrap (Z.of_nat (length ds))]) ow in
           save_indexed dir "/distribution_" ds ow (length ds) 0) in
   must (match cost_eval with
         | Some c => saveMatrix dir "cost_eval.txt" (RealVector [c]) ow
         | None => ret true
         end) in
   must (if 0 <? mat_size samples
         then saveMatrix dir "samples.txt" (RealMatrix samples) ow
         else ret true) in
   must (if 0 <? vec_size costs
         then saveMatrix dir "costs.txt" (RealVector costs) ow
         else ret true) in
   must (if 0 <? vec_size weights
         then saveMatrix dir "weights.txt" (RealVector weights) ow
         else ret true) in
   if (length ds =? 1)%nat then
     let* d := at_index ds_new 0 in
     must saveMatrix dir "distribution_new_mean.txt" (RealVector (mean d)) ow in
     must saveMatrix dir "distribution_new_covar.txt" (RealMatrix (covar d)) ow in
     ret true
   else
     must save_indexed dir "/distribution_new_" ds_new ow (length ds) 0 in
     ret true) w
  = write_all dir ow
      (checkpoint_layout ds cost_eval samples costs weights ds_new) w.
Proof.
  intros Hlen. unfold checkpoint_layout, optional_layout.
  rewrite <- !app_assoc.
  rewrite write_all_app. revert w. apply unless_false_ext.
  { intros w. destruct ds as [|d [|d2 ds]]; try reflexivity.
    cbn [length Nat.eqb current_layout write_all].
    apply unless_false_ext; [reflexivity|]. intros w1.
    apply (save_indexed_write_all dir "/distribution_" (d :: d2 :: ds) ow
             (d :: d2 :: ds) [] w1). reflexivity. }
  intros w. rewrite write_all_app. revert w. apply unless_false_ext.
  { intros w. destruct cost_eval; cbn [write_all]; [|reflexivity].
    symmetry. apply unless_false_ret_true. }
  intros w. rewrite write_all_app. revert w. apply unless_false_ext.
  { intros w. destruct (0 <? mat_size samples); cbn [write_all]; [|reflexivity].
    symmetry. apply unless_false_ret_true. }
  intros w. rewrite write_all_app. revert w. apply unless_false_ext.
  { intros w. destruct (0 <? vec_size costs); cbn [write_all]; [|reflexivity].
    symmetry. apply unless_false_ret_true. }
  intros w. rewrite write_all_app. revert w. apply unless_false_ext.
  { intros w. destruct (0 <? vec_size weights); cbn [write_all]; [|reflexivity].
    symmetry. apply unless_false_ret_true. }
  intros w.
  destruct ds as [|d [|d2 ds]]; destruct ds_new as [|d' [|d2' ds_new]];
    try discriminate Hlen; try reflexivity.
  cbn [length Nat.eqb new_layout]. rewrite unless_false_ret_true.
  cbn [length] in Hlen. rewrite Hlen.
  apply (save_indexed_write_all dir "/distribution_new_" (d' :: d2' :: ds_new) ow
           (d' :: d2' :: ds_new) [] w). reflexivity.
Qed.

(** Every call of [saveToDirectory] whose two vectors have the same size
    and whose directories can be made returns, and leaves a
    [checkpoint_result]. *)
Lemma saveToDirectory_run directory i_update ds cost_eval samples costs weights
    ds_new ow w :
  length ds = length ds_new ->
  directory ∉ denied w ->
  update_directory directory i_update ∉ denied w ->
  exists r w' evs,
    saveToDirectory directory i_update ds cost_eval samples costs weights
      ds_new ow w = Done (r, w') /\
    checkpoint_result (update_directory directory i_update) ow
      (checkpoint_layout ds cost_eval samples costs weights ds_new) w r w' evs.
Proof.
  intros Hlen Hd1 Hd2. unfold saveToDirectory.
  destruct (make_directory_if_missing_run directory w Hd1)
    as (w1 & E1 & Hg1 & Hn1 & Hf1 & _ & made1 & Ht1).
  rewrite (unless_false_true _ _ _ _ E1).
  destruct (make_directory_if_missing_run (update_directory directory i_update) w1
              ltac:(rewrite Hn1; exact Hd2))
    as (w2 & E2 & Hg2 & Hn2 & Hf2 & _ & made2 & Ht2).
  rewrite (unless_false_true _ _ _ _ E2).
  cbv zeta. rewrite Hlen, Nat.eqb_refl. cbn [assert].
  change (bind (ret tt) ?k w2) with (k tt w2). cbv beta.
  rewrite <- Hlen.
  rewrite (checkpoint_body_layout _ _ _ _ _ _ _ _ w2 Hlen).
  destruct (write_all_run (update_directory directory i_update) ow
              (checkpoint_layout ds cost_eval samples costs weights ds_new) w2)
    as (r & w' & E & Hg & Hd & Hn & done & Hnew & Hold & Hcase).
  assert (trace w2 = trace w ++ map (fun p => CreateDirectories p true)
                                 (made1 ++ made2)) as Ht.
  { rewrite Ht2, Ht1, map_app, app_assoc. reflexivity. }
  assert (ow = false -> forall p c, files w !! p = Some c -> files w' !! p = Some c)
    as Hold'.
  { intros How p c Hp. apply Hold; congruence. }
  assert (ow = false -> forall e, e ∈ done ->
            files w !! file_path (update_directory directory i_update) e.1 = None)
    as Hnew'.
  { intros How e He. rewrite <- Hf1, <- Hf2. auto. }
  destruct Hcase as [(-> & -> & Ht')|(-> & f & c & rest & Hp & Ht')].
  - exists true, w', (map (fun p => CreateDirectories p true) (made1 ++ made2)
       ++ map (saved_event (update_directory directory i_update) ow)
            (checkpoint_layout ds cost_eval samples costs weights ds_new) ++ []).
    split; [exact E|].
    refine (conj _ (conj _ (conj _ (conj Hold' _)))).
    + congruence.
    + congruence.
    + rewrite Ht', Ht, app_nil_r, <- app_assoc. reflexivity.
    + exists (made1 ++ made2),
        (checkpoint_layout ds cost_eval samples costs weights ds_new), [].
      split; [reflexivity|]. split; [exact Hnew'|]. left. auto.
  - exists false, w', (map (fun p => CreateDirectories p true) (made1 ++ made2)
       ++ map (saved_event (update_directory directory i_update) ow) done
       ++ [SaveMatrix (update_directory directory i_update) f c ow false;
           Cerr (file_path (update_directory directory i_update) f)]).
    split; [exact E|].
    refine (conj _ (conj _ (conj _ (conj Hold' _)))).
    + congruence.
    + congruence.
    + rewrite Ht', Ht, <- !app_assoc. reflexivity.
    + exists (made1 ++ made2), done,
        [SaveMatrix (update_directory directory i_update) f c ow false;
         Cerr (file_path (update_directory directory i_update) f)].
      split; [reflexivity|].
      split; [exact Hnew'|]. right. split; [reflexivity|].
      exists f, c, rest. auto.
Qed.

(** The files that a call tried, and those that it wrote, against the plan. *)
Lemma checkpoint_result_files dir ow plan w r w' evs :
  checkpoint_result dir ow plan w r w' evs ->
  attempted evs `prefix_of` map (pair dir) plan /\
  (r = true -> written evs = map (pair dir) plan).
Proof.
  intros (_ & _ & _ & _ & made & done & tail & -> & _ & Hcase).
  assert (forall l : list string,
            attempted (map (fun p => CreateDirectories (double:=double) p true) l) = []
            /\ written (map (fun p => CreateDirectories (double:=double) p true) l) = [])
    as Hmade.
  { induction l as [|p l [IH1 IH2]]; split; auto. }
  assert (forall l : list (Entry double),
            attempted (map (saved_event dir ow) l) = map (pair dir) l
            /\ written (map (saved_event dir ow) l) = map (pair dir) l)
    as Hdone.
  { induction l as [|[f c] l [IH1 IH2]]; split; auto.
    - cbn. f_equal. exact IH1.
    - cbn. f_equal. exact IH2. }
  unfold attempted, written in *. rewrite !omap_app.
  rewrite (proj1 (Hmade made)), (proj2 (Hmade made)).
  rewrite (proj1 (Hdone done)), (proj2 (Hdone done)). cbn [app].
  destruct Hcase as [(-> & -> & ->)|(-> & f & c & rest & -> & ->)].
  - cbn. rewrite app_nil_r. split; [reflexivity|auto].
  - cbn. split; [|discriminate].
    rewrite map_app. apply prefix_app. cbn. exists (map (pair dir) rest). reflexivity.
Qed.

Lemma indexed_layout_names (c0 : Ascii.ascii) (prefix : string) ds :
  forall dd (e : Entry double),
    e ∈ indexed_layout (String c0 prefix) dd ds -> exists s, e.1 = String c0 s.
Proof.
  induction ds as [|d ds IH]; intros dd e He; cbn in He.
  - inversion He.
  - apply elem_of_cons in He as [->|He]; [cbn; eauto|].
    apply elem_of_cons in He as [->|He]; [cbn; eauto|].
    eapply IH, He.
Qed.

(** In the layout, the four optional files are there exactly when their
    contents are. *)
Lemma checkpoint_layout_optional ds cost_eval samples costs weights ds_new
    (e : Entry double) :
  e ∈ checkpoint_layout ds cost_eval samples costs weights ds_new ->
  (e.1 = "cost_eval.txt" -> exists c, cost_eval = Some c /\ e.2 = RealVector [c]) /\
  (e.1 = "samples.txt" -> 0 < mat_size samples /\ e.2 = RealMatrix samples) /\
  (e.1 = "costs.txt" -> 0 < vec_size costs /\ e.2 = RealVector costs) /\
  (e.1 = "weights.txt" -> 0 < vec_size weights /\ e.2 = RealVector weights).
Proof.
  unfold checkpoint_layout, optional_layout. rewrite !elem_of_app.
  intros [He|[[He|[He|[He|He]]]|He]].
  - destruct ds as [|d [|d2 ds]]; cbn in He.
    + apply list_elem_of_singleton in He as ->. repeat split; discriminate.
    + apply elem_of_cons in He as [->|He]; [repeat split; discriminate|].
      apply list_elem_of_singleton in He as ->. repeat split; discriminate.
    + apply elem_of_cons in He as [->|He]; [repeat split; discriminate|].
      apply (indexed_layout_names "/" "distribution_" (d :: d2 :: ds)) in He as [s Hs].
      rewrite Hs. repeat split; discriminate.
  - destruct cost_eval as [c|]; [|inversion He].
    apply list_elem_of_singleton in He as ->.
    repeat split; try discriminate. eauto.
  - destruct (0 <? mat_size samples) eqn:E; [|inversion He].
    apply list_elem_of_singleton in He as ->.
    repeat split; try discriminate. lia.
  - destruct (0 <? vec_size costs) eqn:E; [|inversion He].
    apply list_elem_of_singleton in He as ->.
    repeat split; try discriminate. lia.
  - destruct (0 <? vec_size weights) eqn:E; [|inversion He].
    apply list_elem_of_singleton in He as ->.
    repeat split; try discriminate. lia.
  - destruct ds_new as [|d [|d2 ds_new]]; cbn in He.
    + inversion He.
    + apply elem_of_cons in He as [->|He]; [repeat split; discriminate|].
      apply list_elem_of_singleton in He as ->. repeat split; discriminate.
    + apply (indexed_layout_names "/" "distribution_new_" (d :: d2 :: ds_new))
        in He as [s Hs].
      rewrite Hs. repeat split; discriminate.
Qed.

Lemma failures_reported_app (evs1 evs2 : list (Event double)) :
  failures_reported evs1 -> failures_reported evs2 ->
  failures_reported (evs1 ++ evs2).
Proof.
  induction evs1 as [|e evs1 IH]; intros H1 H2; [exact H2|].
  destruct H1 as [He H1]. cbn [app failures_reported]. split; [|auto].
  destruct e as [p [] | dir f c o [] | | | | |]; try exact I;
    (destruct evs1 as [|[] evs1]; try contradiction; exact I).
Qed.

Lemma made_bookkeeping (made : list string) :
  Forall is_bookkeeping
    (map (fun p => CreateDirectories (double:=double) p true) made)
  /\ failures_reported
       (map (fun p => CreateDirectories (double:=double) p true) made).
Proof.
  induction made as [|p made [IH1 IH2]]; split; cbn; auto.
  constructor; [exact I|exact IH1].
Qed.

Lemma saved_bookkeeping dir ow (done : list (Entry double)) :
  Forall is_bookkeeping (map (saved_event dir ow) done)
  /\ failures_reported (map (saved_event dir ow) done).
Proof.
  induction done as [|e done [IH1 IH2]]; split; cbn; auto.
  constructor; [exact I|exact IH1].
Qed.

(** What the writer adds to the trace is bookkeeping, and each of its
    failures is reported. *)
Lemma checkpoint_result_bookkeeping dir ow plan w r w' evs :
  checkpoint_result dir ow plan w r w' evs ->
  Forall is_bookkeeping evs /\ failures_reported evs.
Proof.
  intros (_ & _ & _ & _ & made & done & tail & -> & _ & Hcase).
  destruct (made_bookkeeping made) as [M1 M2].
  destruct (saved_bookkeeping dir ow done) as [S1 S2].
  assert (Forall is_bookkeeping tail /\ failures_reported tail) as [T1 T2].
  { destruct Hcase as [(_ & _ & ->)|(_ & f & c & rest & _ & ->)];
      split; cbn; auto; repeat constructor. }
  split.
  - apply Forall_app. split; [exact M1|]. apply Forall_app. split; assumption.
  - apply failures_reported_app; [exact M2|].
    apply failures_reported_app; assumption.
Qed.

Lemma write_result_bookkeeping dir ow f c w r w' :
  write_result dir ow [(f, c)] w r w' ->
  rng w' = rng w /\
  exists evs, trace w' = trace w ++ evs /\
    Forall is_bookkeeping evs /\ failures_reported evs /\ updates_in evs = [].
Proof.
  intros (Hg & _ & _ & done & _ & _ & [(_ & _ & Ht)|(_ & f' & c' & rest & _ & Ht)]).
  - split; [exact Hg|]. eexists. split; [exact Ht|]. cbn.
    split; [repeat constructor|]. split; [auto|reflexivity].
  - split; [exact Hg|]. eexists. split; [exact Ht|].
    destruct (saved_bookkeeping dir ow done) as [S1 S2].
    split; [|split].
    + apply Forall_app. split; [exact S1|]. repeat constructor.
    + apply failures_reported_app; [exact S2|]. cbn. auto.
    + unfold updates_in. rewrite omap_app. cbn. rewrite app_nil_r.
      clear. induction done as [|e done IH]; [reflexivity|exact IH].
Qed.

Lemma bookkeeping_no_updates (evs : list (Event double)) :
  Forall is_bookkeeping evs -> updates_in evs = [].
Proof.
  induction 1 as [|e evs He _ IH]; [reflexivity|].
  destruct e; try contradiction; exact IH.
Qed.

(** A call of [saveToDirectory] none of whose steps failed returned true. *)
Lemma checkpoint_result_no_failure dir ow plan w r w' evs :
  checkpoint_result dir ow plan w r w' evs ->
  Forall (fun e => ~ failed e) evs -> r = true.
Proof.
  intros (_ & _ & _ & _ & made & done & tail & -> & _ & Hcase) Hall.
  apply Forall_app in Hall as [_ Hall]. apply Forall_app in Hall as [_ Hall].
  destruct Hcase as [(-> & _)|(_ & f & c & rest & _ & ->)]; [reflexivity|].
  apply Forall_cons in Hall as [Hall _]. exfalso. apply Hall. reflexivity.
Qed.


(** C8.  [saveToDirectory] leaves out each optional file whose contents are
    absent or empty: it tries [cost_eval.txt] only when it is given a probe
    cost, and [samples.txt], [costs.txt] and [weights.txt] only when the
    matrix or vector has a size above zero, so that a matrix without rows is
    passed over; and a call that returns true has written each optional
    file whose contents were there.  The call returns when its directories
    can be made. *)
Theorem saveToDirectory_optional directory i_update ds cost_eval samples costs
    weights ds_new ow w :
  length ds = length ds_new ->
  directory ∉ denied w ->
  update_directory directory i_update ∉ denied w ->
  exists r w' evs,
    saveToDirectory directory i_update ds cost_eval samples costs weights
      ds_new ow w = Done (r, w') /\
    trace w' = trace w ++ evs /\
    (forall dir c, (dir, ("cost_eval.txt", c)) ∈ attempted evs ->
       exists x, cost_eval = Some x /\ c = RealVector [x]) /\
    (forall dir c, (dir, ("samples.txt", c)) ∈ attempted evs ->
       0 < mat_size samples /\ 0 < rows samples /\ c = RealMatrix samples) /\
    (forall dir c, (dir, ("costs.txt", c)) ∈ attempted evs ->
       0 < vec_size costs /\ c = RealVector costs) /\
    (forall dir c, (dir, ("weights.txt", c)) ∈ attempted evs ->
       0 < vec_size weights /\ c = RealVector weights) /\
    (r = true ->
     (forall x, cost_eval = Some x ->
        (update_directory directory i_update, ("cost_eval.txt", RealVector [x]))
        ∈ written evs) /\
     (0 < mat_size samples ->
        (update_directory directory i_update, ("samples.txt", RealMatrix samples))
        ∈ written evs) /\
     (0 < vec_size costs ->
        (update_directory directory i_update, ("costs.txt", RealVector costs))
        ∈ written evs) /\
     (0 < vec_size weights ->
        (update_directory directory i_update, ("weights.txt", RealVector weights))
        ∈ written evs)).
Proof.
  intros Hlen Hd1 Hd2.
  destruct (saveToDirectory_run directory i_update ds cost_eval samples costs
              weights ds_new ow w Hlen Hd1 Hd2) as (r & w' & evs & E & R).
  exists r, w', evs. split; [exact E|].
  split; [apply R|].
  destruct (checkpoint_result_files _ _ _ _ _ _ _ R) as [Hpre Hall].
  assert (forall dir f c, (dir, (f, c)) ∈ attempted evs ->
            (f, c) ∈ checkpoint_layout ds cost_eval samples costs weights ds_new)
    as Hin.
  { intros dir f c He. destruct Hpre as [k Hk].
    assert ((dir, (f, c)) ∈ map (pair (update_directory directory i_update))
              (checkpoint_layout ds cost_eval samples costs weights ds_new)) as Hm.
    { rewrite Hk. apply elem_of_app. left. exact He. }
    apply list_elem_of_fmap in Hm as (e & He' & Hm). inversion He'; subst. exact Hm. }
  split; [|split; [|split; [|split]]].
  - intros dir c He. apply Hin in He.
    destruct (checkpoint_layout_optional _ _ _ _ _ _ _ He) as (H1 & _).
    destruct (H1 eq_refl) as (x & Hx & Hc). eauto.
  - intros dir c He. apply Hin in He.
    destruct (checkpoint_layout_optional _ _ _ _ _ _ _ He) as (_ & H2 & _).
    destruct (H2 eq_refl) as (Hs & Hc). repeat split; [exact Hs| |exact Hc].
    unfold mat_size in Hs.
    destruct (decide (rows samples = 0)) as [H0|H0]; [rewrite H0 in Hs; lia|].
    unfold rows in *. lia.
  - intros dir c He. apply Hin in He.
    destruct (checkpoint_layout_optional _ _ _ _ _ _ _ He) as (_ & _ & H3 & _).
    exact (H3 eq_refl).
  - intros dir c He. apply Hin in He.
    destruct (checkpoint_layout_optional _ _ _ _ _ _ _ He) as (_ & _ & _ & H4).
    exact (H4 eq_refl).
  - intros ->. rewrite (Hall eq_refl). unfold checkpoint_layout, optional_layout.
    repeat split.
    + intros x ->. apply list_elem_of_fmap. eexists. split; [reflexivity|].
      rewrite !elem_of_app. right. left. left. apply list_elem_of_singleton. reflexivity.
    + intros H. apply list_elem_of_fmap. eexists. split; [reflexivity|].
      rewrite !elem_of_app. right. left. right. left.
      destruct (0 <? mat_size samples) eqn:E'; [|lia].
      apply list_elem_of_singleton. reflexivity.
    + intros H. apply list_elem_of_fmap. eexists. split; [reflexivity|].
      rewrite !elem_of_app. right. left. right. right. left.
      destruct (0 <? vec_size costs) eqn:E'; [|lia].
      apply list_elem_of_singleton. reflexivity.
    + intros H. apply list_elem_of_fmap. eexists. split; [reflexivity|].
      rewrite !elem_of_app. right. left. right. right. right.
      destruct (0 <? vec_size weights) eqn:E'; [|lia].
      apply list_elem_of_singleton. reflexivity.
Qed.

End WriterFacts.

(** ** The optimisation loop *)

Section LoopFacts.

Context {double Rng : Type} {ext : Externals double Rng}.
Implicit Types (w : World double Rng) (st : LoopState double).
Implicit Types (cost_function : CostFunction double) (updater : Updater double).

(** [DistributionGaussian::generateSamples] is not part of the sources at
    hand; it returns as many rows as it is asked for. *)
Hypothesis generateSamples_rows :
  forall d n g, 0 <= n -> rows (generateSamples d n g).1 = n.

Lemma add_trace_nil w : add_trace w [] = w.
Proof. destruct w. unfold add_trace. cbn. rewrite app_nil_r. reflexivity. Qed.

Lemma add_trace_app w evs1 evs2 :
  add_trace (add_trace w evs1) evs2 = add_trace w (evs1 ++ evs2).
Proof. unfold add_trace. cbn. rewrite app_assoc. reflexivity. Qed.

Lemma evaluate_samples_run cost_function (samples : MatrixXd double) :
  forall n i costs w,
    (i + n = length (coeffs samples))%nat ->
    length costs = length (coeffs samples) ->
    evaluate_samples cost_function samples n (Z.of_nat i) costs w
    = Done (take i costs
            ++ map (evaluate cost_function) (drop i (coeffs samples)),
            add_trace w (map Evaluate (drop i (coeffs samples)))).
Proof.
  induction n as [|n IH]; intros i costs w Hi Hlen.
  - cbn. rewrite drop_ge by lia. cbn. rewrite add_trace_nil, app_nil_r.
    rewrite take_ge by lia. reflexivity.
  - cbn [evaluate_samples]. unfold row, evaluate_cost, vec_set, vec_size, emit.
    destruct (0 <=? Z.of_nat i) eqn:E0; [|lia].
    rewrite Nat2Z.id.
    destruct (coeffs samples !! i) as [r|] eqn:Hr;
      [|apply lookup_ge_None in Hr; lia].
    cbn [bind ret].
    destruct (Z.of_nat i <? Z.of_nat (length costs)) eqn:E1; [|lia].
    cbn [andb bind ret].
    replace (Z.of_nat i + 1) with (Z.of_nat (S i)) by lia.
    rewrite IH by (rewrite ?length_insert; lia).
    rewrite (drop_S _ _ _ Hr). cbn [map].
    f_equal. f_equal.
    + rewrite (take_S_r _ _ (evaluate cost_function r)).
      * rewrite take_insert_ge by lia. rewrite <- app_assoc. reflexivity.
      * apply list_lookup_insert_eq. lia.
    + unfold add_trace. cbn. rewrite <- app_assoc. reflexivity.
Qed.

Lemma mat_set_row {S A} (lc : MatrixXd double) i a b c
    (k : MatrixXd double -> M S A) (s : S) :
  0 <= i < rows lc -> cols lc = 3 ->
  Forall (fun r => length r = 3%nat) (coeffs lc) ->
  (let* lc1 := mat_set lc i 0 a in
   let* lc2 := mat_set lc1 i 1 b in
   let* lc3 := mat_set lc2 i 2 c in
   k lc3) s
  = k (set_curve_row lc i a b c) s.
Proof.
  intros Hi Hc Hr. unfold rows in Hi.
  destruct (coeffs lc !! Z.to_nat i) as [r|] eqn:Hl;
    [|apply lookup_ge_None in Hl; lia].
  assert (length r = 3%nat) as Hlen.
  { rewrite Forall_forall in Hr. apply Hr. eapply list_elem_of_lookup_2, Hl. }
  destruct r as [|x [|y [|z [|]]]]; try discriminate Hlen.
  assert (forall l : list (list double),
            length l = length (coeffs lc) ->
            (0 <=? i) && (i <? rows (mkMatrix 3 l)) = true) as Hin.
  { intros l Hl'. unfold rows. cbn. rewrite Hl'. lia. }
  unfold mat_set at 1. unfold bind at 1.
  replace ((0 <=? i) && (i <? rows lc)) with true by (unfold rows; lia).
  rewrite Hc, Hl. cbn [andb Z.leb Z.ltb Z.compare ret].
  unfold mat_set at 1. unfold bind at 1. cbn [cols coeffs].
  rewrite Hin by (rewrite length_insert; reflexivity).
  rewrite list_lookup_insert_eq by (apply lookup_lt_Some in Hl; exact Hl).
  change (1 <? 3) with true. change (0 <=? 1) with true. cbn [andb ret].
  unfold mat_set. unfold bind at 1. cbn [cols coeffs].
  rewrite Hin by (rewrite !length_insert; reflexivity).
  rewrite list_lookup_insert_eq
    by (rewrite length_insert; apply lookup_lt_Some in Hl; exact Hl).
  change (2 <? 3) with true. change (0 <=? 2) with true. cbn [andb ret].
  unfold set_curve_row. rewrite Hc, !list_insert_insert_eq. reflexivity.
Qed.

(** One pass through the body of the loop: it ends, in [next_state], and
    its events are the probe at the mean, the draw, the evaluation of each
    sample, the call of the updater, and the bookkeeping.  The directories
    of the checkpoints can be made. *)
Lemma update_step_run cost_function updater n_updates n_samples_per_update
    save_directory only_learning_curve i_update st w :
  0 <= n_samples_per_update ->
  well_sized n_updates n_samples_per_update st ->
  0 <= i_update < n_updates ->
  directories_can_be_made w save_directory only_learning_curve n_updates ->
  exists w' book,
    update_step cost_function updater n_samples_per_update save_directory
      only_learning_curve i_update st w
    = Done (next_state cost_function updater n_samples_per_update
              save_directory i_update st w, w') /\
    rng w' = (generateSamples (distribution st) n_samples_per_update (rng w)).2 /\
    trace w' =
      trace w
      ++ Evaluate (mean (distribution st))
         :: GenerateSamples (distribution st) n_samples_per_update
         :: map Evaluate (coeffs (drawn_samples n_samples_per_update st w))
      ++ UpdateDistribution (distribution st)
           (drawn_samples n_samples_per_update st w)
           (sample_costs cost_function (drawn_samples n_samples_per_update st w))
         :: book /\
    Forall is_bookkeeping book /\ failures_reported book /\
    denied w' = denied w.
Proof.
  intros Hn (Hcosts & Hrows & Hcols & Hwf) Hi Hdirs.
  pose proof (generateSamples_rows (distribution st) n_samples_per_update (rng w) Hn)
    as Hgen.
  unfold update_step, evaluate_cost, generate_samples, update_distribution.
  unfold bind at 1. unfold bind at 1. unfold emit at 1. cbn [ret].
  unfold bind at 1. cbn [fst snd rng dirs files denied trace].
  unfold bind at 1.
  change 0 with (Z.of_nat 0) at 1.
  rewrite evaluate_samples_run; cycle 1.
  { unfold rows, vec_size in *. cbn [fst]. lia. }
  { unfold rows, vec_size in *. cbn [fst]. lia. }
  rewrite take_0, drop_0. cbn [app].
  fold (drawn_samples n_samples_per_update st w).
  fold (sample_costs cost_function (drawn_samples n_samples_per_update st w)).
  unfold bind at 1. unfold bind at 1. unfold emit at 1. cbn [ret].
  set (S := drawn_samples n_samples_per_update st w).
  set (C := sample_costs cost_function S).
  set (w4 := mkWorld _ _ _ _ _).
  assert (rng w4 = (generateSamples (distribution st) n_samples_per_update (rng w)).2)
    as Hg4 by reflexivity.
  assert (denied w4 = denied w) as Hn4 by reflexivity.
  assert (trace w4 = trace w
            ++ Evaluate (mean (distribution st))
               :: GenerateSamples (distribution st) n_samples_per_update
               :: map Evaluate (coeffs S)
            ++ [UpdateDistribution (distribution st) S C]) as Ht4.
  { subst w4. cbn [trace add_trace]. rewrite <- !app_assoc. reflexivity. }
  clearbody w4.
  unfold next_state. fold S. fold C. unfold directories_can_be_made in Hdirs.
  destruct (is_empty save_directory).
  - eexists _, [Cout _]. split; [reflexivity|]. cbn [rng trace emit denied].
    split; [exact Hg4|]. split.
    + rewrite Ht4. right_assoc. reflexivity.
    + split; [repeat constructor|cbn; auto].
  - unfold bind at 1.
    rewrite mat_set_row; [|lia|assumption|assumption].
    destruct only_learning_curve; cbn [negb].
    + exists w4, []. split; [reflexivity|]. split; [exact Hg4|].
      split; [exact Ht4|]. split; [constructor|]. split; [exact I|exact Hn4].
    + unfold saveToDirectory1. destruct (Hdirs eq_refl) as [Hd1 Hd2].
      destruct (saveToDirectory_run save_directory i_update
                  ([] ++ [distribution st])
                  (Some (evaluate cost_function (mean (distribution st)))) S C
                  (updateDistribution updater (distribution st) S C).1
                  ([] ++ [(updateDistribution updater (distribution st) S C).2])
                  default_overwrite w4 eq_refl
                  ltac:(rewrite Hn4; exact Hd1)
                  ltac:(rewrite Hn4; apply Hd2; exact Hi))
        as (r & w' & evs & E & R).
      exists w', evs. cbv zeta. unfold bind at 1. unfold bind at 1.
      rewrite E. cbn [ret]. split; [reflexivity|].
      destruct (checkpoint_result_bookkeeping _ _ _ _ _ _ _ R) as [B1 B2].
      destruct R as (Hg & Hn' & Ht & _).
      split; [congruence|]. split; [|split; [|split]]; [|assumption..|congruence].
      rewrite Ht, Ht4. right_assoc. reflexivity.
Qed.

(** What can be made stays so while [denied] stays what it is. *)
Lemma directories_can_be_made_kept w w' save_directory only_learning_curve
    n_updates :
  denied w' = denied w ->
  directories_can_be_made w save_directory only_learning_curve n_updates ->
  directories_can_be_made w' save_directory only_learning_curve n_updates.
Proof. unfold directories_can_be_made. intros ->. auto. Qed.

Lemma next_state_well_sized cost_function updater n_updates n_samples_per_update
    save_directory i_update st w :
  0 <= n_samples_per_update ->
  well_sized n_updates n_samples_per_update st ->
  well_sized n_updates n_samples_per_update
    (next_state cost_function updater n_samples_per_update save_directory
       i_update st w).
Proof.
  intros Hn (Hcosts & Hrows & Hcols & Hwf).
  pose proof (generateSamples_rows (distribution st) n_samples_per_update (rng w) Hn)
    as Hgen.
  unfold well_sized, next_state. cbn [costs learning_curve].
  split.
  { unfold vec_size, sample_costs, drawn_samples, rows in *.
    rewrite length_map. exact Hgen. }
  destruct (is_empty save_directory); [auto|].
  unfold set_curve_row, rows in *. cbn [cols coeffs].
  rewrite length_insert. repeat split; try assumption.
  apply Forall_insert; [assumption|reflexivity].
Qed.

Lemma events_of_samples (l : list (list double)) (book : list (Event double))
    d samples costs :
  Forall is_bookkeeping book -> failures_reported book ->
  updates_in (map Evaluate l ++ UpdateDistribution d samples costs :: book)
  = [(d, samples, costs)] /\
  failures_reported
    (map Evaluate l ++ UpdateDistribution d samples costs :: book).
Proof.
  intros B1 B2. induction l as [|x l [IH1 IH2]].
  - cbn [map app]. split; [|cbn; auto].
    pose proof (bookkeeping_no_updates _ B1) as Hb.
    unfold updates_in in *.
    change (UpdateDistribution d samples costs :: book)
      with ([UpdateDistribution d samples costs] ++ book).
    rewrite omap_app, Hb. reflexivity.
  - split; [exact IH1|]. cbn. auto.
Qed.

Lemma bind_assoc {S A B C} (c : M S A) (f : A -> M S B) (g : B -> M S C) s :
  bind (bind c f) g s = bind c (fun a => bind (f a) g) s.
Proof. unfold bind. destruct (c s) as [[a s']|]; reflexivity. Qed.

Lemma bind_ext {S A B} (c : M S A) (f g : A -> M S B) s :
  (forall a s', f a s' = g a s') -> bind c f s = bind c g s.
Proof. intros H. unfold bind. destruct (c s) as [[a s']|]; auto. Qed.

(** The first [a] passes through the loop, then the others. *)
Lemma optimization_loop_app cost_function updater n_samples_per_update
    save_directory only_learning_curve (a b : nat) :
  forall i st w,
    optimization_loop cost_function updater n_samples_per_update
      save_directory only_learning_curve (a + b) i st w
    = bind (optimization_loop cost_function updater n_samples_per_update
              save_directory only_learning_curve a i st)
        (optimization_loop cost_function updater n_samples_per_update
           save_directory only_learning_curve b (i + Z.of_nat a)) w.
Proof.
  induction a as [|a IH]; intros i st w.
  - cbn. rewrite Z.add_0_r. reflexivity.
  - cbn [Nat.add optimization_loop]. rewrite bind_assoc. apply bind_ext.
    intros st' w'. rewrite IH. f_equal.
    replace (i + 1 + Z.of_nat a) with (i + Z.of_nat (S a)) by lia. reflexivity.
Qed.

(** Any number of passes that stays within [n_updates] ends, when the
    directories of the checkpoints can be made; each pass calls the updater
    once, on [n_samples_per_update] samples and costs, and each failure of
    the writer is reported. *)
Lemma optimization_loop_run cost_function updater n_updates n_samples_per_update
    save_directory only_learning_curve (k : nat) :
  0 <= n_samples_per_update ->
  forall i st w,
    well_sized n_updates n_samples_per_update st ->
    0 <= i -> i + Z.of_nat k <= n_updates ->
    directories_can_be_made w save_directory only_learning_curve n_updates ->
    exists st' w' evs,
      optimization_loop cost_function updater n_samples_per_update
        save_directory only_learning_curve k i st w = Done (st', w') /\
      well_sized n_updates n_samples_per_update st' /\
      trace w' = trace w ++ evs /\
      length (updates_in evs) = k /\
      failures_reported evs /\
      Forall (fun c => rows c.1.2 = n_samples_per_update
                       /\ vec_size c.2 = n_samples_per_update)
        (updates_in evs) /\
      denied w' = denied w.
Proof.
  intros Hn. induction k as [|k IH]; intros i st w Hst Hi Hk Hdirs.
  - exists st, w, []. cbn. rewrite app_nil_r.
    split; [reflexivity|]. split; [exact Hst|]. repeat split; auto.
  - destruct (update_step_run cost_function updater n_updates
                n_samples_per_update save_directory only_learning_curve i st w
                Hn Hst ltac:(lia) Hdirs)
      as (w1 & book & E1 & _ & Ht1 & B1 & B2 & Hd1).
    pose proof (next_state_well_sized cost_function updater n_updates
                  n_samples_per_update save_directory i st w Hn Hst) as Hst1.
    destruct (IH (i + 1) _ w1 Hst1 ltac:(lia) ltac:(lia)
                (directories_can_be_made_kept _ _ _ _ _ Hd1 Hdirs))
      as (st' & w' & evs & E & Hst' & Ht & Hu & Hf & Hs & Hd).
    exists st', w'. eexists. split.
    { cbn [optimization_loop]. rewrite (bind_done _ _ _ _ _ E1). exact E. }
    split; [exact Hst'|]. split.
    { rewrite Ht, Ht1, <- app_assoc. reflexivity. }
    destruct (events_of_samples
                (coeffs (drawn_samples n_samples_per_update st w)) book
                (distribution st) (drawn_samples n_samples_per_update st w)
                (sample_costs cost_function
                   (drawn_samples n_samples_per_update st w)) B1 B2)
      as [U1 U2].
    assert (updates_in
              ((Evaluate (mean (distribution st))
                :: GenerateSamples (distribution st) n_samples_per_update
                :: map Evaluate (coeffs (drawn_samples n_samples_per_update st w))
                ++ UpdateDistribution (distribution st)
                     (drawn_samples n_samples_per_update st w)
                     (sample_costs cost_function
                        (drawn_samples n_samples_per_update st w))
                   :: book) ++ evs)
            = (distribution st, drawn_samples n_samples_per_update st w,
               sample_costs cost_function
                 (drawn_samples n_samples_per_update st w))
              :: updates_in evs) as HU.
    { unfold updates_in in *.
      change (Evaluate ?a :: GenerateSamples ?b ?c :: ?l)
        with ([Evaluate a; GenerateSamples b c] ++ l).
      rewrite omap_app in U1. rewrite !omap_app, U1. reflexivity. }
    rewrite HU. split; [cbn; congruence|]. split; [|split].
    + apply failures_reported_app; [|exact Hf]. cbn. auto.
    + constructor; [|exact Hs]. cbn.
      pose proof (generateSamples_rows (distribution st) n_samples_per_update
                    (rng w) Hn) as Hgen.
      split; [exact Hgen|].
      unfold vec_size, sample_costs, drawn_samples, rows in *.
      rewrite length_map. exact Hgen.
    + congruence.
Qed.

Lemma initialise_run (initial_distribution : DistributionGaussian double)
    n_updates n_samples_per_update save_directory w :
  0 <= n_updates -> 0 <= n_samples_per_update ->
  exists st w' evs,
    initialise initial_distribution n_updates n_samples_per_update
      save_directory w = Done (st, w') /\
    well_sized n_updates n_samples_per_update st /\
    distribution st = initial_distribution /\
    rng w' = rng w /\
    trace w' = trace w ++ evs /\
    updates_in evs = [] /\ failures_reported evs /\
    denied w' = denied w.
Proof.
  intros Hu Hn. unfold initialise, vector_alloc, matrix_alloc.
  destruct (n_samples_per_update <? 0) eqn:E1; [lia|].
  destruct (n_updates <? 0) eqn:E2; [lia|].
  cbn [orb Z.ltb Z.compare bind ret].
  assert (well_sized n_updates n_samples_per_update
            (mkLoopState uninitialized (mkMatrix 0 []) []
               (replicate (Z.to_nat n_samples_per_update) uninitialized)
               (mkMatrix 3 (replicate (Z.to_nat n_updates)
                              (replicate (Z.to_nat 3) uninitialized)))
               initial_distribution initial_distribution)) as Hst.
  { unfold well_sized, vec_size, rows. cbn [costs learning_curve cols coeffs].
    rewrite !length_replicate. repeat split; try lia.
    apply Forall_replicate. reflexivity. }
  destruct (is_empty save_directory).
  - eexists _, _, [Cout _]. split; [reflexivity|].
    split; [exact Hst|]. cbn. repeat split; auto.
  - eexists _, w, []. split; [reflexivity|].
    split; [exact Hst|]. cbn. rewrite app_nil_r. repeat split; auto.
Qed.

Lemma bind_ret_r {S A} (c : M S A) s : bind c ret s = c s.
Proof. unfold bind, ret. destruct (c s) as [[a s']|]; reflexivity. Qed.

Section Run.

Variables (cost_function : CostFunction double)
  (initial_distribution : DistributionGaussian double)
  (updater : Updater double) (n_updates n_samples_per_update : Z)
  (save_directory : string) (only_learning_curve : bool).

Hypothesis n_updates_nonneg : 0 <= n_updates.
Hypothesis n_samples_nonneg : 0 <= n_samples_per_update.

Local Abbreviation after k :=
  (after_updates cost_function initial_distribution updater n_updates
     n_samples_per_update save_directory only_learning_curve k).
Local Abbreviation step i :=
  (update_step cost_function updater n_samples_per_update save_directory
     only_learning_curve i).
Local Abbreviation loop k i :=
  (optimization_loop cost_function updater n_samples_per_update
     save_directory only_learning_curve k i).
Local Abbreviation next i st w :=
  (next_state cost_function updater n_samples_per_update save_directory i st w).
Local Abbreviation ready w :=
  (directories_can_be_made w save_directory only_learning_curve n_updates).

Lemma after_updates_rest (a b : nat) w :
  (a <= b)%nat ->
  after b w = bind (after a) (loop (b - a) (Z.of_nat a)) w.
Proof.
  intros Hab. unfold after_updates. rewrite bind_assoc. apply bind_ext.
  intros st w'. replace b with (a + (b - a))%nat at 1 by lia.
  rewrite optimization_loop_app. reflexivity.
Qed.

Lemma after_updates_S (k : nat) w :
  after (S k) w = bind (after k) (step (Z.of_nat k)) w.
Proof.
  rewrite (after_updates_rest k (S k)) by lia. apply bind_ext. intros st w'.
  replace (S k - k)%nat with 1%nat by lia. cbn [optimization_loop].
  apply bind_ret_r.
Qed.

(** The run reaches the end of each of its updates, when the directories
    of its checkpoints can be made. *)
Lemma after_updates_run (k : nat) w :
  Z.of_nat k <= n_updates -> ready w ->
  exists st w' evs,
    after k w = Done (st, w') /\
    well_sized n_updates n_samples_per_update st /\
    trace w' = trace w ++ evs /\
    length (updates_in evs) = k /\
    failures_reported evs /\
    Forall (fun c => rows c.1.2 = n_samples_per_update
                     /\ vec_size c.2 = n_samples_per_update)
      (updates_in evs) /\
    denied w' = denied w.
Proof.
  intros Hk Hready.
  destruct (initialise_run initial_distribution n_updates n_samples_per_update
              save_directory w n_updates_nonneg n_samples_nonneg)
    as (st0 & w0 & evs0 & E0 & Hst0 & _ & _ & Ht0 & Hu0 & Hf0 & Hd0).
  destruct (optimization_loop_run cost_function updater n_updates
              n_samples_per_update save_directory only_learning_curve k
              n_samples_nonneg 0 st0 w0 Hst0 ltac:(lia) ltac:(lia)
              (directories_can_be_made_kept _ _ _ _ _ Hd0 Hready))
    as (st & w' & evs & E & Hst & Ht & Hu & Hf & Hs & Hd).
  exists st, w', (evs0 ++ evs). split.
  { unfold after_updates. rewrite (bind_done _ _ _ _ _ E0). exact E. }
  split; [exact Hst|]. split; [rewrite Ht, Ht0, app_assoc; reflexivity|].
  unfold updates_in in *. rewrite omap_app, Hu0. cbn [app].
  split; [exact Hu|]. split; [|split; [exact Hs|congruence]].
  apply failures_reported_app; assumption.
Qed.

(** Update [i] of the run, from the state and the world it starts in. *)
Lemma after_updates_step (i : nat) w :
  Z.of_nat i < n_updates -> ready w ->
  exists st w_i w' book,
    after i w = Done (st, w_i) /\
    well_sized n_updates n_samples_per_update st /\
    after (S i) w = Done (next (Z.of_nat i) st w_i, w') /\
    trace w' =
      trace w_i
      ++ Evaluate (mean (distribution st))
         :: GenerateSamples (distribution st) n_samples_per_update
         :: map Evaluate (coeffs (drawn_samples n_samples_per_update st w_i))
      ++ UpdateDistribution (distribution st)
           (drawn_samples n_samples_per_update st w_i)
           (sample_costs cost_function
              (drawn_samples n_samples_per_update st w_i))
         :: book /\
    Forall is_bookkeeping book /\ failures_reported book.
Proof.
  intros Hi Hready.
  destruct (after_updates_run i w ltac:(lia) Hready)
    as (st & w_i & evs & E & Hst & _ & _ & _ & _ & Hd).
  destruct (update_step_run cost_function updater n_updates
              n_samples_per_update save_directory only_learning_curve
              (Z.of_nat i) st w_i n_samples_nonneg Hst ltac:(lia)
              (directories_can_be_made_kept _ _ _ _ _ Hd Hready))
    as (w' & book & E' & _ & Ht & B1 & B2 & _).
  exists st, w_i, w', book. split; [exact E|]. split; [exact Hst|].
  split; [|auto].
  rewrite after_updates_S, (bind_done _ _ _ _ _ E). exact E'.
Qed.

(** After [k] updates, the rows of the learning curve below [k] hold what
    the updates below [k] put there. *)
Lemma learning_curve_rows (k : nat) w :
  Z.of_nat k <= n_updates -> is_empty save_directory = false -> ready w ->
  forall st_k w_k, after k w = Done (st_k, w_k) ->
  forall (i : nat) st_i w_i, (i < k)%nat -> after i w = Done (st_i, w_i) ->
    coeffs (learning_curve st_k) !! i
    = Some [double_of_int (Int.mul (Z.of_nat i) n_samples_per_update);
            evaluate cost_function (mean (distribution st_i));
            sqrt (maxEigenValue (distribution st_i))].
Proof.
  intros Hk Hdir Hready.
  induction k as [|k IH]; intros st_k w_k Ek i st_i w_i Hi Ei; [lia|].
  destruct (after_updates_step k w ltac:(lia) Hready)
    as (st & w1 & w' & book & E & Hst & E' & _).
  rewrite E' in Ek. injection Ek as <- <-.
  unfold next_state. rewrite Hdir. cbn [learning_curve coeffs set_curve_row].
  rewrite Nat2Z.id.
  destruct (decide (i = k)) as [->|Hne].
  - rewrite E in Ei. injection Ei as <- <-.
    apply list_lookup_insert_eq.
    destruct Hst as (_ & Hrows & _). unfold rows in Hrows. lia.
  - rewrite list_lookup_insert_ne by lia.
    apply (IH ltac:(lia) st w1 E i st_i w_i ltac:(lia) Ei).
Qed.

(** C1.  After update [i] of a run of [runOptimization], the current
    distribution is the new distribution that the updater returned in
    update [i], as it is: the loop has no acceptance test and changes
    nothing in it.  The updater is called once in that update, on the
    distribution current at its start, the samples drawn from it and their
    costs; the run goes on from the state reached.  The update returns: the
    directories of the checkpoints can be made, so that no checkpoint ends
    the run by [filesystem_error]. *)
Theorem runOptimization_accepts_every_update (i : nat) w :
  Z.of_nat i < n_updates -> ready w ->
  exists st w_i st' w' evs,
    after i w = Done (st, w_i) /\
    after (S i) w = Done (st', w') /\
    after (Z.to_nat n_updates) w
    = loop (Z.to_nat n_updates - S i) (Z.of_nat (S i)) st' w' /\
    trace w' = trace w_i ++ evs /\
    updates_in evs
    = [(distribution st, drawn_samples n_samples_per_update st w_i,
        sample_costs cost_function (drawn_samples n_samples_per_update st w_i))] /\
    distribution st'
    = (updateDistribution updater (distribution st)
         (drawn_samples n_samples_per_update st w_i)
         (sample_costs cost_function
            (drawn_samples n_samples_per_update st w_i))).2.
Proof.
  intros Hi Hready.
  destruct (after_updates_step i w Hi Hready)
    as (st & w_i & w' & book & E & Hst & E' & Ht & B1 & B2).
  exists st, w_i, (next (Z.of_nat i) st w_i), w'. eexists.
  split; [exact E|]. split; [exact E'|]. split.
  { rewrite (after_updates_rest (S i) (Z.to_nat n_updates)) by lia.
    rewrite (bind_done _ _ _ _ _ E'). reflexivity. }
  split; [exact Ht|]. split; [|reflexivity].
  destruct (events_of_samples
              (coeffs (drawn_samples n_samples_per_update st w_i)) book
              (distribution st) (drawn_samples n_samples_per_update st w_i)
              (sample_costs cost_function
                 (drawn_samples n_samples_per_update st w_i)) B1 B2) as [U _].
  unfold updates_in in *.
  change (Evaluate ?a :: GenerateSamples ?b ?c :: ?l)
    with ([Evaluate a; GenerateSamples b c] ++ l).
  rewrite omap_app, U. reflexivity.
Qed.

(** C2.  In a run of [runOptimization] with a save directory, row [i] of
    the learning curve, for each update [i], holds the number of samples
    evaluated before update [i], which is [i * n_samples_per_update], the
    cost of the mean of the distribution current in update [i], and the
    square root of the largest eigenvalue of its covariance; the matrix with
    these rows is the one written to [learning_curve.txt].  The product is
    computed on [int]: the row is stated where it does not overflow.  The
    updates return: the directories of the checkpoints can be made. *)
Theorem learning_curve_row (i : nat) overwrite w :
  Z.of_nat i < n_updates ->
  is_empty save_directory = false ->
  Int.in_range (Z.of_nat i * n_samples_per_update) ->
  ready w ->
  exists st_i w_i st_n w_n,
    after i w = Done (st_i, w_i) /\
    after (Z.to_nat n_updates) w = Done (st_n, w_n) /\
    coeffs (learning_curve st_n) !! i
    = Some [double_of_int (Z.of_nat i * n_samples_per_update);
            evaluate cost_function (mean (distribution st_i));
            sqrt (maxEigenValue (distribution st_i))] /\
    runOptimization cost_function initial_distribution updater n_updates
      n_samples_per_update save_directory overwrite only_learning_curve w
    = (let* _ := saveMatrix save_directory "learning_curve.txt"
                   (RealMatrix (learning_curve st_n)) overwrite in
       ret tt) w_n.
Proof.
  intros Hi Hdir Hfit Hready.
  destruct (after_updates_run i w ltac:(lia) Hready)
    as (st_i & w_i & _ & Ei & _).
  destruct (after_updates_run (Z.to_nat n_updates) w ltac:(lia) Hready)
    as (st_n & w_n & _ & En & _).
  exists st_i, w_i, st_n, w_n. split; [exact Ei|]. split; [exact En|]. split.
  - rewrite <- (Int_mul_exact _ _ Hfit).
    apply (learning_curve_rows (Z.to_nat n_updates) w ltac:(lia) Hdir Hready
             st_n w_n En i st_i w_i ltac:(lia) Ei).
  - unfold runOptimization. rewrite (bind_done _ _ _ _ _ En), Hdir. reflexivity.
Qed.

(** C3.  In update [i] of a run of [runOptimization] the cost function is
    evaluated at the mean of the current distribution once, as the first
    thing that happens and so before the samples are drawn; every other
    evaluation of the update is that of a drawn sample.  The probe cost of
    the update is this value, computed from the distribution current in
    update [i].  The update returns: the directories of the checkpoints can
    be made. *)
Theorem probe_cost_before_sampling (i : nat) w :
  Z.of_nat i < n_updates -> ready w ->
  exists st w_i st' w' book,
    after i w = Done (st, w_i) /\
    after (S i) w = Done (st', w') /\
    trace w' =
      trace w_i
      ++ Evaluate (mean (distribution st))
         :: GenerateSamples (distribution st) n_samples_per_update
         :: map Evaluate (coeffs (drawn_samples n_samples_per_update st w_i))
      ++ UpdateDistribution (distribution st)
           (drawn_samples n_samples_per_update st w_i)
           (sample_costs cost_function
              (drawn_samples n_samples_per_update st w_i))
         :: book /\
    Forall is_bookkeeping book /\
    cost_eval st' = evaluate cost_function (mean (distribution st)).
Proof.
  intros Hi Hready.
  destruct (after_updates_step i w Hi Hready)
    as (st & w_i & w' & book & E & Hst & E' & Ht & B1 & B2).
  exists st, w_i, (next (Z.of_nat i) st w_i), w', book.
  repeat split; assumption.
Qed.

(** The whole run, when the directories of its checkpoints can be made: the
    updates, then the learning curve, then the return of nothing. *)
Lemma runOptimization_run overwrite w :
  ready w ->
  exists st w_n w' evs_n evs_c,
    after (Z.to_nat n_updates) w = Done (st, w_n) /\
    runOptimization cost_function initial_distribution updater n_updates
      n_samples_per_update save_directory overwrite only_learning_curve w
    = Done (tt, w') /\
    trace w_n = trace w ++ evs_n /\
    length (updates_in evs_n) = Z.to_nat n_updates /\
    failures_reported evs_n /\
    Forall (fun c => rows c.1.2 = n_samples_per_update
                     /\ vec_size c.2 = n_samples_per_update)
      (updates_in evs_n) /\
    rng w' = rng w_n /\
    trace w' = trace w_n ++ evs_c /\
    Forall is_bookkeeping evs_c /\ failures_reported evs_c.
Proof.
  intros Hready.
  destruct (after_updates_run (Z.to_nat n_updates) w ltac:(lia) Hready)
    as (st & w_n & evs_n & En & _ & Ht & Hu & Hf & Hs & _).
  unfold runOptimization. rewrite (bind_done _ _ _ _ _ En).
  destruct (is_empty save_directory); cbn [negb].
  - exists st, w_n, w_n, evs_n, []. rewrite app_nil_r.
    repeat split; auto.
  - destruct (saveMatrix_run save_directory "learning_curve.txt"
                (RealMatrix (learning_curve st)) overwrite w_n)
      as (r & w' & E & R).
    destruct (write_result_bookkeeping _ _ _ _ _ _ _ R)
      as (Hg & evs_c & Ht' & B1 & B2 & _).
    exists st, w_n, w', evs_n, evs_c. rewrite (bind_done _ _ _ _ _ E).
    repeat split; auto.
Qed.


End Run.

End LoopFacts.

(** ** The rollouts *)

Section TaskSolverFacts.

Context {double : Type} {dmp_ext : DmpExternals double}.

Lemma row_run {S} (m : MatrixXd double) r c i (s : S) :
  shaped r c m -> 0 <= i < r ->
  exists x, row m i s = Done (x, s) /\ vec_size x = c.
Proof.
  intros [Hr Hc] Hi. unfold row, rows in *.
  destruct (0 <=? i) eqn:E; [|lia].
  destruct (coeffs m !! Z.to_nat i) as [x|] eqn:Hl;
    [|apply lookup_ge_None in Hl; lia].
  exists x. split; [reflexivity|].
  rewrite Forall_forall in Hc. apply Hc. eapply list_elem_of_lookup_2, Hl.
Qed.

Lemma vec_row_run {S} (v : VectorXd double) i (s : S) :
  0 <= i < vec_size v ->
  exists x, vec_row v i s = Done ([x], s).
Proof.
  intros Hi. unfold vec_row, vec_size in *.
  destruct (0 <=? i) eqn:E; [|lia].
  destruct (v !! Z.to_nat i) as [x|] eqn:Hl;
    [|apply lookup_ge_None in Hl; lia].
  exists x. reflexivity.
Qed.

Lemma row_in_range {S} (m : MatrixXd double) i (s : S) :
  0 <= i < rows m -> exists x, row m i s = Done (x, s).
Proof.
  intros Hi. unfold row, rows in *.
  destruct (0 <=? i) eqn:E; [|lia].
  destruct (coeffs m !! Z.to_nat i) as [x|] eqn:Hl;
    [|apply lookup_ge_None in Hl; lia].
  exists x. reflexivity.
Qed.

(** A block that lies within the matrix is written, and leaves the matrix
    with its shape. *)
Lemma block_assign_run {S} (m : MatrixXd double) R C i j w
    (r : VectorXd double) (s : S) :
  shaped R C m -> cols m = C ->
  0 <= i < R -> 0 <= j -> 0 <= w -> j + w <= C -> vec_size r = w ->
  exists m', block_assign m i j w r s = Done (m', s) /\
    shaped R C m' /\ cols m' = C.
Proof.
  intros [HR Hc] HC Hi Hj Hw Hjw Hr. unfold block_assign.
  replace ((0 <=? i) && (i <? rows m) && (0 <=? j) && (0 <=? w)
           && (j + w <=? cols m) && (vec_size r =? w)) with true by lia.
  unfold rows in *.
  destruct (coeffs m !! Z.to_nat i) as [old|] eqn:Hl;
    [|apply lookup_ge_None in Hl; lia].
  eexists. split; [reflexivity|]. unfold shaped, rows. cbn [cols coeffs].
  rewrite length_insert. repeat split; try assumption.
  apply Forall_insert; [exact Hc|].
  assert (vec_size old = C) as Hold.
  { rewrite Forall_forall in Hc. apply Hc. eapply list_elem_of_lookup_2, Hl. }
  unfold vec_size in *. rewrite !length_app, length_take, length_drop. lia.
Qed.

Section Rollouts.

Variables (n_dofs T R C : Z).
Hypothesis n_dofs_nonneg : 0 <= n_dofs.
Hypothesis columns : C = T * (4 * n_dofs + 1).
Hypothesis columns_fit : C <= Int.max_int.

(** One time step writes its five blocks within the row and moves the
    offset by [4 * n_dofs + 1]. *)
Lemma write_time_step_run k tt ys_ana yds_ana ydds_ana (ts : VectorXd double)
    forcing_terms cost_vars (dmp : Dmp) :
  shaped T n_dofs ys_ana -> shaped T n_dofs yds_ana ->
  shaped T n_dofs ydds_ana -> shaped T n_dofs forcing_terms ->
  vec_size ts = T ->
  shaped R C cost_vars -> cols cost_vars = C ->
  0 <= k < R -> 0 <= tt < T ->
  exists cost_vars',
    write_time_step n_dofs k tt ys_ana yds_ana ydds_ana ts forcing_terms
      (tt * (4 * n_dofs + 1)) cost_vars dmp
    = Done (((tt + 1) * (4 * n_dofs + 1), cost_vars'), dmp) /\
    shaped R C cost_vars' /\ cols cost_vars' = C.
Proof.
  intros Hy Hyd Hydd Hf Hts Hcv Hcols Hk Htt.
  assert ((tt + 1) * (4 * n_dofs + 1) <= C) as Hend by nia.
  assert (0 <= tt * (4 * n_dofs + 1)) as Hstart by nia.
  set (o := tt * (4 * n_dofs + 1)) in *.
  assert (forall d, 0 <= d <= 4 * n_dofs + 1 -> Int.wrap (o + d) = o + d) as Hw.
  { intros d Hd. apply Int_wrap_in_range.
    unfold Int.in_range, Int.min_int, Int.max_int in *. lia. }
  unfold write_time_step.
  destruct (row_run ys_ana T n_dofs tt dmp Hy Htt) as (r1 & E1 & H1).
  rewrite (bind_done _ _ _ _ _ E1).
  destruct (block_assign_run cost_vars R C k o n_dofs r1 dmp Hcv Hcols Hk
              ltac:(lia) ltac:(lia) ltac:(lia) H1) as (cv1 & B1 & S1 & C1).
  rewrite (bind_done _ _ _ _ _ B1). cbv zeta. unfold Int.add.
  rewrite (Hw n_dofs) by lia.
  destruct (row_run yds_ana T n_dofs tt dmp Hyd Htt) as (r2 & E2 & H2).
  rewrite (bind_done _ _ _ _ _ E2).
  destruct (block_assign_run cv1 R C k (o + n_dofs) n_dofs r2 dmp S1 C1 Hk
              ltac:(lia) ltac:(lia) ltac:(lia) H2) as (cv2 & B2 & S2 & C2).
  rewrite (bind_done _ _ _ _ _ B2).
  replace (o + n_dofs + n_dofs) with (o + 2 * n_dofs) by lia.
  rewrite (Hw (2 * n_dofs)) by lia.
  destruct (row_run ydds_ana T n_dofs tt dmp Hydd Htt) as (r3 & E3 & H3).
  rewrite (bind_done _ _ _ _ _ E3).
  destruct (block_assign_run cv2 R C k (o + 2 * n_dofs) n_dofs r3 dmp S2 C2 Hk
              ltac:(lia) ltac:(lia) ltac:(lia) H3) as (cv3 & B3 & S3 & C3).
  rewrite (bind_done _ _ _ _ _ B3).
  replace (o + 2 * n_dofs + n_dofs) with (o + 3 * n_dofs) by lia.
  rewrite (Hw (3 * n_dofs)) by lia.
  destruct (vec_row_run ts tt dmp ltac:(lia)) as (x & E4).
  rewrite (bind_done _ _ _ _ _ E4).
  destruct (block_assign_run cv3 R C k (o + 3 * n_dofs) 1 [x] dmp S3 C3 Hk
              ltac:(lia) ltac:(lia) ltac:(lia) eq_refl) as (cv4 & B4 & S4 & C4).
  rewrite (bind_done _ _ _ _ _ B4).
  replace (o + 3 * n_dofs + 1) with (o + (3 * n_dofs + 1)) by lia.
  rewrite (Hw (3 * n_dofs + 1)) by lia.
  destruct (row_run forcing_terms T n_dofs tt dmp Hf Htt) as (r5 & E5 & H5).
  rewrite (bind_done _ _ _ _ _ E5).
  destruct (block_assign_run cv4 R C k (o + (3 * n_dofs + 1)) n_dofs r5 dmp S4 C4
              Hk ltac:(lia) ltac:(lia) ltac:(lia) H5) as (cv5 & B5 & S5 & C5).
  rewrite (bind_done _ _ _ _ _ B5).
  replace (o + (3 * n_dofs + 1) + n_dofs) with (o + (4 * n_dofs + 1)) by lia.
  rewrite (Hw (4 * n_dofs + 1)) by lia.
  exists cv5. split; [|auto]. unfold ret. do 3 f_equal. subst o. lia.
Qed.

(** The loop over the time steps, from any of its steps on. *)
Lemma time_steps_loop_run k ys_ana yds_ana ydds_ana (ts : VectorXd double)
    forcing_terms (dmp : Dmp) :
  shaped T n_dofs ys_ana -> shaped T n_dofs yds_ana ->
  shaped T n_dofs ydds_ana -> shaped T n_dofs forcing_terms ->
  vec_size ts = T -> 0 <= k < R ->
  forall (m : nat) tt cost_vars,
    shaped R C cost_vars -> cols cost_vars = C ->
    0 <= tt -> tt + Z.of_nat m <= T ->
    exists cost_vars',
      time_steps_loop n_dofs k ys_ana yds_ana ydds_ana ts forcing_terms m tt
        (tt * (4 * n_dofs + 1)) cost_vars dmp
      = Done (((tt + Z.of_nat m) * (4 * n_dofs + 1), cost_vars'), dmp) /\
      shaped R C cost_vars' /\ cols cost_vars' = C.
Proof.
  intros Hy Hyd Hydd Hf Hts Hk. induction m as [|m IH];
    intros tt cost_vars Hcv Hcols Htt Hm.
  - exists cost_vars. cbn. rewrite Z.add_0_r. auto.
  - destruct (write_time_step_run k tt ys_ana yds_ana ydds_ana ts forcing_terms
                cost_vars dmp Hy Hyd Hydd Hf Hts Hcv Hcols Hk ltac:(lia))
      as (cv1 & E1 & S1 & C1).
    destruct (IH (tt + 1) cv1 S1 C1 ltac:(lia) ltac:(lia)) as (cv' & E & S' & C').
    exists cv'. cbn [time_steps_loop]. rewrite (bind_done _ _ _ _ _ E1).
    cbn [fst snd]. rewrite E.
    replace (tt + 1 + Z.of_nat m) with (tt + Z.of_nat (S m)) by lia. auto.
Qed.

End Rollouts.

Lemma assert_rows_run (samples : list (MatrixXd double)) n_samples (dmp : Dmp) :
  Forall (fun s => rows s = n_samples) samples ->
  forall (m dd : nat), (dd + m <= length samples)%nat ->
    assert_rows samples n_samples m dd dmp = Done (tt, dmp).
Proof.
  intros Hs. induction m as [|m IH]; intros dd Hdd; [reflexivity|].
  cbn [assert_rows]. unfold at_index.
  destruct (samples !! dd) as [s|] eqn:Hl; [|apply lookup_ge_None in Hl; lia].
  cbn [bind ret].
  assert (rows s = n_samples) as ->.
  { rewrite Forall_forall in Hs. apply Hs. eapply list_elem_of_lookup_2, Hl. }
  rewrite Z.eqb_refl. cbn [assert bind ret]. apply IH. lia.
Qed.

Lemma model_parameters_run (samples : list (MatrixXd double)) n_samples k
    (dmp : Dmp) :
  Forall (fun s => rows s = n_samples) samples -> 0 <= k < n_samples ->
  forall (m dd : nat) (v : list (VectorXd double)),
    (dd + m <= length samples)%nat -> length v = length samples ->
    exists v', model_parameters samples k m dd v dmp = Done (v', dmp) /\
      length v' = length samples.
Proof.
  intros Hs Hk. induction m as [|m IH]; intros dd v Hdd Hv.
  - exists v. auto.
  - cbn [model_parameters]. unfold at_index.
    destruct (samples !! dd) as [s|] eqn:Hl; [|apply lookup_ge_None in Hl; lia].
    cbn [bind ret].
    assert (rows s = n_samples) as Hrows.
    { rewrite Forall_forall in Hs. apply Hs. eapply list_elem_of_lookup_2, Hl. }
    destruct (row_in_range s k dmp ltac:(lia)) as (r & E).
    rewrite (bind_done _ _ _ _ _ E).
    rewrite bool_decide_eq_true_2 by lia.
    apply IH; [lia|]. rewrite length_insert. exact Hv.
Qed.

Section Solver.

Variables (solver : TaskSolverDmp double) (samples : list (MatrixXd double)).
Variables (n_dofs n_samples : Z).

(** The contract of the [Dmp]: its trajectories have the shape that
    [performRollouts] takes them to have, and setting the parameters of the
    model leaves the number of its degrees of freedom. *)
Hypothesis dmp_trajectories : forall dmp ts, trajectories_shaped dmp ts.
Hypothesis dmp_dim_orig :
  forall v b dmp, dim_orig (setModelParametersVectors v b dmp) = dim_orig dmp.
Hypothesis LinSpaced_size :
  forall n lo hi, 0 <= n -> vec_size (LinSpaced n lo hi) = n.

Hypothesis samples_size : Z.of_nat (length samples) = n_dofs.
Hypothesis samples_rows : Forall (fun s => rows s = n_samples) samples.
Hypothesis time_steps_nonneg : 0 <= n_time_steps_ solver.

Lemma rollout_run R ts k v cost_vars (dmp : Dmp) :
  let C := n_time_steps_ solver * (4 * n_dofs + 1) in
  C <= Int.max_int ->
  vec_size ts = n_time_steps_ solver ->
  dim_orig dmp = n_dofs -> length v = length samples ->
  shaped R C cost_vars -> cols cost_vars = C ->
  0 <= k < R -> R = n_samples ->
  exists v' cost_vars' dmp',
    rollout solver samples n_dofs ts k v cost_vars dmp
    = Done ((v', cost_vars'), dmp') /\
    dim_orig dmp' = n_dofs /\ length v' = length samples /\
    shaped R C cost_vars' /\ cols cost_vars' = C.
Proof.
  intros C Hfit Hts Hdim Hv Hcv Hcols Hk HR. unfold rollout.
  destruct (model_parameters_run samples n_samples k dmp samples_rows
              ltac:(lia) (Z.to_nat n_dofs) 0 v ltac:(lia) Hv) as (v' & E & Hv').
  rewrite (bind_done _ _ _ _ _ E). cbn [bind get put].
  set (dmp' := setModelParametersVectors v' (use_normalized_parameter_ solver) dmp).
  assert (dim_orig dmp' = n_dofs) as Hdim' by (subst dmp'; rewrite dmp_dim_orig; auto).
  pose proof (dmp_trajectories dmp' ts) as Htraj. unfold trajectories_shaped in Htraj.
  destruct (analyticalSolution dmp' ts) as [[xs_ana xds_ana] forcing_terms].
  destruct (statesAsTrajectory dmp' xs_ana xds_ana) as [[ys_ana yds_ana] ydds_ana].
  rewrite Hdim', Hts in Htraj. destruct Htraj as (Hy & Hyd & Hydd & Hf).
  destruct (time_steps_loop_run n_dofs (n_time_steps_ solver) R C ltac:(lia)
              eq_refl Hfit k ys_ana yds_ana ydds_ana ts forcing_terms dmp'
              Hy Hyd Hydd Hf Hts Hk (Z.to_nat (n_time_steps_ solver)) 0
              cost_vars Hcv Hcols ltac:(lia) ltac:(lia)) as (cv' & E' & S' & C').
  change (0 * (4 * n_dofs + 1)) with 0 in E'.
  rewrite (bind_done _ _ _ _ _ E'). cbn [fst snd ret].
  exists v', cv', dmp'. auto.
Qed.

Lemma rollouts_loop_run ts :
  let C := n_time_steps_ solver * (4 * n_dofs + 1) in
  C <= Int.max_int ->
  vec_size ts = n_time_steps_ solver ->
  forall (m : nat) k v cost_vars (dmp : Dmp),
    dim_orig dmp = n_dofs -> length v = length samples ->
    shaped n_samples C cost_vars -> cols cost_vars = C ->
    0 <= k -> k + Z.of_nat m <= n_samples ->
    exists cost_vars' dmp',
      rollouts_loop solver samples n_dofs ts m k v cost_vars dmp
      = Done (cost_vars', dmp') /\
      shaped n_samples C cost_vars' /\ cols cost_vars' = C.
Proof.
  intros C Hfit Hts. induction m as [|m IH];
    intros k v cost_vars dmp Hdim Hv Hcv Hcols Hk Hm.
  - exists cost_vars, dmp. auto.
  - destruct (rollout_run n_samples ts k v cost_vars dmp Hfit Hts Hdim Hv Hcv
                Hcols ltac:(lia) eq_refl)
      as (v' & cv1 & dmp1 & E1 & Hdim1 & Hv1 & S1 & C1).
    destruct (IH (k + 1) v' cv1 dmp1 Hdim1 Hv1 S1 C1 ltac:(lia) ltac:(lia))
      as (cv' & dmp' & E & S' & C').
    exists cv', dmp'. cbn [rollouts_loop]. rewrite (bind_done _ _ _ _ _ E1).
    cbn [fst snd]. auto.
Qed.

(** C10.  A call of [performRollouts] on a vector of [n_dofs] matrices,
    [n_dofs] being above zero and the number of degrees of freedom of the
    [Dmp], that all have [n_samples] rows, ends, and leaves in [cost_vars] a
    matrix of [n_samples] rows and [n_time_steps_ * (4 * n_dofs + 1)]
    columns: the loops run on a matrix resized to this, and each block
    written lay within it.  The loop over the time
    steps, run for [tt] steps on a row of such a matrix, leaves the offset
    at [tt * (4 * n_dofs + 1)].  The sizes are computed on [int]: the
    property is stated where they do not overflow. *)
Theorem performRollouts_cost_vars task_parameters (dmp : Dmp) :
  0 < n_dofs -> dim_orig dmp = n_dofs ->
  n_samples <= Int.max_int ->
  4 * n_dofs + 1 <= Int.max_int ->
  n_time_steps_ solver * (4 * n_dofs + 1) <= Int.max_int ->
  performRollouts solver samples task_parameters dmp
  = rollouts_loop solver samples n_dofs
      (LinSpaced (n_time_steps_ solver) zero (integrate_time_ solver))
      (Z.to_nat n_samples) 0 (replicate (Z.to_nat n_dofs) [])
      (mkMatrix (n_time_steps_ solver * (4 * n_dofs + 1))
         (replicate (Z.to_nat n_samples)
            (replicate (Z.to_nat (n_time_steps_ solver * (4 * n_dofs + 1)))
               unwritten)))
      dmp /\
  (exists cost_vars dmp',
     performRollouts solver samples task_parameters dmp
     = Done (cost_vars, dmp') /\
     rows cost_vars = n_samples /\
     cols cost_vars = n_time_steps_ solver * (4 * n_dofs + 1) /\
     Forall (fun r => vec_size r = n_time_steps_ solver * (4 * n_dofs + 1))
       (coeffs cost_vars)) /\
  (forall (tt : nat) k ys_ana yds_ana ydds_ana ts forcing_terms cost_vars,
     Z.of_nat tt <= n_time_steps_ solver -> 0 <= k < n_samples ->
     shaped (n_time_steps_ solver) n_dofs ys_ana ->
     shaped (n_time_steps_ solver) n_dofs yds_ana ->
     shaped (n_time_steps_ solver) n_dofs ydds_ana ->
     shaped (n_time_steps_ solver) n_dofs forcing_terms ->
     vec_size ts = n_time_steps_ solver ->
     shaped n_samples (n_time_steps_ solver * (4 * n_dofs + 1)) cost_vars ->
     cols cost_vars = n_time_steps_ solver * (4 * n_dofs + 1) ->
     exists cost_vars',
       time_steps_loop n_dofs k ys_ana yds_ana ydds_ana ts forcing_terms tt 0 0
         cost_vars dmp
       = Done ((Z.of_nat tt * (4 * n_dofs + 1), cost_vars'), dmp) /\
       rows cost_vars' = n_samples /\
       cols cost_vars' = n_time_steps_ solver * (4 * n_dofs + 1)).
Proof.
  intros Hpos Hdim Hfit_s Hfit_c Hfit.
  assert (0 <= n_samples) as Hns.
  { destruct samples as [|s0 rest]; [cbn in samples_size; lia|].
    pose proof samples_rows as Hs. apply Forall_cons in Hs as [<- _].
    unfold rows. lia. }
  assert (performRollouts solver samples task_parameters dmp
          = rollouts_loop solver samples n_dofs
              (LinSpaced (n_time_steps_ solver) zero (integrate_time_ solver))
              (Z.to_nat n_samples) 0 (replicate (Z.to_nat n_dofs) [])
              (mkMatrix (n_time_steps_ solver * (4 * n_dofs + 1))
                 (replicate (Z.to_nat n_samples)
                    (replicate
                       (Z.to_nat (n_time_steps_ solver * (4 * n_dofs + 1)))
                       unwritten)))
              dmp) as Hresize.
  { unfold performRollouts.
    assert (Int.wrap (Z.of_nat (length samples)) = n_dofs) as Hn.
    { rewrite samples_size. apply Int_wrap_in_range.
      unfold Int.in_range, Int.min_int, Int.max_int in *. lia. }
    rewrite Hn. cbv zeta.
    replace (0 <? n_dofs) with true by lia. cbn [assert bind ret get].
    rewrite Hdim, Z.eqb_refl. cbn [assert bind ret]. unfold at_index.
    destruct (samples !! 0%nat) as [s0|] eqn:Hl;
      [|apply lookup_ge_None in Hl; lia].
    cbn [bind ret].
    assert (rows s0 = n_samples) as Hrows.
    { pose proof samples_rows as Hs. rewrite Forall_forall in Hs. apply Hs.
      eapply list_elem_of_lookup_2, Hl. }
    rewrite Hrows, (Int_wrap_in_range n_samples)
      by (unfold Int.in_range, Int.min_int, Int.max_int in *; lia).
    pose proof (assert_rows_run samples n_samples dmp samples_rows
                  (Z.to_nat (n_dofs - 1)) 1 ltac:(lia)) as Ha.
    rewrite (bind_done _ _ _ _ _ Ha).
    replace (n_time_steps_ solver <? 0) with false by lia. cbn [bind ret].
    unfold Int.add, Int.mul.
    rewrite (Int_wrap_in_range (4 * n_dofs))
      by (unfold Int.in_range, Int.min_int, Int.max_int in *; lia).
    rewrite (Int_wrap_in_range (4 * n_dofs + 1))
      by (unfold Int.in_range, Int.min_int, Int.max_int in *; lia).
    rewrite (Int_wrap_in_range (n_time_steps_ solver * (4 * n_dofs + 1)))
      by (unfold Int.in_range, Int.min_int, Int.max_int in *; nia).
    unfold matrix_alloc.
    replace ((n_samples <? 0) || (n_time_steps_ solver * (4 * n_dofs + 1) <? 0))
      with false by nia.
    cbn [bind ret]. reflexivity. }
  split; [exact Hresize|]. split.
  - rewrite Hresize.
    destruct (rollouts_loop_run
                (LinSpaced (n_time_steps_ solver) zero (integrate_time_ solver))
                Hfit (LinSpaced_size _ _ _ time_steps_nonneg)
                (Z.to_nat n_samples) 0 (replicate (Z.to_nat n_dofs) [])
                (mkMatrix (n_time_steps_ solver * (4 * n_dofs + 1))
                   (replicate (Z.to_nat n_samples)
                      (replicate
                         (Z.to_nat (n_time_steps_ solver * (4 * n_dofs + 1)))
                         unwritten)))
                dmp Hdim)
      as (cv' & dmp' & E & [S1 S2] & C').
    + rewrite length_replicate. lia.
    + unfold shaped, rows, vec_size. cbn [coeffs].
      rewrite length_replicate. split; [lia|].
      apply Forall_replicate. rewrite length_replicate. nia.
    + reflexivity.
    + lia.
    + lia.
    + exists cv', dmp'. auto.
  - intros tt k ys_ana yds_ana ydds_ana ts forcing_terms cost_vars Htt Hk Hy Hyd
      Hydd Hf Hts Hcv Hcols.
    destruct (time_steps_loop_run n_dofs (n_time_steps_ solver) n_samples
                (n_time_steps_ solver * (4 * n_dofs + 1)) ltac:(lia) eq_refl Hfit
                k ys_ana yds_ana ydds_ana ts forcing_terms dmp
                Hy Hyd Hydd Hf Hts Hk tt 0 cost_vars Hcv Hcols ltac:(lia)
                ltac:(lia)) as (cv' & E & [S1 S2] & C').
    exists cv'. split; [exact E|]. auto.
Qed.

End Solver.

End TaskSolverFacts.

(** * The concrete instance meets what the properties assume *)

Import Example.

Lemma shifted_samples_rows (d : DistributionGaussian Z) (n : Z) (g : Z) :
  0 <= n -> rows (generateSamples d n g).1 = n.
Proof. intros Hn. unfold rows. cbn. rewrite length_map, length_seq. lia. Qed.

Lemma constant_matrix_shaped (r c x : Z) :
  0 <= r -> 0 <= c -> shaped r c (constant_matrix r c x).
Proof.
  intros Hr Hc. unfold shaped, constant_matrix, rows, vec_size. cbn [coeffs].
  rewrite length_replicate. split; [lia|].
  apply Forall_replicate. rewrite length_replicate. lia.
Qed.

Lemma constant_trajectories (dmp : Dmp) (ts : VectorXd Z) :
  trajectories_shaped dmp ts.
Proof.
  unfold trajectories_shaped. cbn.
  assert (rows (constant_matrix (vec_size ts) 2 1) = vec_size ts) as ->.
  { unfold rows, constant_matrix, vec_size. cbn [coeffs].
    rewrite length_replicate. lia. }
  repeat split; apply constant_matrix_shaped; unfold vec_size; lia.
Qed.

Lemma counting_LinSpaced_size (n lo hi : Z) :
  0 <= n -> vec_size (LinSpaced n lo hi) = n.
Proof.
  intros Hn. unfold vec_size. cbn. rewrite length_map, length_seq. lia.
Qed.

(** * Further properties of the code *)

(** ** The events of a run of the optimisation loop *)

Section LoopEvents.

Context {double Rng : Type} {ext : Externals double Rng}.
Implicit Types (w : World double Rng) (st : LoopState double).

(** [DistributionGaussian::generateSamples] is not part of the sources at
    hand; it returns as many rows as it is asked for. *)
Hypothesis generateSamples_rows :
  forall d n g, 0 <= n -> rows (generateSamples d n g).1 = n.

(** One pass through the body of the loop, with the events it adds and what
    it leaves of the file system, when the directories of the checkpoints
    can be made. *)
Lemma update_step_events (cost_function : CostFunction double)
    (updater : Updater double) n_updates n_samples_per_update save_directory
    only_learning_curve i_update st w :
  0 <= n_samples_per_update ->
  well_sized n_updates n_samples_per_update st ->
  0 <= i_update < n_updates ->
  directories_can_be_made w save_directory only_learning_curve n_updates ->
  exists w' evs,
    update_step cost_function updater n_samples_per_update save_directory
      only_learning_curve i_update st w
    = Done (next_state cost_function updater n_samples_per_update
              save_directory i_update st w, w') /\
    trace w' = trace w ++ evs /\
    update_events cost_function updater n_samples_per_update save_directory
      only_learning_curve i_update (distribution st)
      (drawn_samples n_samples_per_update st w) evs /\
    denied w' = denied w /\
    (is_empty save_directory || only_learning_curve = true ->
     dirs w' = dirs w /\ files w' = files w).
Proof.
  intros Hn (Hcosts & Hrows & Hcols & Hwf) Hi Hdirs.
  pose proof (generateSamples_rows (distribution st) n_samples_per_update (rng w) Hn)
    as Hgen.
  unfold update_step, evaluate_cost, generate_samples, update_distribution.
  unfold bind at 1. unfold bind at 1. unfold emit at 1. cbn [ret].
  unfold bind at 1. cbn [fst snd rng dirs files denied trace].
  unfold bind at 1.
  change 0 with (Z.of_nat 0) at 1.
  rewrite evaluate_samples_run; cycle 1.
  { unfold rows, vec_size in *. cbn [fst]. lia. }
  { unfold rows, vec_size in *. cbn [fst]. lia. }
  rewrite take_0, drop_0. cbn [app].
  fold (drawn_samples n_samples_per_update st w).
  fold (sample_costs cost_function (drawn_samples n_samples_per_update st w)).
  unfold bind at 1. unfold bind at 1. unfold emit at 1. cbn [ret].
  set (S := drawn_samples n_samples_per_update st w) in *.
  set (C := sample_costs cost_function S).
  set (w4 := mkWorld _ _ _ _ _).
  assert (dirs w4 = dirs w /\ files w4 = files w /\ denied w4 = denied w)
    as (Hd4 & Hf4 & Hn4) by (repeat split).
  assert (trace w4 = trace w
            ++ Evaluate (mean (distribution st))
               :: GenerateSamples (distribution st) n_samples_per_update
               :: map Evaluate (coeffs S)
            ++ [UpdateDistribution (distribution st) S C]) as Ht4.
  { subst w4. cbn [trace add_trace]. rewrite <- !app_assoc. reflexivity. }
  clearbody w4.
  unfold next_state. fold S. fold C.
  unfold update_events, update_book. fold C.
  unfold directories_can_be_made in Hdirs.
  destruct (is_empty save_directory).
  - eexists _, _. split; [reflexivity|]. cbn [rng trace emit dirs files denied].
    split; [rewrite Ht4; right_assoc; reflexivity|].
    split; [|auto]. eexists. split; [exact Hgen|]. split; reflexivity.
  - unfold bind at 1.
    rewrite mat_set_row; [|lia|assumption|assumption].
    destruct only_learning_curve; cbn [negb orb].
    + exists w4. eexists. split; [reflexivity|].
      split; [rewrite Ht4; right_assoc; reflexivity|].
      split; [|auto]. exists []. split; [exact Hgen|]. split; reflexivity.
    + unfold saveToDirectory1. destruct (Hdirs eq_refl) as [Hd1 Hd2].
      destruct (saveToDirectory_run save_directory i_update
                  ([] ++ [distribution st])
                  (Some (evaluate cost_function (mean (distribution st)))) S C
                  (updateDistribution updater (distribution st) S C).1
                  ([] ++ [(updateDistribution updater (distribution st) S C).2])
                  default_overwrite w4 eq_refl
                  ltac:(rewrite Hn4; exact Hd1)
                  ltac:(rewrite Hn4; apply Hd2; exact Hi))
        as (r & w' & evs & E & R).
      exists w'. eexists. cbv zeta. unfold bind at 1. unfold bind at 1.
      rewrite E. cbn [ret]. split; [reflexivity|].
      pose proof R as (_ & Hn' & Ht & _).
      split; [rewrite Ht, Ht4; right_assoc; reflexivity|].
      split; [|split; [congruence|discriminate]].
      exists evs. split; [exact Hgen|]. split; [reflexivity|].
      exists r, w4, w'. exact R.
Qed.

(** One pass through the body of the loop in a run that writes no
    checkpoint. *)
Lemma update_step_quiet (cost_function : CostFunction double)
    (updater : Updater double) n_updates n_samples_per_update save_directory
    only_learning_curve i_update st w :
  0 <= n_samples_per_update ->
  well_sized n_updates n_samples_per_update st ->
  0 <= i_update < n_updates ->
  is_empty save_directory || only_learning_curve = true ->
  update_step cost_function updater n_samples_per_update save_directory
    only_learning_curve i_update st w
  = Done (next_state cost_function updater n_samples_per_update
            save_directory i_update st w,
          quiet_update_world cost_function n_samples_per_update
            save_directory i_update st w).
Proof.
  intros Hn (Hcosts & Hrows & Hcols & Hwf) Hi Hmode.
  pose proof (generateSamples_rows (distribution st) n_samples_per_update (rng w) Hn)
    as Hgen.
  unfold update_step, evaluate_cost, generate_samples, update_distribution.
  unfold bind at 1. unfold bind at 1. unfold emit at 1. cbn [ret].
  unfold bind at 1. cbn [fst snd rng dirs files denied trace].
  unfold bind at 1.
  change 0 with (Z.of_nat 0) at 1.
  rewrite evaluate_samples_run; cycle 1.
  { unfold rows, vec_size in *. cbn [fst]. lia. }
  { unfold rows, vec_size in *. cbn [fst]. lia. }
  rewrite take_0, drop_0. cbn [app].
  fold (drawn_samples n_samples_per_update st w).
  fold (sample_costs cost_function (drawn_samples n_samples_per_update st w)).
  unfold bind at 1. unfold bind at 1. unfold emit at 1. cbn [ret].
  unfold next_state, quiet_update_world. cbv zeta.
  destruct (is_empty save_directory).
  - cbn [bind emit ret add_trace rng dirs files denied trace].
    do 3 f_equal. right_assoc. reflexivity.
  - cbn [orb] in Hmode. subst only_learning_curve.
    unfold bind at 1.
    rewrite mat_set_row; [|lia|assumption|assumption].
    cbn [negb bind ret add_trace rng dirs files denied trace].
    do 3 f_equal. right_assoc. reflexivity.
Qed.

(** One pass through the body of the loop in a run that writes
    checkpoints, when the save directory is missing and cannot be made: the
    exception of [create_directories] ends the program. *)
Lemma update_step_throws (cost_function : CostFunction double)
    (updater : Updater double) n_updates n_samples_per_update save_directory
    i_update st w :
  0 <= n_samples_per_update ->
  well_sized n_updates n_samples_per_update st ->
  0 <= i_update < n_updates ->
  is_empty save_directory = false ->
  fs_exists save_directory w = Done (false, w) ->
  save_directory ∈ denied w ->
  update_step cost_function updater n_samples_per_update save_directory
    false i_update st w
  = Aborted "filesystem_error".
Proof.
  intros Hn (Hcosts & Hrows & Hcols & Hwf) Hi Hdir Hex Hden.
  pose proof (generateSamples_rows (distribution st) n_samples_per_update (rng w) Hn)
    as Hgen.
  unfold update_step, evaluate_cost, generate_samples, update_distribution.
  unfold bind at 1. unfold bind at 1. unfold emit at 1. cbn [ret].
  unfold bind at 1. cbn [fst snd rng dirs files denied trace].
  unfold bind at 1.
  change 0 with (Z.of_nat 0) at 1.
  rewrite evaluate_samples_run; cycle 1.
  { unfold rows, vec_size in *. cbn [fst]. lia. }
  { unfold rows, vec_size in *. cbn [fst]. lia. }
  rewrite take_0, drop_0. cbn [app].
  unfold bind at 1. unfold bind at 1. unfold emit at 1. cbn [ret].
  rewrite Hdir. unfold bind at 1.
  rewrite mat_set_row; [|lia|assumption|assumption].
  cbn [negb]. unfold saveToDirectory1, saveToDirectory.
  unfold bind at 1. unfold bind at 1. unfold unless_false at 1.
  unfold bind at 1. unfold make_directory_if_missing at 1.
  unfold bind at 1. unfold fs_exists in *.
  cbn [add_trace rng dirs files denied trace] in *.
  injection Hex as Hex. rewrite Hex.
  unfold bind at 1. unfold create_directories.
  cbn [rng dirs files denied trace].
  apply orb_false_iff in Hex as [Hex _]. rewrite Hex.
  rewrite bool_decide_eq_true_2 by exact Hden. reflexivity.
Qed.

(** The passes through the loop, each with its events. *)
Lemma optimization_loop_events (cost_function : CostFunction double)
    (updater : Updater double) n_updates n_samples_per_update save_directory
    only_learning_curve (k : nat) :
  0 <= n_samples_per_update ->
  forall i st w,
    well_sized n_updates n_samples_per_update st ->
    0 <= i -> i + Z.of_nat k <= n_updates ->
    directories_can_be_made w save_directory only_learning_curve n_updates ->
    exists st' w' steps,
      optimization_loop cost_function updater n_samples_per_update
        save_directory only_learning_curve k i st w = Done (st', w') /\
      well_sized n_updates n_samples_per_update st' /\
      trace w' = trace w ++ concat steps /\
      length steps = k /\
      (forall (j : nat) step, steps !! j = Some step ->
         exists d S,
           update_events cost_function updater n_samples_per_update
             save_directory only_learning_curve (i + Z.of_nat j) d S step) /\
      denied w' = denied w /\
      (is_empty save_directory || only_learning_curve = true ->
       dirs w' = dirs w /\ files w' = files w).
Proof.
  intros Hn. induction k as [|k IH]; intros i st w Hst Hi Hk Hdirs.
  - exists st, w, []. cbn. rewrite app_nil_r.
    split; [reflexivity|]. split; [exact Hst|]. split; [reflexivity|].
    split; [reflexivity|]. split; [intros j step Hj; inversion Hj|auto].
  - destruct (update_step_events cost_function updater n_updates
                n_samples_per_update save_directory only_learning_curve i st w
                Hn Hst ltac:(lia) Hdirs)
      as (w1 & evs1 & E1 & Ht1 & U1 & Hd1 & Hq1).
    pose proof (next_state_well_sized generateSamples_rows cost_function updater
                  n_updates n_samples_per_update save_directory i st w Hn Hst)
      as Hst1.
    destruct (IH (i + 1) _ w1 Hst1 ltac:(lia) ltac:(lia)
                (directories_can_be_made_kept _ _ _ _ _ Hd1 Hdirs))
      as (st' & w' & steps & E & Hst' & Ht & Hlen & Hsteps & Hd & Hq).
    exists st', w', (evs1 :: steps). split.
    { cbn [optimization_loop]. rewrite (bind_done _ _ _ _ _ E1). exact E. }
    split; [exact Hst'|]. split.
    { rewrite Ht, Ht1, <- app_assoc. reflexivity. }
    split; [cbn; congruence|]. split; [|split].
    + intros [|j] step Hj.
      * cbn in Hj. injection Hj as <-. rewrite Z.add_0_r. eauto.
      * cbn in Hj. destruct (Hsteps j step Hj) as (d & S & HU).
        exists d, S. replace (i + Z.of_nat (Datatypes.S j)) with (i + 1 + Z.of_nat j) by lia.
        exact HU.
    + congruence.
    + intros Hm. destruct (Hq Hm) as [-> ->]. auto.
Qed.

(** The whole run returns, when the directories of its checkpoints can be
    made, and its events are those of [run_events]. *)
Lemma runOptimization_events (cost_function : CostFunction double)
    (initial_distribution : DistributionGaussian double)
    (updater : Updater double) n_updates n_samples_per_update save_directory
    overwrite only_learning_curve w :
  0 <= n_updates -> 0 <= n_samples_per_update ->
  directories_can_be_made w save_directory only_learning_curve n_updates ->
  exists w' evs,
    runOptimization cost_function initial_distribution updater n_updates
      n_samples_per_update save_directory overwrite only_learning_curve w
    = Done (tt, w') /\
    trace w' = trace w ++ evs /\
    run_events cost_function initial_distribution updater n_updates
      n_samples_per_update save_directory overwrite only_learning_curve evs /\
    (is_empty save_directory = true ->
     dirs w' = dirs w /\ files w' = files w).
Proof.
  intros Hu Hn Hdirs. unfold run_events.
  set (st0 := mkLoopState uninitialized (mkMatrix 0 []) []
                (replicate (Z.to_nat n_samples_per_update) uninitialized)
                (mkMatrix 3 (replicate (Z.to_nat n_updates)
                               (replicate (Z.to_nat 3) uninitialized)))
                initial_distribution initial_distribution).
  assert (well_sized n_updates n_samples_per_update st0) as Hst.
  { unfold well_sized, vec_size, rows. cbn [st0 costs learning_curve cols coeffs].
    rewrite !length_replicate. repeat split; try lia.
    apply Forall_replicate. reflexivity. }
  assert (initialise initial_distribution n_updates n_samples_per_update
            save_directory w
          = Done (st0, if is_empty save_directory
                       then add_trace w [Cout (PrintInit initial_distribution)]
                       else w)) as E0.
  { unfold initialise, vector_alloc, matrix_alloc.
    destruct (n_samples_per_update <? 0) eqn:E1; [lia|].
    destruct (n_updates <? 0) eqn:E2; [lia|].
    destruct (is_empty save_directory); reflexivity. }
  destruct (optimization_loop_events cost_function updater n_updates
              n_samples_per_update save_directory only_learning_curve
              (Z.to_nat n_updates) Hn 0 st0
              (if is_empty save_directory
               then add_trace w [Cout (PrintInit initial_distribution)]
               else w)
              Hst ltac:(lia) ltac:(lia)
              ltac:(destruct (is_empty save_directory); exact Hdirs))
    as (st' & w' & steps & E & (_ & Hrows & Hcols & _) & Ht & Hlen & Hsteps
        & _ & Hq).
  assert (after_updates cost_function initial_distribution updater n_updates
            n_samples_per_update save_directory only_learning_curve
            (Z.to_nat n_updates) w = Done (st', w')) as En.
  { unfold after_updates. rewrite (bind_done _ _ _ _ _ E0). exact E. }
  unfold runOptimization. rewrite (bind_done _ _ _ _ _ En).
  destruct (is_empty save_directory) eqn:Hdir; cbn [negb orb] in *.
  - exists w'. eexists. split; [reflexivity|].
    split; [rewrite Ht; cbn [trace add_trace]; rewrite <- app_assoc; reflexivity|].
    split; [|intros _; apply (Hq eq_refl)].
    exists steps, []. rewrite app_nil_r. auto.
  - unfold bind, saveMatrix, ret.
    destruct (_ || _).
    + eexists _, _. split; [reflexivity|]. cbn [trace].
      split; [rewrite Ht, <- app_assoc; reflexivity|]. split; [|discriminate].
      exists steps. eexists. split; [reflexivity|]. split; [exact Hlen|].
      split; [exact Hsteps|].
      exists (learning_curve st'), false. auto.
    + eexists _, _. split; [reflexivity|]. cbn [trace].
      split; [rewrite Ht, <- app_assoc; reflexivity|]. split; [|discriminate].
      exists steps. eexists. split; [reflexivity|]. split; [exact Hlen|].
      split; [exact Hsteps|].
      exists (learning_curve st'), true. auto.
Qed.

End LoopEvents.

(** ** Reading the events *)

Section EventFacts.

Context {double Rng : Type} {ext : Externals double Rng}.

Lemma omap_concat {A B} (f : A -> option B) (l : list (list A)) :
  omap f (concat l) = concat (map (omap f) l).
Proof.
  induction l as [|x l IH]; [reflexivity|].
  cbn [concat map]. rewrite omap_app, IH. reflexivity.
Qed.

Lemma evaluations_in_app (a b : list (Event double)) :
  evaluations_in (a ++ b) = evaluations_in a ++ evaluations_in b.
Proof. apply omap_app. Qed.

Lemma evaluations_in_concat (l : list (list (Event double))) :
  evaluations_in (concat l) = concat (map evaluations_in l).
Proof. apply omap_concat. Qed.

Lemma file_system_events_app (a b : list (Event double)) :
  file_system_events (a ++ b) = file_system_events a ++ file_system_events b.
Proof. apply omap_app. Qed.

Lemma file_system_events_concat (l : list (list (Event double))) :
  file_system_events (concat l) = concat (map file_system_events l).
Proof. apply omap_concat. Qed.

Lemma printed_in_app (a b : list (Event double)) :
  printed_in (a ++ b) = printed_in a ++ printed_in b.
Proof. apply omap_app. Qed.

Lemma printed_in_concat (l : list (list (Event double))) :
  printed_in (concat l) = concat (map printed_in l).
Proof. apply omap_concat. Qed.

Lemma length_concat_const {A} (l : list (list A)) (c : nat) :
  (forall (j : nat) x, l !! j = Some x -> length x = c) ->
  length (concat l) = (length l * c)%nat.
Proof.
  induction l as [|x l IH]; intros H; [reflexivity|].
  cbn [concat length]. rewrite length_app, (H 0%nat x eq_refl), IH; [lia|].
  intros j y Hj. apply (H (S j) y Hj).
Qed.

Lemma concat_nil_all {A} (l : list (list A)) :
  (forall (j : nat) x, l !! j = Some x -> x = []) -> concat l = [].
Proof.
  induction l as [|x l IH]; intros H; [reflexivity|].
  cbn [concat]. rewrite (H 0%nat x eq_refl), IH; [reflexivity|].
  intros j y Hj. apply (H (S j) y Hj).
Qed.

Lemma step_events_omap {B} (f : Event double -> option B) (e1 e2 e3 : Event double)
    (l book : list (Event double)) :
  omap f (e1 :: e2 :: l ++ e3 :: book)
  = omap f [e1; e2] ++ omap f l ++ omap f [e3] ++ omap f book.
Proof. rewrite <- !omap_app. reflexivity. Qed.

Lemma evaluations_of_samples (l : list (list double)) :
  evaluations_in (map (Evaluate (double:=double)) l) = l
  /\ file_system_events (map (Evaluate (double:=double)) l) = []
  /\ printed_in (map (Evaluate (double:=double)) l) = [].
Proof.
  unfold evaluations_in, file_system_events, printed_in.
  induction l as [|x l (IH1 & IH2 & IH3)]; [auto|].
  change (map Evaluate (x :: l)) with ([Evaluate x] ++ map Evaluate l).
  rewrite !omap_app, IH1, IH2, IH3. auto.
Qed.

Lemma files_of_samples (l : list (list double)) :
  attempted (map (Evaluate (double:=double)) l) = []
  /\ written (map (Evaluate (double:=double)) l) = [].
Proof.
  unfold attempted, written.
  induction l as [|x l (IH1 & IH2)]; [auto|].
  change (map Evaluate (x :: l)) with ([Evaluate x] ++ map Evaluate l).
  rewrite !omap_app, IH1, IH2. auto.
Qed.

(** The files of an update are those of its bookkeeping. *)
Lemma files_of_update (x : list double) (d : DistributionGaussian double) n
    (S : MatrixXd double) (C : list double) (book : list (Event double)) :
  attempted (Evaluate x :: GenerateSamples d n
             :: map Evaluate (coeffs S) ++ UpdateDistribution d S C :: book)
  = attempted book /\
  written (Evaluate x :: GenerateSamples d n
           :: map Evaluate (coeffs S) ++ UpdateDistribution d S C :: book)
  = written book.
Proof.
  destruct (files_of_samples (coeffs S)) as [V1 V2].
  unfold attempted, written in *. rewrite !step_events_omap, V1, V2. auto.
Qed.

Lemma writer_events_silent dir ow (evs : list (Event double)) :
  Forall (writer_event dir ow) evs ->
  evaluations_in evs = [] /\ printed_in evs = [].
Proof.
  induction 1 as [|e evs He _ [IH1 IH2]]; [auto|].
  destruct e; try contradiction; auto.
Qed.

Lemma writer_events_no_updates dir ow (evs : list (Event double)) :
  Forall (writer_event dir ow) evs -> updates_in evs = [].
Proof.
  induction 1 as [|e evs He _ IH]; [auto|].
  destruct e; try contradiction; auto.
Qed.

Lemma updates_in_app (a b : list (Event double)) :
  updates_in (a ++ b) = updates_in a ++ updates_in b.
Proof. apply omap_app. Qed.

Lemma updates_in_concat (l : list (list (Event double))) :
  updates_in (concat l) = concat (map updates_in l).
Proof. apply omap_concat. Qed.

Lemma updates_of_samples (l : list (list double)) :
  updates_in (map (Evaluate (double:=double)) l) = [].
Proof.
  unfold updates_in. induction l as [|x l IH]; [reflexivity|].
  change (map Evaluate (x :: l)) with ([Evaluate x] ++ map Evaluate l).
  rewrite omap_app, IH. reflexivity.
Qed.

Lemma checkpoint_result_writer dir ow (plan : list (Entry double))
    (w w' : World double Rng) r evs :
  checkpoint_result dir ow plan w r w' evs -> Forall (writer_event dir ow) evs.
Proof.
  intros (_ & _ & _ & _ & made & done & tail & -> & _ & Hcase).
  apply Forall_app. split.
  { clear. induction made; constructor; cbn; auto. }
  apply Forall_app. split.
  { clear. induction done; constructor; cbn; auto. }
  destruct Hcase as [(_ & _ & ->)|(_ & f & c & rest & _ & ->)];
    repeat constructor.
Qed.

Lemma update_book_cases (cost_function : CostFunction double)
    (updater : Updater double) save_directory only_learning_curve i_update
    (d : DistributionGaussian double) (S : MatrixXd double)
    (book : list (Event double)) :
  update_book cost_function updater save_directory only_learning_curve
    i_update d S book ->
  (is_empty save_directory = true
   /\ book = [Cout (PrintUpdate (evaluate cost_function (mean d))
                      (Int.add i_update 1) d)])
  \/ (is_empty save_directory = false /\ only_learning_curve = true
      /\ book = [])
  \/ (is_empty save_directory = false /\ only_learning_curve = false
      /\ Forall (writer_event (update_directory save_directory i_update)
                   default_overwrite) book).
Proof.
  unfold update_book. destruct (is_empty save_directory); [auto|].
  destruct only_learning_curve; [auto|].
  intros (r & w0 & w1 & R). right. right.
  repeat split. exact (checkpoint_result_writer _ _ _ _ _ _ _ R).
Qed.

Section Update.

Variables (cost_function : CostFunction double) (updater : Updater double)
  (n_samples_per_update : Z) (save_directory : string)
  (only_learning_curve : bool) (i_update : Z)
  (d : DistributionGaussian double) (S : MatrixXd double)
  (step : list (Event double)).

Hypothesis events :
  update_events cost_function updater n_samples_per_update save_directory
    only_learning_curve i_update d S step.

Lemma update_events_evaluations :
  evaluations_in step = mean d :: coeffs S.
Proof.
  destruct events as (book & _ & -> & HB).
  destruct (evaluations_of_samples (coeffs S)) as (V & _ & _).
  assert (evaluations_in book = []) as VB.
  { destruct (update_book_cases _ _ _ _ _ _ _ book HB)
      as [(_ & ->)|[(_ & _ & ->)|(_ & _ & HW)]]; [reflexivity..|].
    exact (proj1 (writer_events_silent _ _ _ HW)). }
  unfold evaluations_in in *. rewrite step_events_omap, V, VB.
  cbn. rewrite app_nil_r. reflexivity.
Qed.

Lemma update_events_printed :
  printed_in step
  = if is_empty save_directory
    then [PrintUpdate (evaluate cost_function (mean d)) (Int.add i_update 1) d]
    else [].
Proof.
  destruct events as (book & _ & -> & HB).
  destruct (evaluations_of_samples (coeffs S)) as (_ & _ & V).
  assert (printed_in book
          = if is_empty save_directory
            then [PrintUpdate (evaluate cost_function (mean d))
                    (Int.add i_update 1) d]
            else []) as VB.
  { destruct (update_book_cases _ _ _ _ _ _ _ book HB)
      as [(-> & ->)|[(-> & _ & ->)|(-> & _ & HW)]]; [reflexivity..|].
    exact (proj2 (writer_events_silent _ _ _ HW)). }
  unfold printed_in in *. rewrite step_events_omap, V, VB. reflexivity.
Qed.

Lemma update_events_no_files :
  is_empty save_directory || only_learning_curve = true ->
  file_system_events step = [].
Proof.
  intros Hmode. destruct events as (book & _ & -> & HB).
  destruct (evaluations_of_samples (coeffs S)) as (_ & V & _).
  assert (file_system_events book = []) as VB.
  { destruct (update_book_cases _ _ _ _ _ _ _ book HB)
      as [(_ & ->)|[(_ & _ & ->)|(E1 & E2 & _)]]; [reflexivity..|].
    rewrite E1, E2 in Hmode. discriminate. }
  unfold file_system_events in *. rewrite step_events_omap, V, VB. reflexivity.
Qed.

Lemma update_events_updates :
  updates_in step = [(d, S, sample_costs cost_function S)].
Proof.
  destruct events as (book & _ & -> & HB).
  pose proof (updates_of_samples (coeffs S)) as V.
  assert (updates_in book = []) as VB.
  { destruct (update_book_cases _ _ _ _ _ _ _ book HB)
      as [(_ & ->)|[(_ & _ & ->)|(_ & _ & HW)]]; [reflexivity..|].
    exact (writer_events_no_updates _ _ _ HW). }
  unfold updates_in in *. rewrite step_events_omap, V, VB. reflexivity.
Qed.

(** The files of the checkpoint of the update, when it writes one. *)
Lemma update_events_checkpoint :
  is_empty save_directory = false -> only_learning_curve = false ->
  let layout :=
    checkpoint_layout [d] (Some (evaluate cost_function (mean d))) S
      (sample_costs cost_function S)
      (updateDistribution updater d S (sample_costs cost_function S)).1
      [(updateDistribution updater d S (sample_costs cost_function S)).2] in
  attempted step
  `prefix_of` map (pair (update_directory save_directory i_update)) layout /\
  (Forall (fun e => ~ failed e) step ->
   written step = map (pair (update_directory save_directory i_update)) layout).
Proof.
  intros Hdir Holc layout. destruct events as (book & _ & -> & HB).
  unfold update_book in HB. rewrite Hdir, Holc in HB.
  destruct HB as (r & w0 & w1 & R).
  destruct (files_of_update (mean d) d n_samples_per_update S
              (sample_costs cost_function S) book) as [-> ->].
  destruct (checkpoint_result_files _ _ _ _ _ _ _ R) as [Hpre Hall].
  split; [exact Hpre|].
  intros Hok. apply Hall.
  apply (checkpoint_result_no_failure _ _ _ _ _ _ _ R).
  do 2 apply Forall_cons in Hok as [_ Hok].
  apply Forall_app in Hok as [_ Hok]. apply Forall_cons in Hok as [_ Hok].
  exact Hok.
Qed.

Lemma update_events_saves dir f c ow ok :
  SaveMatrix dir f c ow ok ∈ step ->
  is_empty save_directory = false /\ only_learning_curve = false
  /\ dir = update_directory save_directory i_update
  /\ ow = default_overwrite.
Proof.
  destruct events as (book & _ & -> & HB). intros Hin.
  apply elem_of_cons in Hin as [Hin|Hin]; [discriminate|].
  apply elem_of_cons in Hin as [Hin|Hin]; [discriminate|].
  apply elem_of_app in Hin as [Hin|Hin].
  { apply list_elem_of_fmap in Hin as (x & Hx & _). discriminate. }
  apply elem_of_cons in Hin as [Hin|Hin]; [discriminate|].
  destruct (update_book_cases _ _ _ _ _ _ _ book HB)
    as [(_ & ->)|[(_ & _ & ->)|(E1 & E2 & HW)]].
  - apply list_elem_of_singleton in Hin. discriminate.
  - inversion Hin.
  - rewrite Forall_forall in HW. destruct (HW _ Hin) as [-> ->]. auto.
Qed.

End Update.

End EventFacts.

(** ** Strings *)

Lemma string_length_app (a b : string) :
  String.length (a +:+ b) = (String.length a + String.length b)%nat.
Proof.
  induction a as [|c a IH]; [reflexivity|].
  change (String c a +:+ b) with (String c (a +:+ b)).
  cbn [String.length]. rewrite IH. reflexivity.
Qed.

Lemma setw_fill_length (w : nat) (c : Ascii.ascii) (s : string) :
  (String.length s <= String.length (setw_fill w c s))%nat.
Proof. unfold setw_fill. rewrite string_length_app. lia. Qed.

(** An update directory is never the save directory itself. *)
Lemma update_directory_below (directory : string) (i_update : Z) :
  update_directory directory i_update <> directory.
Proof.
  intros H. apply (f_equal String.length) in H. unfold update_directory in H.
  rewrite !string_length_app in H. cbn in H. lia.
Qed.

(** ** What a run of [runOptimization] does to the world *)

Section RunEvents.

Context {double Rng : Type} {ext : Externals double Rng}.

Hypothesis generateSamples_rows :
  forall d n g, 0 <= n -> rows (generateSamples d n g).1 = n.

Variables (cost_function : CostFunction double)
  (initial_distribution : DistributionGaussian double)
  (updater : Updater double) (n_updates n_samples_per_update : Z)
  (save_directory : string) (overwrite only_learning_curve : bool).

Hypothesis n_updates_nonneg : 0 <= n_updates.
Hypothesis n_samples_nonneg : 0 <= n_samples_per_update.

Local Abbreviation run :=
  (runOptimization cost_function initial_distribution updater n_updates
     n_samples_per_update save_directory overwrite only_learning_curve).
Local Abbreviation after k :=
  (after_updates cost_function initial_distribution updater n_updates
     n_samples_per_update save_directory only_learning_curve k).
Local Abbreviation ready w :=
  (directories_can_be_made w save_directory only_learning_curve n_updates).

(** A run that writes no checkpoint needs no directory. *)
Lemma quiet_ready (w : World double Rng) :
  is_empty save_directory || only_learning_curve = true -> ready w.
Proof.
  unfold directories_can_be_made. intros H1 H2.
  destruct (is_empty save_directory), only_learning_curve; discriminate.
Qed.

Lemma elem_of_concat {A} (x : A) (l : list (list A)) :
  x ∈ concat l -> exists (j : nat) s, l !! j = Some s /\ x ∈ s.
Proof.
  induction l as [|s l IH]; cbn [concat]; intros H; [inversion H|].
  apply elem_of_app in H as [H|H].
  - exists 0%nat, s. auto.
  - destruct (IH H) as (j & s' & Hj & Hs). exists (S j), s'. auto.
Qed.

Lemma concat_singletons {A} (P : nat -> A -> Prop) (l : list (list A)) :
  (forall (j : nat) s, l !! j = Some s -> exists y, s = [y] /\ P j y) ->
  length (concat l) = length l /\
  forall (j : nat) y, concat l !! j = Some y -> P j y.
Proof.
  revert P. induction l as [|s l IH]; intros P H.
  - split; [reflexivity|]. intros j y Hj. inversion Hj.
  - destruct (H 0%nat s eq_refl) as (y0 & -> & Hy0).
    destruct (IH (fun j => P (S j)) (fun j s Hj => H (S j) s Hj)) as [IH1 IH2].
    cbn [concat app length]. split; [congruence|].
    intros [|j] y Hj.
    + cbn in Hj. injection Hj as <-. exact Hy0.
    + apply (IH2 j y Hj).
Qed.

(** The batches of the updates: for each update the distribution it
    started with and the samples it drew. *)
Lemma steps_batches (steps : list (list (Event double))) :
  forall off : nat,
    (forall (j : nat) step, steps !! j = Some step ->
       exists d S,
         update_events cost_function updater n_samples_per_update
           save_directory only_learning_curve (Z.of_nat (off + j)) d S step) ->
    exists batches : list (DistributionGaussian double * MatrixXd double),
      length batches = length steps /\
      Forall (fun b => rows b.2 = n_samples_per_update) batches /\
      updates_in (concat steps)
      = map (fun b => (b.1, b.2, sample_costs cost_function b.2)) batches /\
      evaluations_in (concat steps)
      = concat (map (fun b => mean b.1 :: coeffs b.2) batches).
Proof.
  induction steps as [|step steps IH]; intros off H.
  - exists []. repeat split. constructor.
  - destruct (H 0%nat step eq_refl) as (d & S & HU).
    destruct (IH (Datatypes.S off)) as (batches & Hlen & Hrows & Hu & He).
    { intros j step' Hj. destruct (H (Datatypes.S j) step' Hj) as (d' & S' & HU').
      exists d', S'. replace (Datatypes.S off + j)%nat
        with (off + Datatypes.S j)%nat by lia. exact HU'. }
    exists ((d, S) :: batches). cbn [concat map length fst snd].
    rewrite updates_in_app, evaluations_in_app, Hu, He.
    rewrite (update_events_updates _ _ _ _ _ _ _ _ _ HU).
    rewrite (update_events_evaluations _ _ _ _ _ _ _ _ _ HU).
    split; [congruence|]. split; [|split; reflexivity].
    constructor; [|exact Hrows]. destruct HU as (_ & HS & _). exact HS.
Qed.

(** X1.  Where the cost function is evaluated in a run of
    [runOptimization] that returns, the directories of its checkpoints
    being such as can be made: in each update once at the mean of the
    distribution the update starts with and then once for each of the
    samples it draws, in their order, and nowhere else; the updater is
    called on that distribution and those samples.  That makes
    [n_updates * (n_samples_per_update + 1)] evaluations. *)
Theorem runOptimization_evaluation_count w :
  ready w ->
  exists w' evs (batches : list (DistributionGaussian double * MatrixXd double)),
    run w = Done (tt, w') /\
    trace w' = trace w ++ evs /\
    length batches = Z.to_nat n_updates /\
    Forall (fun b => rows b.2 = n_samples_per_update) batches /\
    updates_in evs
    = map (fun b => (b.1, b.2, sample_costs cost_function b.2)) batches /\
    evaluations_in evs
    = concat (map (fun b => mean b.1 :: coeffs b.2) batches) /\
    length (evaluations_in evs)
    = (Z.to_nat n_updates * S (Z.to_nat n_samples_per_update))%nat.
Proof.
  intros Hready.
  destruct (runOptimization_events generateSamples_rows cost_function
              initial_distribution updater n_updates n_samples_per_update
              save_directory overwrite only_learning_curve w
              n_updates_nonneg n_samples_nonneg
              Hready)
    as (w' & evs & E & Ht & (steps & closing & -> & Hlen & Hsteps & Hclose) & _).
  destruct (steps_batches steps 0 Hsteps)
    as (batches & Hb & Hrows & Hu & He).
  exists w'. eexists. exists batches.
  split; [exact E|]. split; [exact Ht|]. split; [congruence|].
  split; [exact Hrows|].
  assert (updates_in (if is_empty save_directory
                      then [Cout (PrintInit initial_distribution)] else [])
          = [] /\
          evaluations_in (if is_empty save_directory
                          then [Cout (PrintInit initial_distribution)] else [])
          = []) as [I1 I2] by (destruct (is_empty save_directory); auto).
  assert (updates_in closing = [] /\ evaluations_in closing = []) as [C1 C2].
  { destruct (is_empty save_directory); [subst closing; auto|].
    destruct Hclose as (lc & ok & _ & _ & ->). destruct ok; auto. }
  rewrite !updates_in_app, !evaluations_in_app, I1, I2, C1, C2, Hu, He.
  cbn [app]. rewrite !app_nil_r. split; [reflexivity|]. split; [reflexivity|].
  rewrite <- Hlen, <- Hb. clear - Hrows.
  induction Hrows as [|b batches Hr _ IH]; [reflexivity|].
  cbn [map concat length]. rewrite length_app, IH. cbn [length].
  unfold rows in Hr. lia.
Qed.

(** X2.  A run of [runOptimization] without a save directory leaves the
    file system alone: it makes no directory and writes no file, and the
    directories and files are at the end what they were.  It prints the
    initial distribution and then one line for each update, which numbers
    the updates from 1. *)
Theorem runOptimization_console_run w :
  is_empty save_directory = true ->
  exists w' evs lines,
    run w = Done (tt, w') /\
    trace w' = trace w ++ evs /\
    file_system_events evs = [] /\
    dirs w' = dirs w /\ files w' = files w /\
    printed_in evs = PrintInit initial_distribution :: lines /\
    length lines = Z.to_nat n_updates /\
    forall (j : nat) line, lines !! j = Some line ->
      exists cost_eval d,
        line = PrintUpdate cost_eval (Int.add (Z.of_nat j) 1) d.
Proof.
  intros Hdir.
  destruct (runOptimization_events generateSamples_rows cost_function
              initial_distribution updater n_updates n_samples_per_update
              save_directory overwrite only_learning_curve w
              n_updates_nonneg n_samples_nonneg
              (quiet_ready w ltac:(rewrite Hdir; reflexivity)))
    as (w' & evs & E & Ht & (steps & closing & -> & Hlen & Hsteps & Hclose)
        & Hfs).
  destruct (Hfs Hdir) as [Hd Hf]. rewrite Hdir in *. subst closing.
  exists w'. eexists. exists (concat (map printed_in steps)).
  split; [exact E|]. split; [exact Ht|]. split; [|split; [exact Hd|]].
  { rewrite !file_system_events_app, file_system_events_concat, app_nil_r.
    change (file_system_events [Cout (PrintInit initial_distribution)])
      with (@nil (Event double)).
    cbn [app]. apply concat_nil_all. intros j x Hj.
    apply list_lookup_fmap_Some in Hj as (step & -> & Hj).
    destruct (Hsteps j step Hj) as (d & S & HU).
    apply (update_events_no_files _ _ _ _ _ _ _ _ _ HU). rewrite Hdir.
    reflexivity. }
  split; [exact Hf|]. split.
  { rewrite !printed_in_app, printed_in_concat, app_nil_r. reflexivity. }
  destruct (concat_singletons
              (fun (j : nat) line =>
                 exists cost_eval d,
                   line = PrintUpdate cost_eval (Int.add (Z.of_nat j) 1) d)
              (map printed_in steps)) as [H1 H2].
  { intros j x Hj. apply list_lookup_fmap_Some in Hj as (step & -> & Hj).
    destruct (Hsteps j step Hj) as (d & S & HU).
    rewrite (update_events_printed _ _ _ _ _ _ _ _ _ HU), Hdir. eauto. }
  split; [|exact H2]. rewrite H1, length_map. exact Hlen.
Qed.

(** X3.  A run of [runOptimization] with a save directory prints nothing
    on [cout].  The run returns: the directories of its checkpoints can be
    made. *)
Theorem runOptimization_saving_run_is_silent w :
  is_empty save_directory = false -> ready w ->
  exists w' evs,
    run w = Done (tt, w') /\
    trace w' = trace w ++ evs /\
    printed_in evs = [].
Proof.
  intros Hdir Hready.
  destruct (runOptimization_events generateSamples_rows cost_function
              initial_distribution updater n_updates n_samples_per_update
              save_directory overwrite only_learning_curve w
              n_updates_nonneg n_samples_nonneg
              Hready)
    as (w' & evs & E & Ht & (steps & closing & -> & Hlen & Hsteps & Hclose) & _).
  rewrite Hdir in *. destruct Hclose as (lc & ok & _ & _ & ->).
  exists w'. eexists. split; [exact E|]. split; [exact Ht|].
  rewrite !printed_in_app, printed_in_concat.
  assert (concat (map printed_in steps) = []) as Hc.
  { apply concat_nil_all. intros j x Hj.
    apply list_lookup_fmap_Some in Hj as (step & -> & Hj).
    destruct (Hsteps j step Hj) as (d & S & HU).
    rewrite (update_events_printed _ _ _ _ _ _ _ _ _ HU), Hdir. reflexivity. }
  rewrite Hc. destruct ok; reflexivity.
Qed.

(** X4.  With a save directory and [only_learning_curve] set, the one
    thing a run of [runOptimization] asks of the file system is the
    writing of [learning_curve.txt] in the save directory, with the flag
    [overwrite] it was given, when the loop has ended: no directory is
    made and no checkpoint is written.  The matrix has a row for each
    update and three columns. *)
Theorem runOptimization_only_learning_curve w :
  is_empty save_directory = false -> only_learning_curve = true ->
  exists w' evs lc ok,
    run w = Done (tt, w') /\
    trace w' = trace w ++ evs /\
    file_system_events evs
    = [SaveMatrix save_directory "learning_curve.txt" (RealMatrix lc)
         overwrite ok] /\
    rows lc = n_updates /\ cols lc = 3.
Proof.
  intros Hdir Holc.
  destruct (runOptimization_events generateSamples_rows cost_function
              initial_distribution updater n_updates n_samples_per_update
              save_directory overwrite only_learning_curve w
              n_updates_nonneg n_samples_nonneg
              (quiet_ready w ltac:(rewrite Holc; apply orb_true_r)))
    as (w' & evs & E & Ht & (steps & closing & -> & Hlen & Hsteps & Hclose) & _).
  rewrite Hdir in *. destruct Hclose as (lc & ok & Hrows & Hcols & ->).
  exists w'. eexists. exists lc, ok. split; [exact E|]. split; [exact Ht|].
  split; [|auto].
  rewrite !file_system_events_app, file_system_events_concat.
  assert (concat (map file_system_events steps) = []) as Hc.
  { apply concat_nil_all. intros j x Hj.
    apply list_lookup_fmap_Some in Hj as (step & -> & Hj).
    destruct (Hsteps j step Hj) as (d & S & HU).
    apply (update_events_no_files _ _ _ _ _ _ _ _ _ HU).
    rewrite Holc. apply orb_true_r. }
  rewrite Hc. destruct ok; reflexivity.
Qed.

(** X5.  The argument [overwrite] of [runOptimization] reaches the writing
    of [learning_curve.txt] and nothing else: every other file that a run
    tries to write is a file of the checkpoint of some update [j] below
    [n_updates], goes to the update directory of [j], and is written with
    the default of [saveToDirectory], whatever [overwrite] is.  The run
    returns: the directories of its checkpoints can be made. *)
Theorem runOptimization_overwrite_flag w :
  ready w ->
  exists w' evs,
    run w = Done (tt, w') /\
    trace w' = trace w ++ evs /\
    forall dir f c ow ok,
      SaveMatrix dir f c ow ok ∈ evs ->
      (dir = save_directory /\ f = "learning_curve.txt" /\ ow = overwrite)
      \/ (only_learning_curve = false /\
          exists j : nat,
            Z.of_nat j < n_updates /\
            dir = update_directory save_directory (Z.of_nat j) /\
            ow = default_overwrite).
Proof.
  intros Hready.
  destruct (runOptimization_events generateSamples_rows cost_function
              initial_distribution updater n_updates n_samples_per_update
              save_directory overwrite only_learning_curve w
              n_updates_nonneg n_samples_nonneg
              Hready)
    as (w' & evs & E & Ht & (steps & closing & -> & Hlen & Hsteps & Hclose) & _).
  exists w'. eexists. split; [exact E|]. split; [exact Ht|].
  intros dir f c ow ok Hin.
  apply elem_of_app in Hin as [Hin|Hin].
  { destruct (is_empty save_directory); [|inversion Hin].
    apply list_elem_of_singleton in Hin. discriminate. }
  apply elem_of_app in Hin as [Hin|Hin].
  - right. apply elem_of_concat in Hin as (j & step & Hj & Hin).
    destruct (Hsteps j step Hj) as (d & S & HU).
    destruct (update_events_saves _ _ _ _ _ _ _ _ _ HU _ _ _ _ _ Hin)
      as (_ & Holc & -> & ->).
    split; [exact Holc|]. exists j. split; [|auto].
    apply lookup_lt_Some in Hj. lia.
  - left. destruct (is_empty save_directory); [subst closing; inversion Hin|].
    destruct Hclose as (lc & b & _ & _ & ->).
    apply elem_of_cons in Hin as [Hin|Hin].
    + injection Hin as -> -> _ -> _. auto.
    + destruct b; [inversion Hin|].
      apply list_elem_of_singleton in Hin. discriminate.
Qed.

(** X6.  The checkpoint of update [i], in a run with a save directory
    that keeps more than the learning curve: the files that the update
    tries to write are the first files of the layout of one distribution,
    in the update directory of [i], holding the distribution that was
    current when the update began, and the probe cost, the samples, their
    costs, the weights and the new distribution that the update ends with.
    When no step of the writer failed, all of them were written.  The
    update returns: the directories of the checkpoints can be made. *)
Theorem checkpoint_of_update (i : nat) w :
  Z.of_nat i < n_updates ->
  is_empty save_directory = false -> only_learning_curve = false ->
  ready w ->
  exists st w_i st' w' evs,
    after i w = Done (st, w_i) /\
    after (S i) w = Done (st', w') /\
    trace w' = trace w_i ++ evs /\
    attempted evs
    `prefix_of` map (pair (update_directory save_directory (Z.of_nat i)))
                  (checkpoint_layout [distribution st] (Some (cost_eval st'))
                     (samples st') (costs st') (weights st')
                     [distribution st']) /\
    (Forall (fun e => ~ failed e) evs ->
     written evs
     = map (pair (update_directory save_directory (Z.of_nat i)))
         (checkpoint_layout [distribution st] (Some (cost_eval st'))
            (samples st') (costs st') (weights st') [distribution st'])).
Proof.
  intros Hi Hdir Holc Hready.
  destruct (after_updates_run generateSamples_rows cost_function
              initial_distribution updater n_updates n_samples_per_update
              save_directory only_learning_curve n_updates_nonneg
              n_samples_nonneg i w ltac:(lia) Hready)
    as (st & w_i & evs0 & E & Hst & _ & _ & _ & _ & Hd).
  destruct (update_step_events generateSamples_rows cost_function updater
              n_updates n_samples_per_update save_directory
              only_learning_curve (Z.of_nat i) st w_i n_samples_nonneg Hst
              ltac:(lia) (directories_can_be_made_kept _ _ _ _ _ Hd Hready))
    as (w' & evs & E' & Ht & HU & _).
  eexists st, w_i, _, w', _. split; [exact E|]. split.
  { rewrite after_updates_S, (bind_done _ _ _ _ _ E). exact E'. }
  split; [exact Ht|].
  exact (update_events_checkpoint _ _ _ _ _ _ _ _ _ HU Hdir Holc).
Qed.

(** X7.  In a run of [runOptimization] with a save directory that returns,
    the directories of its checkpoints being such as can be made, the
    learning curve is written once, into the save directory itself, as the
    last thing the run asks of the file system; every file tried before it
    is in the update directory of an update below [n_updates], which is
    never the save directory.  The matrix has a row for each update and
    three columns. *)
Theorem learning_curve_written_last w :
  is_empty save_directory = false -> ready w ->
  exists w' evs body lc ok,
    run w = Done (tt, w') /\
    trace w' = trace w ++ evs /\
    file_system_events evs
    = file_system_events body
      ++ [SaveMatrix save_directory "learning_curve.txt" (RealMatrix lc)
            overwrite ok] /\
    rows lc = n_updates /\ cols lc = 3 /\
    forall dir f c ow b,
      SaveMatrix dir f c ow b ∈ body ->
      dir <> save_directory /\
      exists j : nat,
        Z.of_nat j < n_updates /\
        dir = update_directory save_directory (Z.of_nat j).
Proof.
  intros Hdir Hready.
  destruct (runOptimization_events generateSamples_rows cost_function
              initial_distribution updater n_updates n_samples_per_update
              save_directory overwrite only_learning_curve w
              n_updates_nonneg n_samples_nonneg
              Hready)
    as (w' & evs & E & Ht & (steps & closing & -> & Hlen & Hsteps & Hclose) & _).
  rewrite Hdir in *. destruct Hclose as (lc & ok & Hrows & Hcols & ->).
  exists w'. eexists. exists (concat steps), lc, ok.
  split; [exact E|]. split; [exact Ht|]. split.
  { rewrite !file_system_events_app. destruct ok; reflexivity. }
  split; [exact Hrows|]. split; [exact Hcols|].
  intros dir f c ow b Hin.
  apply elem_of_concat in Hin as (j & step & Hj & Hin).
  destruct (Hsteps j step Hj) as (d & S & HU).
  destruct (update_events_saves _ _ _ _ _ _ _ _ _ HU _ _ _ _ _ Hin)
    as (_ & _ & -> & _).
  split; [apply update_directory_below|]. exists j. split; [|reflexivity].
  apply lookup_lt_Some in Hj. lia.
Qed.

(** C5, as the code has it.  [runOptimization] returns nothing.  The
    distribution obtained after the last update, which is the one that the
    updater returned in that update, is held by a local of the function
    when the loop ends.  In a run without a save directory, and in one that
    keeps only the learning curve, nothing that the run leaves depends on
    it: a run with another updater that starts its last update as this one
    does ends in the same world.  In a run that writes checkpoints it is
    written to the checkpoint of the last update: when no step of that
    checkpoint failed, its mean and its covariance are the files
    [distribution_new_mean.txt] and [distribution_new_covar.txt] of the
    last update directory.  The run is one that returns, on a file system
    on which the directories of its checkpoints can be made. *)
Theorem final_distribution_only_in_checkpoint w :
  0 < n_updates -> ready w ->
  exists st_p w_p st w_n w' evs,
    after (Z.to_nat n_updates - 1) w = Done (st_p, w_p) /\
    after (Z.to_nat n_updates) w = Done (st, w_n) /\
    run w = Done (tt, w') /\
    distribution st
    = (updateDistribution updater (distribution st_p)
         (drawn_samples n_samples_per_update st_p w_p)
         (sample_costs cost_function
            (drawn_samples n_samples_per_update st_p w_p))).2 /\
    trace w_n = trace w_p ++ evs /\
    (is_empty save_directory || only_learning_curve = true ->
     forall updater' : Updater double,
       after_updates cost_function initial_distribution updater' n_updates
         n_samples_per_update save_directory only_learning_curve
         (Z.to_nat n_updates - 1) w = Done (st_p, w_p) ->
       runOptimization cost_function initial_distribution updater' n_updates
         n_samples_per_update save_directory overwrite only_learning_curve w
       = Done (tt, w')) /\
    (is_empty save_directory = false -> only_learning_curve = false ->
     Forall (fun e => ~ failed e) evs ->
     (update_directory save_directory (n_updates - 1),
      ("distribution_new_mean.txt", RealVector (mean (distribution st))))
     ∈ written evs /\
     (update_directory save_directory (n_updates - 1),
      ("distribution_new_covar.txt", RealMatrix (covar (distribution st))))
     ∈ written evs).
Proof.
  intros Hpos Hready.
  destruct (after_updates_run generateSamples_rows cost_function
              initial_distribution updater n_updates n_samples_per_update
              save_directory only_learning_curve n_updates_nonneg
              n_samples_nonneg (Z.to_nat n_updates - 1) w ltac:(lia) Hready)
    as (st_p & w_p & evs0 & Ep & Hst & _ & _ & _ & _ & Hd).
  destruct (update_step_events generateSamples_rows cost_function updater
              n_updates n_samples_per_update save_directory
              only_learning_curve (Z.of_nat (Z.to_nat n_updates - 1)) st_p w_p
              n_samples_nonneg Hst ltac:(lia)
              (directories_can_be_made_kept _ _ _ _ _ Hd Hready))
    as (w_n & evs & E' & Ht & HU & _).
  assert (S (Z.to_nat n_updates - 1) = Z.to_nat n_updates) as HS by lia.
  assert (after (Z.to_nat n_updates) w
          = Done (next_state cost_function updater n_samples_per_update
                    save_directory (Z.of_nat (Z.to_nat n_updates - 1)) st_p w_p,
                  w_n)) as En.
  { rewrite <- HS at 1. rewrite after_updates_S, (bind_done _ _ _ _ _ Ep).
    exact E'. }
  destruct (runOptimization_events generateSamples_rows cost_function
              initial_distribution updater n_updates n_samples_per_update
              save_directory overwrite only_learning_curve w
              n_updates_nonneg n_samples_nonneg Hready)
    as (w' & evs_all & E & _).
  eexists st_p, w_p, _, w_n, w', evs. split; [exact Ep|]. split; [exact En|].
  split; [exact E|]. split; [reflexivity|]. split; [exact Ht|]. split.
  - intros Hmode updater' Ep'.
    pose proof (update_step_quiet generateSamples_rows cost_function updater
                  n_updates n_samples_per_update save_directory
                  only_learning_curve (Z.of_nat (Z.to_nat n_updates - 1))
                  st_p w_p n_samples_nonneg Hst ltac:(lia) Hmode) as Q.
    pose proof (update_step_quiet generateSamples_rows cost_function updater'
                  n_updates n_samples_per_update save_directory
                  only_learning_curve (Z.of_nat (Z.to_nat n_updates - 1))
                  st_p w_p n_samples_nonneg Hst ltac:(lia) Hmode) as Q'.
    rewrite Q in E'. injection E' as <-.
    assert (after_updates cost_function initial_distribution updater'
              n_updates n_samples_per_update save_directory
              only_learning_curve (Z.to_nat n_updates) w
            = Done (next_state cost_function updater' n_samples_per_update
                      save_directory (Z.of_nat (Z.to_nat n_updates - 1))
                      st_p w_p,
                    quiet_update_world cost_function n_samples_per_update
                      save_directory (Z.of_nat (Z.to_nat n_updates - 1))
                      st_p w_p)) as En'.
    { rewrite <- HS at 1.
      rewrite after_updates_S, (bind_done _ _ _ _ _ Ep'). exact Q'. }
    unfold runOptimization in *.
    rewrite (bind_done _ _ _ _ _ En) in E.
    rewrite (bind_done _ _ _ _ _ En'). exact E.
  - intros Hdir Holc Hok.
    destruct (update_events_checkpoint _ _ _ _ _ _ _ _ _ HU Hdir Holc)
      as [_ Hall].
    rewrite (Hall Hok).
    replace (Z.of_nat (Z.to_nat n_updates - 1)) with (n_updates - 1) by lia.
    unfold next_state. cbn [distribution].
    unfold checkpoint_layout. cbn [new_layout].
    split; apply list_elem_of_fmap; eexists; (split; [reflexivity|]);
      rewrite !elem_of_app; right; right.
    + apply elem_of_cons. left. reflexivity.
    + apply elem_of_cons. right. apply elem_of_cons. left. reflexivity.
Qed.


End RunEvents.

(** ** What [saveToDirectory] does to the directories *)

Section WriterDirectories.

Context {double Rng : Type}.
Implicit Types (w : World double Rng) (plan : list (Entry double)).
Implicit Types (ds : list (DistributionGaussian double)).

(** The directories above a path have shorter names than the path. *)
Lemma parent_paths_from_shorter (s pre p : string) :
  p ∈ parent_paths_from pre s ->
  (String.length p < String.length pre + String.length s)%nat.
Proof.
  revert pre. induction s as [|c s IH]; intros pre Hin; cbn in Hin.
  - apply elem_of_nil in Hin. contradiction.
  - apply elem_of_app in Hin as [Hin|Hin].
    + destruct (Ascii.eqb c "/"); [|apply elem_of_nil in Hin; contradiction].
      destruct pre; [apply elem_of_nil in Hin; contradiction|].
      apply list_elem_of_singleton in Hin as ->. cbn [String.length]. lia.
    + apply IH in Hin. rewrite string_length_app in Hin.
      cbn [String.length] in *. lia.
Qed.

(** Making the save directory and those above it does not make the
    directory of an update. *)
Lemma update_directory_not_made (directory : string) (i_update : Z)
    (present : gset string) :
  update_directory directory i_update ∉ present ->
  update_directory directory i_update
  ∉ ({[directory]} ∪ list_to_set (parent_paths directory) ∪ present : gset string).
Proof.
  intros Hp Hin.
  apply elem_of_union in Hin as [Hin|Hin]; [|contradiction].
  apply elem_of_union in Hin as [Hin|Hin].
  - apply elem_of_singleton in Hin. exact (update_directory_below _ _ Hin).
  - apply elem_of_list_to_set in Hin. apply parent_paths_from_shorter in Hin.
    unfold update_directory in Hin. rewrite !string_length_app in Hin.
    cbn [String.length] in Hin. lia.
Qed.

(** The three ways through the guard at the head of [saveToDirectory]: the
    path is there; it is missing and cannot be made, and the exception of
    [create_directories] ends the program; it is missing and is made. *)
Lemma make_directory_if_missing_cases path w :
  (fs_exists path w = Done (true, w)
   /\ make_directory_if_missing path w = Done (true, w))
  \/ (fs_exists path w = Done (false, w) /\ path ∈ denied w
      /\ make_directory_if_missing path w = Aborted "filesystem_error")
  \/ (fs_exists path w = Done (false, w) /\ (path ∉ denied w)
      /\ make_directory_if_missing path w
         = Done (true,
                 mkWorld (rng w)
                   ({[path]} ∪ list_to_set (parent_paths path) ∪ dirs w)
                   (files w) (denied w)
                   (trace w ++ [CreateDirectories path true]))).
Proof.
  unfold make_directory_if_missing, fs_exists, create_directories, emit, bind,
    ret, add_trace.
  destruct (bool_decide (path ∈ dirs w) || bool_decide (is_Some (files w !! path)))
    eqn:E.
  - left. destruct w. auto.
  - right. apply orb_false_iff in E as [E _]. rewrite E.
    destruct (decide (path ∈ denied w)) as [Hd|Hd].
    + left. rewrite bool_decide_eq_true_2 by exact Hd. auto.
    + right. rewrite bool_decide_eq_false_2 by exact Hd. auto.
Qed.

(** Past the two guards and the [assert], the call is the writing of the
    layout. *)
Lemma saveToDirectory_after_directories directory i_update ds cost_eval samples
    costs weights ds_new ow w w1 w2 :
  make_directory_if_missing directory w = Done (true, w1) ->
  make_directory_if_missing (update_directory directory i_update) w1
  = Done (true, w2) ->
  saveToDirectory directory i_update ds cost_eval samples costs weights ds_new
    ow w
  = if (length ds =? length ds_new)%nat
    then write_all (update_directory directory i_update) ow
           (checkpoint_layout ds cost_eval samples costs weights ds_new) w2
    else Aborted "assertion failed".
Proof.
  intros E1 E2. unfold saveToDirectory.
  rewrite (unless_false_true _ _ _ _ E1), (unless_false_true _ _ _ _ E2).
  cbv zeta. destruct (length ds =? length ds_new)%nat eqn:Hlen.
  - apply Nat.eqb_eq in Hlen. cbn [assert].
    change (bind (ret tt) ?k w2) with (k tt w2). cbv beta.
    apply checkpoint_body_layout. exact Hlen.
  - reflexivity.
Qed.

(** A guard that throws ends the call. *)
Lemma unless_false_aborted {S} (c k : M S bool) (s : S) why :
  c s = Aborted why -> unless_false c k s = Aborted why.
Proof. unfold unless_false, bind. intros ->. reflexivity. Qed.

(** The writing of a layout makes no directory. *)
Lemma write_all_no_directories dir ow plan w :
  exists r w' evs,
    write_all dir ow plan w = Done (r, w') /\
    trace w' = trace w ++ evs /\
    dirs w' = dirs w /\
    forall p ok, CreateDirectories p ok ∉ evs.
Proof.
  destruct (write_all_run dir ow plan w)
    as (r & w' & E & _ & Hdirs & _ & done & _ & _ & Hcase).
  assert (forall (l : list (Entry double)) p ok,
            CreateDirectories p ok ∉ map (saved_event dir ow) l) as Hsaved.
  { intros l p ok Hin. apply list_elem_of_fmap in Hin as (e & He & _).
    discriminate. }
  exists r, w'.
  destruct Hcase as [(_ & _ & Ht)|(_ & f & c & rest & _ & Ht)].
  - eexists. split; [exact E|]. split; [exact Ht|]. split; [exact Hdirs|].
    apply Hsaved.
  - eexists. split; [exact E|]. split; [exact Ht|]. split; [exact Hdirs|].
    intros p ok Hin. apply elem_of_app in Hin as [Hin|Hin].
    + exact (Hsaved _ _ _ Hin).
    + apply elem_of_cons in Hin as [Hin|Hin]; [discriminate|].
      apply list_elem_of_singleton in Hin. discriminate.
Qed.

(** C9, as the code has it.  A file of the checkpoint that cannot be
    written ends the call of [saveToDirectory] with false at once: the
    steps before it succeeded, and no later file is tried; a file that is
    already there when [overwrite] is false is such a file, and keeps its
    contents.  A directory that cannot be made does not end the call with
    false: the two guards at the head of the function are written for a
    [create_directories] that returns false, and the one that the code
    calls throws, so that the call does not return, and the program ends
    with it. *)
Theorem saveToDirectory_at_first_failure directory i_update ds cost_eval
    samples costs weights ds_new ow w :
  length ds = length ds_new ->
  (directory ∉ denied w ->
   update_directory directory i_update ∉ denied w ->
   exists r w' evs,
     saveToDirectory directory i_update ds cost_eval samples costs weights
       ds_new ow w = Done (r, w') /\
     trace w' = trace w ++ evs /\
     (exists good tail,
        evs = good ++ tail /\ Forall succeeded good /\
        ((r = true /\ tail = [])
         \/ (r = false /\
             exists f c,
               (f, c) ∈ checkpoint_layout ds cost_eval samples costs weights
                          ds_new /\
               tail = [SaveMatrix (update_directory directory i_update) f c
                         ow false;
                       Cerr (file_path (update_directory directory i_update)
                               f)]))) /\
     (ow = false ->
      forall f c old,
        (f, c) ∈ checkpoint_layout ds cost_eval samples costs weights ds_new ->
        files w !! file_path (update_directory directory i_update) f = Some old ->
        r = false /\
        files w' !! file_path (update_directory directory i_update) f
        = Some old)) /\
  (fs_exists directory w = Done (false, w) -> directory ∈ denied w ->
   saveToDirectory directory i_update ds cost_eval samples costs weights
     ds_new ow w = Aborted "filesystem_error") /\
  (directory ∉ denied w ->
   fs_exists (update_directory directory i_update) w = Done (false, w) ->
   update_directory directory i_update ∈ denied w ->
   saveToDirectory directory i_update ds cost_eval samples costs weights
     ds_new ow w = Aborted "filesystem_error").
Proof.
  intros Hlen. split; [|split].
  - intros Hd1 Hd2.
    destruct (saveToDirectory_run directory i_update ds cost_eval samples costs
                weights ds_new ow w Hlen Hd1 Hd2) as (r & w' & evs & E & R).
    exists r, w', evs. split; [exact E|].
    destruct R as (_ & _ & Ht & Hold & made & done & tail & -> & Hnew & Hcase).
    split; [exact Ht|]. split.
    + exists (map (fun p => CreateDirectories p true) made
              ++ map (saved_event (update_directory directory i_update) ow) done),
             tail.
      split; [rewrite <- app_assoc; reflexivity|]. split.
      * apply Forall_app. split; apply Forall_forall; intros e He;
          apply list_elem_of_fmap in He as (x & -> & _); reflexivity.
      * destruct Hcase as [(-> & _ & ->)|(-> & f & c & rest & Hp & ->)].
        -- left. auto.
        -- right. split; [reflexivity|]. exists f, c. split; [|reflexivity].
           rewrite Hp. apply elem_of_app. right. apply elem_of_cons. left.
           reflexivity.
    + intros How f c old Hin Hold'. split; [|exact (Hold How _ _ Hold')].
      destruct Hcase as [(-> & -> & _)|(-> & _)]; [|reflexivity].
      specialize (Hnew How (f, c) Hin). cbn in Hnew. congruence.
  - intros X1 D1. unfold saveToDirectory. apply unless_false_aborted.
    destruct (make_directory_if_missing_cases directory w)
      as [(F & _)|[(_ & _ & E1)|(_ & F & _)]];
      [congruence|exact E1|contradiction].
  - intros D1 X2 D2. unfold saveToDirectory.
    destruct (make_directory_if_missing_cases directory w)
      as [(_ & E1)|[(_ & F & _)|(_ & _ & E1)]]; [|contradiction|].
    + rewrite (unless_false_true _ _ _ _ E1). apply unless_false_aborted.
      destruct (make_directory_if_missing_cases
                  (update_directory directory i_update) w)
        as [(F & _)|[(_ & _ & E2)|(_ & F & _)]];
        [congruence|exact E2|contradiction].
    + rewrite (unless_false_true _ _ _ _ E1). apply unless_false_aborted.
      set (w1 := mkWorld _ _ _ _ _).
      destruct (make_directory_if_missing_cases
                  (update_directory directory i_update) w1)
        as [(F & _)|[(_ & _ & E2)|(_ & F & _)]];
        [|exact E2|contradiction].
      exfalso. unfold fs_exists in X2, F. injection X2 as X2. injection F as F.
      apply orb_false_iff in X2 as [X2 X3]. apply bool_decide_eq_false in X2.
      cbn [w1 dirs files] in F. rewrite X3, orb_false_r in F.
      apply bool_decide_eq_true in F.
      exact (update_directory_not_made _ _ _ X2 F).
Qed.



(** X10.  When the save directory and the update directory are there,
    [saveToDirectory] does not call [create_directories]: it goes straight
    to the files of the layout, and leaves the directories as they are.
    The call returns; the files it tries are the first files of the layout;
    when no step of it failed it returns true, having written the whole
    layout. *)
Theorem saveToDirectory_existing_directories directory i_update ds cost_eval
    samples costs weights ds_new ow w :
  fs_exists directory w = Done (true, w) ->
  fs_exists (update_directory directory i_update) w = Done (true, w) ->
  length ds = length ds_new ->
  exists r w' evs,
    saveToDirectory directory i_update ds cost_eval samples costs weights
      ds_new ow w = Done (r, w') /\
    trace w' = trace w ++ evs /\
    dirs w' = dirs w /\
    (forall p ok, CreateDirectories p ok ∉ evs) /\
    attempted evs
    `prefix_of` map (pair (update_directory directory i_update))
                  (checkpoint_layout ds cost_eval samples costs weights ds_new) /\
    (Forall (fun e => ~ failed e) evs ->
     r = true /\
     written evs
     = map (pair (update_directory directory i_update))
         (checkpoint_layout ds cost_eval samples costs weights ds_new)).
Proof.
  intros X1 X2 Hlen.
  destruct (make_directory_if_missing_cases directory w)
    as [(_ & E1)|[(F & _)|(F & _)]]; [|congruence..].
  destruct (make_directory_if_missing_cases
              (update_directory directory i_update) w)
    as [(_ & E2)|[(F & _)|(F & _)]]; [|congruence..].
  rewrite (saveToDirectory_after_directories _ _ _ _ _ _ _ _ _ _ _ _ E1 E2).
  apply Nat.eqb_eq in Hlen. rewrite Hlen.
  destruct (write_all_run (update_directory directory i_update) ow
              (checkpoint_layout ds cost_eval samples costs weights ds_new) w)
    as (r & w' & E & Hg & Hdirs & Hn & done & Hnew & Hold & Hcase).
  assert (exists evs, checkpoint_result (update_directory directory i_update) ow
            (checkpoint_layout ds cost_eval samples costs weights ds_new)
            w r w' evs /\ forall p ok, CreateDirectories p ok ∉ evs)
    as (evs & R & Hno).
  { assert (forall (l : list (Entry double)) p ok,
              CreateDirectories p ok
              ∉ map (saved_event (update_directory directory i_update) ow) l)
      as Hsaved.
    { intros l p ok Hin. apply list_elem_of_fmap in Hin as (e & He & _).
      discriminate. }
    destruct Hcase as [(-> & -> & Ht)|(-> & f & c & rest & Hp & Ht)].
    - eexists. split.
      + refine (conj Hg (conj Hn (conj _ (conj Hold _)))).
        * exact Ht.
        * exists [], (checkpoint_layout ds cost_eval samples costs weights ds_new),
            []. split; [cbn; rewrite app_nil_r; reflexivity|].
          split; [exact Hnew|]. left. auto.
      + apply Hsaved.
    - eexists. split.
      + refine (conj Hg (conj Hn (conj _ (conj Hold _)))).
        * exact Ht.
        * exists [], done, [SaveMatrix (update_directory directory i_update) f c
                              ow false;
                            Cerr (file_path (update_directory directory i_update)
                                    f)].
          split; [reflexivity|]. split; [exact Hnew|]. right.
          split; [reflexivity|]. exists f, c, rest. auto.
      + intros p ok Hin. apply elem_of_app in Hin as [Hin|Hin].
        * exact (Hsaved _ _ _ Hin).
        * apply elem_of_cons in Hin as [Hin|Hin]; [discriminate|].
          apply list_elem_of_singleton in Hin. discriminate. }
  exists r, w', evs. split; [exact E|]. split; [apply R|].
  split; [exact Hdirs|]. split; [exact Hno|].
  split; [exact (proj1 (checkpoint_result_files _ _ _ _ _ _ _ R))|].
  intros Hall.
  pose proof (checkpoint_result_no_failure _ _ _ _ _ _ _ R Hall) as Hr.
  split; [exact Hr|].
  exact (proj2 (checkpoint_result_files _ _ _ _ _ _ _ R) Hr).
Qed.


End WriterDirectories.

(** ** The names of the update directories *)

Lemma decimal_value_app (a b : string) (acc : Z) :
  decimal_value (a +:+ b) acc = decimal_value b (decimal_value a acc).
Proof.
  revert acc. induction a as [|c a IH]; intros acc; [reflexivity|].
  change (String c a +:+ b) with (String c (a +:+ b)).
  cbn [decimal_value]. apply IH.
Qed.

Lemma decimal_value_digit (d acc : Z) :
  0 <= d < 10 ->
  decimal_value (String (digit_char d) EmptyString) acc = 10 * acc + d.
Proof.
  intros Hd. cbn [decimal_value]. unfold digit_char.
  rewrite Ascii.nat_ascii_embedding by lia. lia.
Qed.

(** Reading the digits that [zero_padded] writes gives the number back, as
    far as the width goes. *)
Lemma decimal_value_zero_padded (width : nat) :
  forall n, 0 <= n ->
    decimal_value (zero_padded width n) 0 = n mod 10 ^ Z.of_nat width.
Proof.
  induction width as [|width IH]; intros n Hn.
  - cbn [zero_padded decimal_value]. rewrite Z.mod_1_r. reflexivity.
  - cbn [zero_padded]. rewrite decimal_value_app.
    rewrite IH by (apply Z.div_pos; lia).
    rewrite decimal_value_digit by (apply Z.mod_pos_bound; lia).
    rewrite Nat2Z.inj_succ, Z.pow_succ_r by lia.
    rewrite Z.rem_mul_r by lia. lia.
Qed.

Lemma num_digits_bound n :
  0 <= n <= Int.max_int -> n < 10 ^ Z.of_nat (num_digits 10 n).
Proof.
  unfold Int.max_int. intros Hn. cbn [num_digits].
  repeat match goal with
  | |- context [?q / 10 =? 0] =>
      let E := fresh "E" in
      destruct (Z.eqb_spec (q / 10) 0) as [E|E];
      [rewrite ?Z.div_div in E by lia; apply Z.div_small_iff in E; [|lia];
       match goal with
       | |- _ < ?p => let v := eval vm_compute in p in change p with v
       end; lia
      |clear E]
  end.
  match goal with
  | |- _ < ?p => let v := eval vm_compute in p in change p with v
  end; lia.
Qed.

(** The text that the stream puts after [/update] is read back as the
    index of the update. *)
Lemma decimal_value_index n :
  0 <= n <= Int.max_int ->
  decimal_value (setw_fill 5 "0" (show_int n)) 0 = n.
Proof.
  intros Hn. rewrite setw_fill_index_5 by exact Hn. unfold zero_padded_index.
  rewrite decimal_value_zero_padded by lia. apply Z.mod_small.
  pose proof (num_digits_bound n Hn) as Hb. split; [lia|].
  eapply Z.lt_le_trans; [exact Hb|].
  apply Z.pow_le_mono_r; lia.
Qed.

(** X12.  Different updates are written to different update directories:
    the name of the update directory determines the index of the update,
    also where the index has more than the five digits it is padded to. *)
Theorem update_directory_injective (directory : string) (i j : Z) :
  0 <= i <= Int.max_int -> 0 <= j <= Int.max_int ->
  update_directory directory i = update_directory directory j -> i = j.
Proof.
  intros Hi Hj H. unfold update_directory in H.
  apply String.app_inj in H.
  apply (String.app_inj "/update") in H.
  rewrite <- (decimal_value_index i Hi), <- (decimal_value_index j Hj), H.
  reflexivity.
Qed.

(** ** What [performRollouts] leaves in [cost_vars] *)

Section RolloutContents.

Context {double : Type} {dmp_ext : DmpExternals double}.

Lemma row_lookup {S} (m : MatrixXd double) r c i (s : S) :
  shaped r c m -> 0 <= i < r ->
  exists x, coeffs m !! Z.to_nat i = Some x /\ row m i s = Done (x, s)
            /\ vec_size x = c.
Proof.
  intros [Hr Hc] Hi. unfold row, rows in *.
  destruct (0 <=? i) eqn:E; [|lia].
  destruct (coeffs m !! Z.to_nat i) as [x|] eqn:Hl;
    [|apply lookup_ge_None in Hl; lia].
  exists x. split; [reflexivity|]. split; [reflexivity|].
  rewrite Forall_forall in Hc. apply Hc. eapply list_elem_of_lookup_2, Hl.
Qed.

Lemma vec_row_lookup {S} (v : VectorXd double) i (s : S) :
  0 <= i < vec_size v ->
  exists x, v !! Z.to_nat i = Some x /\ vec_row v i s = Done ([x], s).
Proof.
  intros Hi. unfold vec_row, vec_size in *.
  destruct (0 <=? i) eqn:E; [|lia].
  destruct (v !! Z.to_nat i) as [x|] eqn:Hl;
    [|apply lookup_ge_None in Hl; lia].
  exists x. auto.
Qed.

(** A block written over the part [a .. b) of a row. *)
Lemma block_take {A} (cur r : list A) (a b : nat) :
  (a <= b)%nat -> (b <= length cur)%nat -> length r = (b - a)%nat ->
  length (take a cur ++ r ++ drop b cur) = length cur /\
  take b (take a cur ++ r ++ drop b cur) = take a cur ++ r.
Proof.
  intros Hab Hb Hr. split.
  - rewrite !length_app, length_take, length_drop. lia.
  - rewrite app_assoc. apply take_app_length'.
    rewrite length_app, length_take. lia.
Qed.

(** A block written into row [i], the row being known. *)
Lemma block_assign_row {S} (L : list (VectorXd double)) (cur : VectorXd double)
    C i j w (r : VectorXd double) (s : S) :
  0 <= i < Z.of_nat (length L) -> vec_size cur = C ->
  0 <= j -> 0 <= w -> j + w <= C -> vec_size r = w ->
  block_assign (mkMatrix C (<[Z.to_nat i := cur]> L)) i j w r s
  = Done (mkMatrix C (<[Z.to_nat i := take (Z.to_nat j) cur ++ r
                                      ++ drop (Z.to_nat (j + w)) cur]> L), s).
Proof.
  intros Hi Hcur Hj Hw Hjw Hr. unfold block_assign, rows. cbn [cols coeffs].
  rewrite length_insert.
  replace ((0 <=? i) && (i <? Z.of_nat (length L)) && (0 <=? j) && (0 <=? w)
           && (j + w <=? C) && (vec_size r =? w)) with true by lia.
  rewrite list_lookup_insert_eq by lia.
  rewrite list_insert_insert_eq. reflexivity.
Qed.

Section Rows.

Variables (n_dofs T C : Z).
Hypothesis n_dofs_nonneg : 0 <= n_dofs.
Hypothesis columns : C = T * (4 * n_dofs + 1).
Hypothesis columns_fit : C <= Int.max_int.

Variables (ys_ana yds_ana ydds_ana : MatrixXd double) (ts : VectorXd double)
  (forcing_terms : MatrixXd double).
Hypothesis ys_shaped : shaped T n_dofs ys_ana.
Hypothesis yds_shaped : shaped T n_dofs yds_ana.
Hypothesis ydds_shaped : shaped T n_dofs ydds_ana.
Hypothesis forcing_shaped : shaped T n_dofs forcing_terms.
Hypothesis ts_size : vec_size ts = T.

Variables (L : list (VectorXd double)) (k : Z).
Hypothesis k_in_range : 0 <= k < Z.of_nat (length L).

(** One time step, on a row that is known: it puts its record after what
    the row holds up to the offset. *)
Lemma write_time_step_row tt (cur : VectorXd double) (dmp : Dmp) :
  vec_size cur = C -> 0 <= tt < T ->
  exists new,
    write_time_step n_dofs k tt ys_ana yds_ana ydds_ana ts forcing_terms
      (tt * (4 * n_dofs + 1)) (mkMatrix C (<[Z.to_nat k := cur]> L)) dmp
    = Done (((tt + 1) * (4 * n_dofs + 1),
             mkMatrix C (<[Z.to_nat k := new]> L)), dmp) /\
    vec_size new = C /\
    take (Z.to_nat ((tt + 1) * (4 * n_dofs + 1))) new
    = take (Z.to_nat (tt * (4 * n_dofs + 1))) cur
      ++ time_step_record ys_ana yds_ana ydds_ana ts forcing_terms
           (Z.to_nat tt).
Proof.
  intros Hcur Htt.
  assert ((tt + 1) * (4 * n_dofs + 1) <= C) as Hend by nia.
  assert (0 <= tt * (4 * n_dofs + 1)) as Hstart by nia.
  set (o := tt * (4 * n_dofs + 1)) in *.
  replace ((tt + 1) * (4 * n_dofs + 1)) with (o + (4 * n_dofs + 1))
    in * by (subst o; lia).
  assert (forall d, 0 <= d <= 4 * n_dofs + 1 -> Int.wrap (o + d) = o + d) as Hw.
  { intros d Hd. apply Int_wrap_in_range.
    unfold Int.in_range, Int.min_int, Int.max_int in *. lia. }
  destruct (row_lookup ys_ana T n_dofs tt dmp ys_shaped Htt)
    as (r1 & L1 & E1 & H1).
  destruct (row_lookup yds_ana T n_dofs tt dmp yds_shaped Htt)
    as (r2 & L2 & E2 & H2).
  destruct (row_lookup ydds_ana T n_dofs tt dmp ydds_shaped Htt)
    as (r3 & L3 & E3 & H3).
  destruct (vec_row_lookup ts tt dmp ltac:(lia)) as (x & L4 & E4).
  destruct (row_lookup forcing_terms T n_dofs tt dmp forcing_shaped Htt)
    as (r5 & L5 & E5 & H5).
  unfold time_step_record. rewrite L1, L2, L3, L4, L5.
  cbn [default option_list].
  unfold vec_size in *.
  (* the five blocks, one after the other *)
  set (c1 := take (Z.to_nat o) cur ++ r1 ++ drop (Z.to_nat (o + n_dofs)) cur).
  destruct (block_take cur r1 (Z.to_nat o) (Z.to_nat (o + n_dofs))
              ltac:(lia) ltac:(lia) ltac:(lia)) as [N1 T1]. fold c1 in N1, T1.
  set (c2 := take (Z.to_nat (o + n_dofs)) c1 ++ r2
             ++ drop (Z.to_nat (o + n_dofs + n_dofs)) c1).
  destruct (block_take c1 r2 (Z.to_nat (o + n_dofs))
              (Z.to_nat (o + n_dofs + n_dofs))
              ltac:(lia) ltac:(lia) ltac:(lia)) as [N2 T2]. fold c2 in N2, T2.
  set (c3 := take (Z.to_nat (o + 2 * n_dofs)) c2 ++ r3
             ++ drop (Z.to_nat (o + 2 * n_dofs + n_dofs)) c2).
  destruct (block_take c2 r3 (Z.to_nat (o + 2 * n_dofs))
              (Z.to_nat (o + 2 * n_dofs + n_dofs))
              ltac:(lia) ltac:(lia) ltac:(lia)) as [N3 T3]. fold c3 in N3, T3.
  set (c4 := take (Z.to_nat (o + 3 * n_dofs)) c3 ++ [x]
             ++ drop (Z.to_nat (o + 3 * n_dofs + 1)) c3).
  destruct (block_take c3 [x] (Z.to_nat (o + 3 * n_dofs))
              (Z.to_nat (o + 3 * n_dofs + 1))
              ltac:(lia) ltac:(lia) ltac:(cbn; lia)) as [N4 T4].
  fold c4 in N4, T4.
  set (c5 := take (Z.to_nat (o + (3 * n_dofs + 1))) c4 ++ r5
             ++ drop (Z.to_nat (o + (3 * n_dofs + 1) + n_dofs)) c4).
  destruct (block_take c4 r5 (Z.to_nat (o + (3 * n_dofs + 1)))
              (Z.to_nat (o + (3 * n_dofs + 1) + n_dofs))
              ltac:(lia) ltac:(lia) ltac:(lia)) as [N5 T5]. fold c5 in N5, T5.
  exists c5. split; [|split].
  - unfold write_time_step.
    rewrite (bind_done _ _ _ _ _ E1).
    rewrite (bind_done _ _ _ _ _
               (block_assign_row L cur C k o n_dofs r1 dmp k_in_range
                  ltac:(unfold vec_size; lia) ltac:(lia) ltac:(lia) ltac:(lia)
                  ltac:(unfold vec_size; lia))).
    fold c1. cbv zeta. unfold Int.add. rewrite (Hw n_dofs) by lia.
    rewrite (bind_done _ _ _ _ _ E2).
    rewrite (bind_done _ _ _ _ _
               (block_assign_row L c1 C k (o + n_dofs) n_dofs r2 dmp k_in_range
                  ltac:(unfold vec_size; lia) ltac:(lia) ltac:(lia) ltac:(lia)
                  ltac:(unfold vec_size; lia))).
    fold c2.
    replace (o + n_dofs + n_dofs) with (o + 2 * n_dofs) by lia.
    rewrite (Hw (2 * n_dofs)) by lia.
    rewrite (bind_done _ _ _ _ _ E3).
    rewrite (bind_done _ _ _ _ _
               (block_assign_row L c2 C k (o + 2 * n_dofs) n_dofs r3 dmp
                  k_in_range
                  ltac:(unfold vec_size; lia) ltac:(lia) ltac:(lia) ltac:(lia)
                  ltac:(unfold vec_size; lia))).
    fold c3.
    replace (o + 2 * n_dofs + n_dofs) with (o + 3 * n_dofs) by lia.
    rewrite (Hw (3 * n_dofs)) by lia.
    rewrite (bind_done _ _ _ _ _ E4).
    rewrite (bind_done _ _ _ _ _
               (block_assign_row L c3 C k (o + 3 * n_dofs) 1 [x] dmp k_in_range
                  ltac:(unfold vec_size; lia) ltac:(lia) ltac:(lia) ltac:(lia)
                  eq_refl)).
    fold c4.
    replace (o + 3 * n_dofs + 1) with (o + (3 * n_dofs + 1)) by lia.
    rewrite (Hw (3 * n_dofs + 1)) by lia.
    rewrite (bind_done _ _ _ _ _ E5).
    rewrite (bind_done _ _ _ _ _
               (block_assign_row L c4 C k (o + (3 * n_dofs + 1)) n_dofs r5 dmp
                  k_in_range
                  ltac:(unfold vec_size; lia) ltac:(lia) ltac:(lia) ltac:(lia)
                  ltac:(unfold vec_size; lia))).
    fold c5.
    replace (o + (3 * n_dofs + 1) + n_dofs) with (o + (4 * n_dofs + 1)) by lia.
    rewrite (Hw (4 * n_dofs + 1)) by lia. reflexivity.
  - lia.
  - replace (o + (4 * n_dofs + 1)) with (o + (3 * n_dofs + 1) + n_dofs) by lia.
    rewrite T5.
    replace (o + (3 * n_dofs + 1)) with (o + 3 * n_dofs + 1) by lia.
    rewrite T4.
    replace (o + 3 * n_dofs) with (o + 2 * n_dofs + n_dofs) by lia.
    rewrite T3.
    replace (o + 2 * n_dofs) with (o + n_dofs + n_dofs) by lia.
    rewrite T2, T1. rewrite <- !app_assoc. reflexivity.
Qed.

(** The loop over the time steps, from any of its steps on. *)
Lemma time_steps_loop_row (dmp : Dmp) :
  forall (m : nat) tt (cur : VectorXd double),
    vec_size cur = C -> 0 <= tt -> tt + Z.of_nat m <= T ->
    exists new,
      time_steps_loop n_dofs k ys_ana yds_ana ydds_ana ts forcing_terms m tt
        (tt * (4 * n_dofs + 1)) (mkMatrix C (<[Z.to_nat k := cur]> L)) dmp
      = Done (((tt + Z.of_nat m) * (4 * n_dofs + 1),
               mkMatrix C (<[Z.to_nat k := new]> L)), dmp) /\
      vec_size new = C /\
      take (Z.to_nat ((tt + Z.of_nat m) * (4 * n_dofs + 1))) new
      = take (Z.to_nat (tt * (4 * n_dofs + 1))) cur
        ++ concat (map (time_step_record ys_ana yds_ana ydds_ana ts
                          forcing_terms)
                     (seq (Z.to_nat tt) m)).
Proof.
  induction m as [|m IH]; intros tt cur Hcur Htt Hm.
  - exists cur. cbn. rewrite Z.add_0_r, app_nil_r. auto.
  - destruct (write_time_step_row tt cur dmp Hcur ltac:(lia))
      as (c1 & E1 & N1 & T1).
    destruct (IH (tt + 1) c1 N1 ltac:(lia) ltac:(lia)) as (new & E & N & Tk).
    exists new. cbn [time_steps_loop]. rewrite (bind_done _ _ _ _ _ E1).
    cbn [fst snd]. rewrite E.
    replace (tt + 1 + Z.of_nat m) with (tt + Z.of_nat (S m)) in * by lia.
    split; [reflexivity|]. split; [exact N|].
    rewrite Tk, T1, <- app_assoc.
    replace (Z.to_nat (tt + 1)) with (S (Z.to_nat tt)) by lia. reflexivity.
Qed.

End Rows.

(** The loop over the degrees of freedom collects the parameters of sample
    [k]. *)
Lemma model_parameters_result (samples : list (MatrixXd double)) n_samples k
    (dmp : Dmp) :
  Forall (fun s => rows s = n_samples) samples -> 0 <= k < n_samples ->
  forall (m dd : nat) (v : list (VectorXd double)),
    (dd + m = length samples)%nat -> length v = length samples ->
    take dd v = take dd (sample_parameters samples (Z.to_nat k)) ->
    model_parameters samples k m dd v dmp
    = Done (sample_parameters samples (Z.to_nat k), dmp).
Proof.
  intros Hs Hk. induction m as [|m IH]; intros dd v Hdd Hv Hpre.
  - cbn [model_parameters]. unfold ret. do 2 f_equal.
    rewrite <- (take_ge v dd) by lia. rewrite Hpre. apply take_ge.
    unfold sample_parameters. rewrite length_map. lia.
  - cbn [model_parameters]. unfold at_index.
    destruct (samples !! dd) as [s|] eqn:Hl; [|apply lookup_ge_None in Hl; lia].
    cbn [bind ret].
    assert (rows s = n_samples) as Hrows.
    { rewrite Forall_forall in Hs. apply Hs. eapply list_elem_of_lookup_2, Hl. }
    unfold row, rows in *.
    destruct (0 <=? k) eqn:E; [|lia].
    destruct (coeffs s !! Z.to_nat k) as [r|] eqn:Hr;
      [|apply lookup_ge_None in Hr; lia].
    cbn [bind ret]. rewrite bool_decide_eq_true_2 by lia.
    apply IH; [lia|rewrite length_insert; exact Hv|].
    rewrite (take_S_r (<[dd:=r]> v) dd r)
      by (apply list_lookup_insert_eq; lia).
    rewrite take_insert_ge by lia. rewrite Hpre.
    symmetry. apply take_S_r. unfold sample_parameters.
    rewrite list_lookup_fmap, Hl. cbn. rewrite Hr. reflexivity.
Qed.

Section Result.

Variables (solver : TaskSolverDmp double) (samples : list (MatrixXd double)).
Variables (n_dofs n_samples : Z).

(** The contract of the [Dmp]: its trajectories have the shape that
    [performRollouts] takes them to have, and setting the parameters of the
    model leaves the number of its degrees of freedom. *)
Hypothesis dmp_trajectories : forall dmp ts, trajectories_shaped dmp ts.
Hypothesis dmp_dim_orig :
  forall v b dmp, dim_orig (setModelParametersVectors v b dmp) = dim_orig dmp.
Hypothesis LinSpaced_size :
  forall n lo hi, 0 <= n -> vec_size (LinSpaced n lo hi) = n.

Hypothesis samples_size : Z.of_nat (length samples) = n_dofs.
Hypothesis samples_rows : Forall (fun s => rows s = n_samples) samples.
Hypothesis time_steps_nonneg : 0 <= n_time_steps_ solver.

Local Abbreviation columns := (n_time_steps_ solver * (4 * n_dofs + 1)).

Lemma dmp_after_dim_orig (k : nat) (dmp : Dmp) :
  dim_orig (dmp_after solver samples k dmp) = dim_orig dmp.
Proof.
  induction k as [|k IH]; [reflexivity|].
  cbn [dmp_after]. rewrite dmp_dim_orig. exact IH.
Qed.

(** One rollout: row [k] of [cost_vars] becomes the record of the [Dmp]
    with the parameters of sample [k]. *)
Lemma rollout_row ts k v cost_vars (dmp : Dmp) :
  columns <= Int.max_int ->
  vec_size ts = n_time_steps_ solver ->
  dim_orig dmp = n_dofs -> length v = length samples ->
  shaped n_samples columns cost_vars -> cols cost_vars = columns ->
  0 <= k < n_samples ->
  let dmp' := setModelParametersVectors
                (sample_parameters samples (Z.to_nat k))
                (use_normalized_parameter_ solver) dmp in
  rollout solver samples n_dofs ts k v cost_vars dmp
  = Done ((sample_parameters samples (Z.to_nat k),
           mkMatrix columns
             (<[Z.to_nat k := rollout_record dmp' ts]> (coeffs cost_vars))),
          dmp') /\
  vec_size (rollout_record dmp' ts) = columns.
Proof.
  intros Hfit Hts Hdim Hv [Hrows Hall] Hcols Hk dmp'. unfold rollout.
  rewrite (bind_done _ _ _ _ _
             (model_parameters_result samples n_samples k dmp samples_rows Hk
                (Z.to_nat n_dofs) 0 v ltac:(lia) Hv eq_refl)).
  cbn [bind get put]. fold dmp'.
  assert (dim_orig dmp' = n_dofs) as Hdim'
    by (subst dmp'; rewrite dmp_dim_orig; auto).
  pose proof (dmp_trajectories dmp' ts) as Htraj.
  unfold trajectories_shaped in Htraj. unfold rollout_record.
  destruct (analyticalSolution dmp' ts) as [[xs_ana xds_ana] forcing_terms].
  destruct (statesAsTrajectory dmp' xs_ana xds_ana) as [[ys_ana yds_ana] ydds_ana].
  rewrite Hdim', Hts in Htraj. destruct Htraj as (Hy & Hyd & Hydd & Hf).
  destruct cost_vars as [c L]. cbn [cols coeffs] in *. subst c.
  unfold rows in Hrows. cbn [coeffs] in Hrows.
  destruct (L !! Z.to_nat k) as [old|] eqn:Hold;
    [|apply lookup_ge_None in Hold; lia].
  assert (vec_size old = columns) as Hlen.
  { rewrite Forall_forall in Hall. apply Hall.
    eapply list_elem_of_lookup_2, Hold. }
  destruct (time_steps_loop_row n_dofs (n_time_steps_ solver) columns
              ltac:(lia) eq_refl Hfit ys_ana yds_ana ydds_ana ts forcing_terms
              Hy Hyd Hydd Hf Hts L k ltac:(lia) dmp'
              (Z.to_nat (n_time_steps_ solver)) 0 old Hlen ltac:(lia)
              ltac:(lia)) as (new & E & N & Tk).
  rewrite (list_insert_id L (Z.to_nat k) old Hold) in E.
  change (0 * (4 * n_dofs + 1)) with 0 in E, Tk.
  rewrite (bind_done _ _ _ _ _ E). cbn [fst snd ret].
  assert (new = concat (map (time_step_record ys_ana yds_ana ydds_ana ts
                               forcing_terms) (seq 0 (length ts)))) as <-.
  { rewrite take_ge in Tk by (unfold vec_size in N; lia).
    rewrite Tk. cbn [take app Z.to_nat]. unfold vec_size in Hts.
    replace (length ts) with (Z.to_nat (n_time_steps_ solver)) by lia.
    reflexivity. }
  auto.
Qed.

(** The loop over the samples, from any of its passes on: the rows of the
    samples passed hold their records. *)
Lemma rollouts_loop_rows ts (dmp : Dmp) :
  columns <= Int.max_int ->
  vec_size ts = n_time_steps_ solver -> dim_orig dmp = n_dofs ->
  forall (m k : nat) v cost_vars,
    length v = length samples ->
    shaped n_samples columns cost_vars -> cols cost_vars = columns ->
    Z.of_nat (k + m) <= n_samples ->
    rollouts_loop solver samples n_dofs ts m (Z.of_nat k) v cost_vars
      (dmp_after solver samples k dmp)
    = Done (mkMatrix columns
              (take k (coeffs cost_vars)
               ++ map (fun j => rollout_record
                                  (dmp_after solver samples (S j) dmp) ts)
                    (seq k m)
               ++ drop (k + m) (coeffs cost_vars)),
            dmp_after solver samples (k + m) dmp).
Proof.
  intros Hfit Hts Hdim. induction m as [|m IH];
    intros k v cost_vars Hv Hcv Hcols Hm.
  - cbn [rollouts_loop seq map app]. rewrite Nat.add_0_r, take_drop.
    destruct cost_vars as [c L]. cbn [cols coeffs] in *. subst c. reflexivity.
  - cbn [rollouts_loop].
    destruct (rollout_row ts (Z.of_nat k) v cost_vars
                (dmp_after solver samples k dmp) Hfit Hts
                ltac:(rewrite dmp_after_dim_orig; exact Hdim) Hv Hcv Hcols
                ltac:(lia)) as [E N].
    rewrite Nat2Z.id in E, N.
    change (setModelParametersVectors (sample_parameters samples k)
              (use_normalized_parameter_ solver)
              (dmp_after solver samples k dmp))
      with (dmp_after solver samples (S k) dmp) in E, N.
    rewrite (bind_done _ _ _ _ _ E). cbn [fst snd].
    destruct Hcv as [Hrows Hall]. unfold rows in Hrows.
    replace (Z.of_nat k + 1) with (Z.of_nat (S k)) by lia.
    rewrite IH; cycle 1.
    { unfold sample_parameters. apply length_map. }
    { split.
      - unfold rows. cbn [coeffs]. rewrite length_insert. exact Hrows.
      - cbn [coeffs]. apply Forall_insert; assumption. }
    { reflexivity. }
    { lia. }
    cbn [coeffs]. do 2 f_equal; [|f_equal; lia].
    f_equal.
    assert (k < length (coeffs cost_vars))%nat as Hk by lia.
    rewrite (take_S_r _ k _ (list_lookup_insert_eq _ _ _ Hk)).
    rewrite take_insert_ge by lia. rewrite drop_insert_lt by lia.
    rewrite <- app_assoc. cbn [app seq map].
    replace (S k + m)%nat with (k + S m)%nat by lia. reflexivity.
Qed.

(** Up to the loop over the samples: the assertions hold and [cost_vars]
    is resized. *)
Lemma performRollouts_resized task_parameters (dmp : Dmp) :
  0 < n_dofs -> dim_orig dmp = n_dofs ->
  n_samples <= Int.max_int ->
  4 * n_dofs + 1 <= Int.max_int ->
  columns <= Int.max_int ->
  0 <= n_samples /\
  performRollouts solver samples task_parameters dmp
  = rollouts_loop solver samples n_dofs
      (LinSpaced (n_time_steps_ solver) zero (integrate_time_ solver))
      (Z.to_nat n_samples) 0 (replicate (Z.to_nat n_dofs) [])
      (mkMatrix columns
         (replicate (Z.to_nat n_samples)
            (replicate (Z.to_nat columns) unwritten)))
      dmp.
Proof.
  intros Hpos Hdim Hfit_s Hfit_c Hfit.
  assert (0 <= n_samples) as Hns.
  { destruct samples as [|s0 rest]; [cbn in samples_size; lia|].
    pose proof samples_rows as Hs. apply Forall_cons in Hs as [<- _].
    unfold rows. lia. }
  split; [exact Hns|].
  unfold performRollouts.
  assert (Int.wrap (Z.of_nat (length samples)) = n_dofs) as Hn.
  { rewrite samples_size. apply Int_wrap_in_range.
    unfold Int.in_range, Int.min_int, Int.max_int in *. lia. }
  rewrite Hn. cbv zeta.
  replace (0 <? n_dofs) with true by lia. cbn [assert bind ret get].
  rewrite Hdim, Z.eqb_refl. cbn [assert bind ret]. unfold at_index.
  destruct (samples !! 0%nat) as [s0|] eqn:Hl;
    [|apply lookup_ge_None in Hl; lia].
  cbn [bind ret].
  assert (rows s0 = n_samples) as Hrows.
  { pose proof samples_rows as Hs. rewrite Forall_forall in Hs. apply Hs.
    eapply list_elem_of_lookup_2, Hl. }
  rewrite Hrows, (Int_wrap_in_range n_samples)
    by (unfold Int.in_range, Int.min_int, Int.max_int in *; lia).
  pose proof (assert_rows_run samples n_samples dmp samples_rows
                (Z.to_nat (n_dofs - 1)) 1 ltac:(lia)) as Ha.
  rewrite (bind_done _ _ _ _ _ Ha).
  replace (n_time_steps_ solver <? 0) with false by lia. cbn [bind ret].
  unfold Int.add, Int.mul.
  rewrite (Int_wrap_in_range (4 * n_dofs))
    by (unfold Int.in_range, Int.min_int, Int.max_int in *; lia).
  rewrite (Int_wrap_in_range (4 * n_dofs + 1))
    by (unfold Int.in_range, Int.min_int, Int.max_int in *; lia).
  rewrite (Int_wrap_in_range columns)
    by (unfold Int.in_range, Int.min_int, Int.max_int in *; nia).
  unfold matrix_alloc.
  replace ((n_samples <? 0) || (columns <? 0)) with false by nia.
  cbn [bind ret]. reflexivity.
Qed.

(** X13.  What [performRollouts] computes, on a vector of [n_dofs] matrices
    of [n_samples] rows each, [n_dofs] being above zero and the number of
    degrees of freedom of the [Dmp]: row [k] of [cost_vars] is the rollout
    of the [Dmp] with the parameters of sample [k], which are row [k] of
    each of the matrices; it holds, for each time step in turn, the
    positions, the velocities, the accelerations, the time and the forcing
    terms.  Nothing is left of the storage that the [resize] gave, and a
    call without samples returns a matrix without rows.  The [Dmp] is left
    with the parameters of the last sample.  The sizes are computed on
    [int]: the property is stated where they do not overflow. *)
Theorem performRollouts_rows task_parameters (dmp : Dmp) :
  0 < n_dofs -> dim_orig dmp = n_dofs ->
  n_samples <= Int.max_int ->
  4 * n_dofs + 1 <= Int.max_int ->
  columns <= Int.max_int ->
  performRollouts solver samples task_parameters dmp
  = Done (mkMatrix columns
            (map (fun k => rollout_record
                             (dmp_after solver samples (S k) dmp)
                             (LinSpaced (n_time_steps_ solver) zero
                                (integrate_time_ solver)))
               (seq 0 (Z.to_nat n_samples))),
          dmp_after solver samples (Z.to_nat n_samples) dmp).
Proof.
  intros Hpos Hdim Hfit_s Hfit_c Hfit.
  destruct (performRollouts_resized task_parameters dmp Hpos Hdim Hfit_s Hfit_c
              Hfit) as [Hns ->].
  pose proof (rollouts_loop_rows
                (LinSpaced (n_time_steps_ solver) zero (integrate_time_ solver))
                dmp Hfit (LinSpaced_size _ _ _ time_steps_nonneg) Hdim
                (Z.to_nat n_samples) 0 (replicate (Z.to_nat n_dofs) [])
                (mkMatrix columns
                   (replicate (Z.to_nat n_samples)
                      (replicate (Z.to_nat columns) unwritten)))) as Hloop.
  change (Z.of_nat 0) with 0 in Hloop.
  change (dmp_after solver samples 0 dmp) with dmp in Hloop.
  change (0 + Z.to_nat n_samples)%nat with (Z.to_nat n_samples) in Hloop.
  cbn [coeffs] in Hloop. rewrite take_0 in Hloop. cbn [app] in Hloop.
  rewrite Hloop; cycle 1.
  { rewrite length_replicate. lia. }
  { unfold shaped, rows, vec_size. cbn [coeffs].
    rewrite length_replicate. split; [lia|].
    apply Forall_replicate. rewrite length_replicate. nia. }
  { reflexivity. }
  { lia. }
  rewrite drop_ge by (rewrite length_replicate; lia).
  rewrite app_nil_r. reflexivity.
Qed.

End Result.

(** The loop of assertions stops at a matrix with another number of rows. *)
Lemma assert_rows_abort (samples : list (MatrixXd double)) n_samples (dmp : Dmp) :
  forall (m dd : nat),
    (dd + m <= length samples)%nat ->
    (exists (i : nat) s, (dd <= i < dd + m)%nat /\ samples !! i = Some s
                         /\ rows s <> n_samples) ->
    assert_rows samples n_samples m dd dmp = Aborted "assertion failed".
Proof.
  induction m as [|m IH]; intros dd Hdd (i & s & Hi & Hl & Hne); [lia|].
  cbn [assert_rows]. unfold at_index.
  destruct (samples !! dd) as [s'|] eqn:Hl'; [|apply lookup_ge_None in Hl'; lia].
  cbn [bind ret].
  destruct (rows s' =? n_samples) eqn:E; [|reflexivity].
  cbn [assert bind ret]. apply IH; [lia|].
  exists i, s. split; [|auto].
  destruct (decide (i = dd)) as [->|Hn]; [|lia].
  rewrite Hl' in Hl. injection Hl as ->. lia.
Qed.

(** X14.  [performRollouts] checks its samples with assertions, which end
    the program: on no matrix at all, on a number of matrices that is not
    the number of degrees of freedom of the [Dmp], and on matrices that do
    not all have the number of rows of the first.  The sizes are read as
    [int]: the property is stated where they fit. *)
Theorem performRollouts_asserts_sizes (solver : TaskSolverDmp double)
    (samples : list (MatrixXd double)) task_parameters (dmp : Dmp) :
  Z.of_nat (length samples) <= Int.max_int ->
  Forall (fun s => rows s <= Int.max_int) samples ->
  samples = []
  \/ Z.of_nat (length samples) <> dim_orig dmp
  \/ (exists s0 s, samples !! 0%nat = Some s0 /\ s ∈ samples
                   /\ rows s <> rows s0) ->
  performRollouts solver samples task_parameters dmp
  = Aborted "assertion failed".
Proof.
  intros Hfit Hrows Hbad. unfold performRollouts.
  rewrite (Int_wrap_in_range (Z.of_nat (length samples)))
    by (unfold Int.in_range, Int.min_int, Int.max_int in *; lia).
  cbv zeta.
  destruct (0 <? Z.of_nat (length samples)) eqn:E0; [|reflexivity].
  cbn [assert bind ret get].
  destruct (Z.of_nat (length samples) =? dim_orig dmp) eqn:E1; [|reflexivity].
  cbn [assert bind ret].
  destruct Hbad as [->|[Hbad|(s0 & s & Hl0 & Hin & Hne)]];
    [discriminate|lia|].
  unfold at_index. rewrite Hl0. cbn [bind ret].
  assert (Int.wrap (rows s0) = rows s0) as ->.
  { apply Int_wrap_in_range. rewrite Forall_forall in Hrows.
    pose proof (Hrows s0 (list_elem_of_lookup_2 _ _ _ Hl0)).
    unfold Int.in_range, Int.min_int, Int.max_int, rows in *. lia. }
  unfold bind at 1. rewrite assert_rows_abort; [reflexivity|lia|].
  apply list_elem_of_lookup_1 in Hin as (i & Hi).
  exists i, s. split; [|auto].
  apply lookup_lt_Some in Hi as Hlt.
  destruct i as [|i]; [|lia].
  rewrite Hl0 in Hi. injection Hi as ->. contradiction.
Qed.

End RolloutContents.

(** ** The accessors of [DmpExtendedDimensions] *)


(** * The properties at work on the concrete instance *)

(** A file system on which no path is denied can take the checkpoints of
    any run. *)
Lemma nothing_denied_ready (w : World Z Z) (save_directory : string)
    (only_learning_curve : bool) (n_updates : Z) :
  denied w = ∅ ->
  directories_can_be_made w save_directory only_learning_curve n_updates.
Proof.
  intros Hw _. rewrite Hw. split; [|intros i _]; apply not_elem_of_empty.
Qed.

(** ** Witnesses of the claims *)

(** The second of three updates. *)
Lemma runOptimization_accepts_every_update_witness :
  ∃ (st : LoopState Z) (w_i : World Z Z) (st' : LoopState Z) 
    (w' : World Z Z) (evs : list (Event Z)),
    after_updates cost_function initial_distribution
      (shift_updater (-1)) 3 2 "out" false 1 empty_world =
    Done (st, w_i)
    ∧ after_updates cost_function initial_distribution
        (shift_updater (-1)) 3 2 "out" false 2 empty_world =
      Done (st', w')
      ∧ after_updates cost_function initial_distribution
          (shift_updater (-1)) 3 2 "out" false 
          (Z.to_nat 3) empty_world =
        optimization_loop cost_function (shift_updater (-1)) 2 "out"
          false (Z.to_nat 3 - 2) (Z.of_nat 2) st' w'
        ∧ trace w' = trace w_i ++ evs
          ∧ updates_in evs =
            [(distribution st, drawn_samples 2 st w_i,
              sample_costs cost_function (drawn_samples 2 st w_i))]
            ∧ distribution st' =
              (updateDistribution (shift_updater (-1)) 
                 (distribution st) (drawn_samples 2 st w_i)
                 (sample_costs cost_function (drawn_samples 2 st w_i))).2.
Proof.
  apply (runOptimization_accepts_every_update shifted_samples_rows cost_function
           initial_distribution (shift_updater (-1)) 3 2 "out" false);
    [lia | lia | lia | apply nothing_denied_ready; reflexivity].
Defined.

(** The second row of a learning curve of three. *)
Lemma learning_curve_row_witness :
  ∃ (st_i : LoopState Z) (w_i : World Z Z) (st_n : LoopState Z) 
    (w_n : World Z Z),
    after_updates cost_function initial_distribution
      (shift_updater (-1)) 3 2 "out" false 1 empty_world =
    Done (st_i, w_i)
    ∧ after_updates cost_function initial_distribution
        (shift_updater (-1)) 3 2 "out" false 
        (Z.to_nat 3) empty_world =
      Done (st_n, w_n)
      ∧ coeffs (learning_curve st_n) !! 1%nat =
        Some
          [double_of_int (Z.of_nat 1 * 2);
           evaluate cost_function (mean (distribution st_i));
           sqrt (maxEigenValue (distribution st_i))]
        ∧ runOptimization cost_function initial_distribution
            (shift_updater (-1)) 3 2 "out" false false empty_world =
          (let* _
           := saveMatrix "out" "learning_curve.txt"
                (RealMatrix (learning_curve st_n)) false
           in ret ()) w_n.
Proof.
  apply (learning_curve_row shifted_samples_rows cost_function
           initial_distribution (shift_updater (-1)) 3 2 "out" false);
    [lia | lia | lia | reflexivity
    | unfold Int.in_range, Int.min_int, Int.max_int; lia
    | apply nothing_denied_ready; reflexivity].
Defined.

(** The events of the second of three updates. *)
Lemma probe_cost_before_sampling_witness :
  ∃ (st : LoopState Z) (w_i : World Z Z) (st' : LoopState Z) 
    (w' : World Z Z) (book : list (Event Z)),
    after_updates cost_function initial_distribution
      (shift_updater (-1)) 3 2 "out" false 1 empty_world =
    Done (st, w_i)
    ∧ after_updates cost_function initial_distribution
        (shift_updater (-1)) 3 2 "out" false 2 empty_world =
      Done (st', w')
      ∧ trace w' =
        trace w_i ++
        Evaluate (mean (distribution st))
        :: GenerateSamples (distribution st) 2
           :: map Evaluate (coeffs (drawn_samples 2 st w_i)) ++
              UpdateDistribution (distribution st)
                (drawn_samples 2 st w_i)
                (sample_costs cost_function (drawn_samples 2 st w_i))
              :: book
        ∧ Forall is_bookkeeping book
          ∧ cost_eval st' =
            evaluate cost_function (mean (distribution st)).
Proof.
  apply (probe_cost_before_sampling shifted_samples_rows cost_function
           initial_distribution (shift_updater (-1)) 3 2 "out" false);
    [lia | lia | lia | apply nothing_denied_ready; reflexivity].
Defined.


(** Three updates of a run that writes checkpoints, and three updates of a
    run without a save directory. *)
Lemma final_distribution_only_in_checkpoint_witness :
  (∃ (st_p : LoopState Z) (w_p : World Z Z) (st : LoopState Z) 
     (w_n w' : World Z Z) (evs : list (Event Z)),
     after_updates cost_function initial_distribution
       (shift_updater (-1)) 3 2 "out" false (Z.to_nat 3 - 1) empty_world =
     Done (st_p, w_p)
     ∧ after_updates cost_function initial_distribution
         (shift_updater (-1)) 3 2 "out" false 
         (Z.to_nat 3) empty_world =
       Done (st, w_n)
       ∧ runOptimization cost_function initial_distribution
           (shift_updater (-1)) 3 2 "out" false false empty_world =
         Done ((), w')
         ∧ distribution st =
           (updateDistribution (shift_updater (-1)) 
              (distribution st_p) (drawn_samples 2 st_p w_p)
              (sample_costs cost_function (drawn_samples 2 st_p w_p))).2
           ∧ trace w_n = trace w_p ++ evs
             ∧ (is_empty "out" || false = true
                → ∀ updater' : Updater Z,
                    after_updates cost_function initial_distribution
                      updater' 3 2 "out" false 
                      (Z.to_nat 3 - 1) empty_world =
                    Done (st_p, w_p)
                    → runOptimization cost_function initial_distribution
                        updater' 3 2 "out" false false empty_world =
                      Done ((), w'))
               ∧ (is_empty "out" = false
                  → false = false
                    → Forall (λ e : Event Z, ¬ failed e) evs
                      → (update_directory "out" (3 - 1),
                         ("distribution_new_mean.txt",
                          RealVector (mean (distribution st))))
                        ∈ written evs
                        ∧ (update_directory "out" (3 - 1),
                           ("distribution_new_covar.txt",
                            RealMatrix (covar (distribution st))))
                          ∈ written evs))
  /\
  (∃ (st_p : LoopState Z) (w_p : World Z Z) (st : LoopState Z) 
     (w_n w' : World Z Z) (evs : list (Event Z)),
     after_updates cost_function initial_distribution
       (shift_updater (-1)) 3 2 EmptyString false (Z.to_nat 3 - 1) empty_world =
     Done (st_p, w_p)
     ∧ after_updates cost_function initial_distribution
         (shift_updater (-1)) 3 2 EmptyString false (Z.to_nat 3) empty_world =
       Done (st, w_n)
       ∧ runOptimization cost_function initial_distribution
           (shift_updater (-1)) 3 2 EmptyString false false empty_world =
         Done ((), w')
         ∧ distribution st =
           (updateDistribution (shift_updater (-1)) 
              (distribution st_p) (drawn_samples 2 st_p w_p)
              (sample_costs cost_function (drawn_samples 2 st_p w_p))).2
           ∧ trace w_n = trace w_p ++ evs
             ∧ (is_empty EmptyString || false = true
                → ∀ updater' : Updater Z,
                    after_updates cost_function initial_distribution
                      updater' 3 2 EmptyString false (Z.to_nat 3 - 1) empty_world =
                    Done (st_p, w_p)
                    → runOptimization cost_function initial_distribution
                        updater' 3 2 EmptyString false false empty_world =
                      Done ((), w'))
               ∧ (is_empty EmptyString = false
                  → false = false
                    → Forall (λ e : Event Z, ¬ failed e) evs
                      → (update_directory EmptyString (3 - 1),
                         ("distribution_new_mean.txt",
                          RealVector (mean (distribution st))))
                        ∈ written evs
                        ∧ (update_directory EmptyString (3 - 1),
                           ("distribution_new_covar.txt",
                            RealMatrix (covar (distribution st))))
                          ∈ written evs)).
Proof.
  split.
  - apply (final_distribution_only_in_checkpoint shifted_samples_rows cost_function
             initial_distribution (shift_updater (-1)) 3 2 "out" false false);
      [lia | lia | lia | apply nothing_denied_ready; reflexivity].
  - apply (final_distribution_only_in_checkpoint shifted_samples_rows cost_function
             initial_distribution (shift_updater (-1)) 3 2 EmptyString false false);
      [lia | lia | lia | apply nothing_denied_ready; reflexivity].
Defined.



(** A checkpoint with a probe cost and costs, without samples and weights. *)
Lemma saveToDirectory_optional_witness :
  ∃ (r : bool) (w' : World Z Z) (evs : list (Event Z)),
    saveToDirectory "out" 3 [initial_distribution] 
      (Some 7) no_samples [5] no_weights [other_distribution] true
      empty_world =
    Done (r, w')
    ∧ trace w' = trace empty_world ++ evs
      ∧ (∀ (dir : string) (c : Contents Z),
           (dir, ("cost_eval.txt", c)) ∈ attempted evs
           → ∃ x : Z, Some 7 = Some x ∧ c = RealVector [x])
        ∧ (∀ (dir : string) (c : Contents Z),
             (dir, ("samples.txt", c)) ∈ attempted evs
             → 0 < mat_size no_samples
               ∧ 0 < rows no_samples ∧ c = RealMatrix no_samples)
          ∧ (∀ (dir : string) (c : Contents Z),
               (dir, ("costs.txt", c)) ∈ attempted evs
               → 0 < vec_size [5] ∧ c = RealVector [5])
            ∧ (∀ (dir : string) (c : Contents Z),
                 (dir, ("weights.txt", c)) ∈ attempted evs
                 → 0 < vec_size no_weights ∧ c = RealVector no_weights)
              ∧ (r = true
                 → (∀ x : Z,
                      Some 7 = Some x
                      → (update_directory "out" 3,
                         ("cost_eval.txt", RealVector [x]))
                        ∈ written evs)
                   ∧ (0 < mat_size no_samples
                      → (update_directory "out" 3,
                         ("samples.txt", RealMatrix no_samples))
                        ∈ written evs)
                     ∧ (0 < vec_size [5]
                        → (update_directory "out" 3,
                           ("costs.txt", RealVector [5]))
                          ∈ written evs)
                       ∧ (0 < vec_size no_weights
                          → (update_directory "out" 3,
                             ("weights.txt", RealVector no_weights))
                            ∈ written evs)).
Proof.
  apply (saveToDirectory_optional "out" 3 [initial_distribution] (Some 7)
           no_samples [5] no_weights [other_distribution] true empty_world);
    [reflexivity | apply not_elem_of_empty | apply not_elem_of_empty].
Defined.

(** A checkpoint whose probe cost is already there, written without
    [overwrite]: the call returns false and the file keeps its contents.  A
    checkpoint whose save directory cannot be made, and one whose update
    directory cannot be made: the call does not return. *)
Lemma saveToDirectory_at_first_failure_witness :
  (exists r w' evs,
     saveToDirectory "out" 1 [initial_distribution] (Some 7) no_samples [5]
       no_weights [other_distribution] false stale_world = Done (r, w') /\
     trace w' = trace stale_world ++ evs /\
     r = false /\
     files w' !! file_path (update_directory "out" 1) "cost_eval.txt"
     = Some (RealVector [0]))
  /\
  saveToDirectory "out" 3 [initial_distribution] (Some 7) no_samples [5]
    no_weights [other_distribution] false read_only_world
  = Aborted "filesystem_error"
  /\
  saveToDirectory "out" 3 [initial_distribution] (Some 7) no_samples [5]
    no_weights [other_distribution] false closed_directory_world
  = Aborted "filesystem_error".
Proof.
  split; [|split].
  - destruct (proj1 (saveToDirectory_at_first_failure "out" 1
                       [initial_distribution] (Some 7) no_samples [5]
                       no_weights [other_distribution] false stale_world
                       eq_refl))
      as (r & w' & evs & E & Ht & _ & Hkept);
      [apply not_elem_of_empty | apply not_elem_of_empty |].
    exists r, w', evs. split; [exact E|]. split; [exact Ht|].
    refine (Hkept eq_refl "cost_eval.txt"%string (RealVector [7])
              (RealVector [0]) _ eq_refl).
    vm_compute.
    repeat first [apply list_elem_of_here | apply list_elem_of_further].
  - apply (proj1 (proj2 (saveToDirectory_at_first_failure "out" 3
                           [initial_distribution] (Some 7) no_samples [5]
                           no_weights [other_distribution] false
                           read_only_world eq_refl))).
    + vm_compute. reflexivity.
    + set_solver.
  - apply (proj2 (proj2 (saveToDirectory_at_first_failure "out" 3
                           [initial_distribution] (Some 7) no_samples [5]
                           no_weights [other_distribution] false
                           closed_directory_world eq_refl))).
    + set_solver.
    + vm_compute. reflexivity.
    + set_solver.
Defined.

(** Two samples of a [Dmp] with two degrees of freedom, over three time steps. *)
Lemma performRollouts_cost_vars_witness :
  performRollouts solver two_samples no_samples [] =
  rollouts_loop solver two_samples 2
    (LinSpaced (n_time_steps_ solver) zero (integrate_time_ solver))
    (Z.to_nat 2) 0 (replicate (Z.to_nat 2) [])
    {|
      cols := n_time_steps_ solver * (4 * 2 + 1);
      coeffs :=
        replicate (Z.to_nat 2)
          (replicate (Z.to_nat (n_time_steps_ solver * (4 * 2 + 1)))
             unwritten)
    |} []
  ∧ (∃ (cost_vars : MatrixXd Z) (dmp' : Dmp),
       performRollouts solver two_samples no_samples [] =
       Done (cost_vars, dmp')
       ∧ rows cost_vars = 2
         ∧ cols cost_vars = n_time_steps_ solver * (4 * 2 + 1)
           ∧ Forall
               (λ r : list Z,
                  vec_size r = n_time_steps_ solver * (4 * 2 + 1))
               (coeffs cost_vars))
    ∧ ∀ (tt : nat) (k : Z) (ys_ana yds_ana ydds_ana : MatrixXd Z) 
        (ts : list Z) (forcing_terms cost_vars : MatrixXd Z),
        Z.of_nat tt ≤ n_time_steps_ solver
        → 0 ≤ k < 2
          → shaped (n_time_steps_ solver) 2 ys_ana
            → shaped (n_time_steps_ solver) 2 yds_ana
              → shaped (n_time_steps_ solver) 2 ydds_ana
                → shaped (n_time_steps_ solver) 2 forcing_terms
                  → vec_size ts = n_time_steps_ solver
                    → shaped 2 (n_time_steps_ solver * (4 * 2 + 1))
                        cost_vars
                      → cols cost_vars =
                        n_time_steps_ solver * (4 * 2 + 1)
                        → ∃ cost_vars' : MatrixXd Z,
                            time_steps_loop 2 k ys_ana yds_ana ydds_ana
                              ts forcing_terms tt 0 0 cost_vars [] =
                            Done
                              (Z.of_nat tt * (4 * 2 + 1), cost_vars', [])
                            ∧ rows cost_vars' = 2
                              ∧ cols cost_vars' =
                                n_time_steps_ solver * (4 * 2 + 1).
Proof.
  apply (performRollouts_cost_vars solver two_samples 2 2
           constant_trajectories (fun _ _ _ => eq_refl) counting_LinSpaced_size);
    [reflexivity | repeat constructor | cbn; lia | lia | reflexivity
    | unfold Int.max_int; cbn; lia | unfold Int.max_int; cbn; lia | unfold Int.max_int; cbn; lia].
Defined.

(** ** Where the design document and the code part *)


(** C5, as the design document has it, fails.  Two runs that differ in the
    updater end with different distributions, and hand the same to their
    caller: the value returned, the files, the console and the random
    number generator are the same.  What the caller gets does not hold the
    final distribution.  This is so in a run that keeps only the learning
    curve and in a run without a save directory. *)
Lemma final_distribution_not_returned :
  runOptimization cost_function initial_distribution (shift_updater 1)
    1 2 "out" false true empty_world
  = runOptimization cost_function initial_distribution (shift_updater 2)
      1 2 "out" false true empty_world
  /\
  final_distribution
    (after_updates cost_function initial_distribution (shift_updater 1)
       1 2 "out" true 1 empty_world)
  = Some (mkDistribution [4; 5] (mkMatrix 2 [[4; 0]; [0; 9]]))
  /\
  final_distribution
    (after_updates cost_function initial_distribution (shift_updater 2)
       1 2 "out" true 1 empty_world)
  = Some (mkDistribution [5; 6] (mkMatrix 2 [[4; 0]; [0; 9]]))
  /\
  runOptimization cost_function initial_distribution (shift_updater 1)
    1 2 EmptyString false false empty_world
  = runOptimization cost_function initial_distribution (shift_updater 2)
      1 2 EmptyString false false empty_world
  /\
  final_distribution
    (after_updates cost_function initial_distribution (shift_updater 1)
       1 2 EmptyString false 1 empty_world)
  = Some (mkDistribution [4; 5] (mkMatrix 2 [[4; 0]; [0; 9]]))
  /\
  final_distribution
    (after_updates cost_function initial_distribution (shift_updater 2)
       1 2 EmptyString false 1 empty_world)
  = Some (mkDistribution [5; 6] (mkMatrix 2 [[4; 0]; [0; 9]])).
Proof. repeat split; vm_compute; reflexivity. Qed.

(** ** Witnesses of the further properties *)

(** Three updates on two samples each. *)
Lemma runOptimization_evaluation_count_witness :
  ∃ (w' : World Z Z) (evs : list (Event Z)) (batches : 
                                            list
                                            (DistributionGaussian Z *
                                            MatrixXd Z)),
    runOptimization cost_function initial_distribution
      (shift_updater (-1)) 3 2 "out" false false empty_world =
    Done ((), w')
    ∧ trace w' = trace empty_world ++ evs
      ∧ length batches = Z.to_nat 3
        ∧ Forall
            (λ b : DistributionGaussian Z * MatrixXd Z, rows b.2 = 2)
            batches
          ∧ updates_in evs =
            map
              (λ b : DistributionGaussian Z * MatrixXd Z,
                 (b.1, b.2, sample_costs cost_function b.2))
              batches
            ∧ evaluations_in evs =
              concat
                (map
                   (λ b : DistributionGaussian Z * MatrixXd Z,
                      mean b.1 :: coeffs b.2)
                   batches)
              ∧ length (evaluations_in evs) =
                (Z.to_nat 3 * S (Z.to_nat 2))%nat.
Proof.
  apply (runOptimization_evaluation_count shifted_samples_rows cost_function
           initial_distribution (shift_updater (-1)) 3 2 "out" false false);
    [lia | lia | apply nothing_denied_ready; reflexivity].
Defined.

(** Three updates without a save directory. *)
Lemma runOptimization_console_run_witness :
  ∃ (w' : World Z Z) (evs : list (Event Z)) (lines : list (Printed Z)),
    runOptimization cost_function initial_distribution
      (shift_updater (-1)) 3 2 EmptyString false false empty_world =
    Done ((), w')
    ∧ trace w' = trace empty_world ++ evs
      ∧ file_system_events evs = []
        ∧ dirs w' = dirs empty_world
          ∧ files w' = files empty_world
            ∧ printed_in evs = PrintInit initial_distribution :: lines
              ∧ length lines = Z.to_nat 3
                ∧ ∀ (j : nat) (line : Printed Z),
                    lines !! j = Some line
                    → ∃ (cost_eval : Z) (d : DistributionGaussian Z),
                        line =
                        PrintUpdate cost_eval (Int.add (Z.of_nat j) 1) d.
Proof.
  apply (runOptimization_console_run shifted_samples_rows cost_function
           initial_distribution (shift_updater (-1)) 3 2 EmptyString false
           false); [lia | lia | reflexivity].
Defined.

(** Three updates with a save directory. *)
Lemma runOptimization_saving_run_is_silent_witness :
  ∃ (w' : World Z Z) (evs : list (Event Z)),
    runOptimization cost_function initial_distribution
      (shift_updater (-1)) 3 2 "out" false false empty_world =
    Done ((), w')
    ∧ trace w' = trace empty_world ++ evs ∧ printed_in evs = [].
Proof.
  apply (runOptimization_saving_run_is_silent shifted_samples_rows cost_function
           initial_distribution (shift_updater (-1)) 3 2 "out" false
           false); [lia | lia | reflexivity | apply nothing_denied_ready; reflexivity].
Defined.

(** Three updates of which only the learning curve is kept. *)
Lemma runOptimization_only_learning_curve_witness :
  ∃ (w' : World Z Z) (evs : list (Event Z)) (lc : MatrixXd Z) 
    (ok : bool),
    runOptimization cost_function initial_distribution
      (shift_updater (-1)) 3 2 "out" false true empty_world =
    Done ((), w')
    ∧ trace w' = trace empty_world ++ evs
      ∧ file_system_events evs =
        [SaveMatrix "out" "learning_curve.txt" (RealMatrix lc) false ok]
        ∧ rows lc = 3 ∧ cols lc = 3.
Proof.
  apply (runOptimization_only_learning_curve shifted_samples_rows cost_function
           initial_distribution (shift_updater (-1)) 3 2 "out" false
           true); [lia | lia | reflexivity | reflexivity].
Defined.

(** Three updates of a run that was told to overwrite. *)
Lemma runOptimization_overwrite_flag_witness :
  ∃ (w' : World Z Z) (evs : list (Event Z)),
    runOptimization cost_function initial_distribution
      (shift_updater (-1)) 3 2 "out" true false empty_world =
    Done ((), w')
    ∧ trace w' = trace empty_world ++ evs
      ∧ ∀ (dir f : string) (c : Contents Z) (ow ok : bool),
          SaveMatrix dir f c ow ok ∈ evs
          → dir = "out" ∧ f = "learning_curve.txt" ∧ ow = true
            ∨ false = false
              ∧ ∃ j : nat,
                  Z.of_nat j < 3
                  ∧ dir = update_directory "out" (Z.of_nat j)
                    ∧ ow = default_overwrite.
Proof.
  apply (runOptimization_overwrite_flag shifted_samples_rows cost_function
           initial_distribution (shift_updater (-1)) 3 2 "out" true false);
    [lia | lia | apply nothing_denied_ready; reflexivity].
Defined.

(** The checkpoint of the second of three updates. *)
Lemma checkpoint_of_update_witness :
  ∃ (st : LoopState Z) (w_i : World Z Z) (st' : LoopState Z) 
    (w' : World Z Z) (evs : list (Event Z)),
    after_updates cost_function initial_distribution
      (shift_updater (-1)) 3 2 "out" false 1 empty_world =
    Done (st, w_i)
    ∧ after_updates cost_function initial_distribution
        (shift_updater (-1)) 3 2 "out" false 2 empty_world =
      Done (st', w')
      ∧ trace w' = trace w_i ++ evs
        ∧ attempted evs
          `prefix_of` map (pair (update_directory "out" (Z.of_nat 1)))
                        (checkpoint_layout [distribution st]
                           (Some (cost_eval st')) 
                           (samples st') (costs st') 
                           (weights st') [distribution st'])
          ∧ (Forall (λ e : Event Z, ¬ failed e) evs
             → written evs =
               map (pair (update_directory "out" (Z.of_nat 1)))
                 (checkpoint_layout [distribution st]
                    (Some (cost_eval st')) (samples st') 
                    (costs st') (weights st') [
                    distribution st'])).
Proof.
  apply (checkpoint_of_update shifted_samples_rows cost_function
           initial_distribution (shift_updater (-1)) 3 2 "out" false);
    [lia | lia | lia | reflexivity | reflexivity
    | apply nothing_denied_ready; reflexivity].
Defined.

(** Three updates on a file system where a file of the checkpoint of update 1
    is already there. *)
Lemma learning_curve_written_last_witness :
  ∃ (w' : World Z Z) (evs body : list (Event Z)) 
    (lc : MatrixXd Z) (ok : bool),
    runOptimization cost_function initial_distribution
      (shift_updater (-1)) 3 2 "out" false false stale_world =
    Done ((), w')
    ∧ trace w' = trace stale_world ++ evs
      ∧ file_system_events evs =
        file_system_events body ++
        [SaveMatrix "out" "learning_curve.txt" (RealMatrix lc) false ok]
        ∧ rows lc = 3
          ∧ cols lc = 3
            ∧ ∀ (dir f : string) (c : Contents Z) (ow b : bool),
                SaveMatrix dir f c ow b ∈ body
                → dir ≠ "out"
                  ∧ ∃ j : nat,
                      Z.of_nat j < 3
                      ∧ dir = update_directory "out" (Z.of_nat j).
Proof.
  apply (learning_curve_written_last shifted_samples_rows cost_function
           initial_distribution (shift_updater (-1)) 3 2 "out" false false);
    [lia | lia | reflexivity | apply nothing_denied_ready; reflexivity].
Defined.



(** A checkpoint into directories that are there. *)
Lemma saveToDirectory_existing_directories_witness :
  ∃ (r : bool) (w' : World Z Z) (evs : list (Event Z)),
    saveToDirectory "out" 3 [initial_distribution] 
      (Some 7) no_samples [5] no_weights [other_distribution] false
      prepared_world =
    Done (r, w')
    ∧ trace w' = trace prepared_world ++ evs
      ∧ dirs w' = dirs prepared_world
        ∧ (∀ (p : string) (ok : bool), CreateDirectories p ok ∉ evs)
          ∧ attempted evs
            `prefix_of` map (pair (update_directory "out" 3))
                          (checkpoint_layout [initial_distribution]
                             (Some 7) no_samples [5] no_weights
                             [other_distribution])
            ∧ (Forall (λ e : Event Z, ¬ failed e) evs
               → r = true
                 ∧ written evs =
                   map (pair (update_directory "out" 3))
                     (checkpoint_layout [initial_distribution] 
                        (Some 7) no_samples [5] no_weights
                        [other_distribution])).
Proof.
  apply (saveToDirectory_existing_directories "out" 3 [initial_distribution]
           (Some 7) no_samples [5] no_weights [other_distribution] false
           prepared_world);
    [vm_compute; reflexivity | vm_compute; reflexivity | reflexivity].
Defined.


(** An index of seven digits. *)
Lemma update_directory_injective_witness :
  1234567 = 1234567.
Proof.
  apply (update_directory_injective "out" 1234567 1234567);
    [unfold Int.max_int; lia | unfold Int.max_int; lia | reflexivity].
Defined.

(** Two samples of a [Dmp] with two degrees of freedom, over three time steps. *)
Lemma performRollouts_rows_witness :
  performRollouts solver two_samples no_samples [] =
  Done
    ({|
       cols := n_time_steps_ solver * (4 * 2 + 1);
       coeffs :=
         map
           (λ k : nat,
              rollout_record (dmp_after solver two_samples (S k) [])
                (LinSpaced (n_time_steps_ solver) zero
                   (integrate_time_ solver)))
           (seq 0 (Z.to_nat 2))
     |}, dmp_after solver two_samples (Z.to_nat 2) []).
Proof.
  apply (performRollouts_rows solver two_samples 2 2 constant_trajectories
           (fun _ _ _ => eq_refl) counting_LinSpaced_size);
    [reflexivity | repeat constructor | cbn; lia | lia | reflexivity
    | unfold Int.max_int; cbn; lia | unfold Int.max_int; cbn; lia | unfold Int.max_int; cbn; lia].
Defined.

(** Two matrices of samples, of two rows and of one. *)
Lemma performRollouts_asserts_sizes_witness :
  performRollouts solver uneven_samples no_samples [] =
  Aborted "assertion failed".
Proof.
  apply (performRollouts_asserts_sizes (dmp_ext:=dmp_externals) solver
           uneven_samples no_samples []);
    [unfold Int.max_int; cbn; lia
    | repeat constructor; unfold Int.max_int, rows; cbn; lia
    | right; right;
      exists (mkMatrix 1 [[7]; [8]]), (mkMatrix 2 [[1; 2]]);
      split; [reflexivity|]; split; [set_solver|]; unfold rows; cbn; lia].
Defined.

